(** * The YouTube summarizer and RAG notebooks, embedded in Rocq

    The repository is a set of Jupyter notebooks.  This development embeds
    the Python functions of their code cells:

    - [Summarizer]: [extract_video_id], [get_transcript], [summarize_text],
      [summarize_youtube_video] (and the identical methods of
      [YouTubeSummaryChain]) of the summarizer proof of concept;
    - [Rag]: [extract_video_id], [get_transcript], [process_videos] of the RAG
      proof of concept;
    - [Monitoring]: the [PerformanceMonitor] class and [process_video];
    - [SummarizerEval]: [calculate_metrics] and [evaluate_model_with_mlflow];
    - [RagEval]: [evaluate_rag_system];
    - [Chunker]: the text splitter, which the notebooks take from a library.

    Python values are modelled as follows.  [str] is [string]: a text whose
    characters are code points below 256, one [ascii] each.  [None] is the
    [None] of an [option], a [dict] with string keys is a [gmap string _]
    (its entries are traversed in the order of [map_to_list], where Python
    follows the order of insertion; only the order of log events depends on
    it), a [list] is a [list].  A [float] is the rational it denotes
    ([Qc]).  Scores and measured times are given by the services; the
    division of [calculate_metrics] is rounded to binary64 ([fdiv]); the
    means are taken by numpy and pandas, which are parameters
    ([np_mean], [series_mean]); the difference of two clock readings and
    the division of a memory size by 1024 are exact in binary64 and are
    written with the exact operations.  A call either returns
    a value or raises an exception ([result]); code with effects threads its
    state explicitly ([M]).  External services and libraries (the
    transcript API, the language models, the scorers, MLflow, [urllib],
    [str.format], the means of numpy and pandas) are parameters of the
    sections that use them. *)

From Stdlib Require Import String Ascii List ZArith QArith Qcanon Qabs Lia Permutation.
From stdpp Require Import base option list gmap strings pretty sets.

Local Open Scope string_scope.
Local Open Scope list_scope.

(** ** Python results and exceptions *)

(** The exceptions of the notebooks.  [UpstreamError] stands for whatever an
    external client raises (network failure, timeout, rate limit, missing
    transcript).  The last three are the typed failures and flags the
    specification names; they are here so that statements about them can be
    written. *)
Inductive exn : Type :=
| KeyError (key : string)
| IndexError
| ValueError (msg : string)
| NameError (name : string)
| UpstreamError (what : string)
| EmptyDocument
| GenerationFailed
| DriftDetected (metric_name : string).

Inductive result (A : Type) : Type :=
| Returns (a : A)
| Raises (e : exn).
Arguments Returns {A} a.
Arguments Raises {A} e.

Global Instance exn_eq_dec : EqDecision exn.
Proof. solve_decision. Defined.

Global Instance result_ret : MRet result := fun _ a => Returns a.
Global Instance result_fmap : FMap result := fun _ _ f r =>
  match r with
  | Returns a => Returns (f a)
  | Raises e => Raises e
  end.
Global Instance result_bind : MBind result := fun _ _ k r =>
  match r with
  | Returns a => k a
  | Raises e => Raises e
  end.

(** [str(e)] for the exceptions above, as the [print] calls show them. *)
Definition str_exn (e : exn) : string :=
  match e with
  | KeyError k => "'" +:+ k +:+ "'"
  | IndexError => "list index out of range"
  | ValueError m => m
  | NameError n => "name '" +:+ n +:+ "' is not defined"
  | UpstreamError w => w
  | EmptyDocument => "EmptyDocument"
  | GenerationFailed => "GenerationFailed"
  | DriftDetected m => "DriftDetected(" +:+ m +:+ ")"
  end.

(** [d[k]] on a dict and [l[0]] on a list. *)
Definition dict_getitem {V : Type} (d : gmap string V) (k : string) : result V :=
  match d !! k with
  | Some v => Returns v
  | None => Raises (KeyError k)
  end.

Definition list_getitem {A : Type} (l : list A) (i : nat) : result A :=
  match l !! i with
  | Some v => Returns v
  | None => Raises IndexError
  end.

(** ** State and exceptions

    [M S A] is a computation over a state [S] that returns an [A] or raises;
    the state reached is kept in both cases, as a Python [try] sees it. *)
Definition M (S A : Type) : Type := S -> result A * S.

Global Instance M_ret {S} : MRet (M S) := fun _ a w => (Returns a, w).
Global Instance M_bind {S} : MBind (M S) := fun _ _ k m w =>
  match m w with
  | (Returns a, w') => k a w'
  | (Raises e, w') => (Raises e, w')
  end.

Definition raise {S A} (e : exn) : M S A := fun w => (Raises e, w).

Definition lift {S A} (r : result A) : M S A := fun w => (r, w).

(** [try: body / except Exception as e: handler e]: every exception of [exn]
    is an [Exception]. *)
Definition try_except {S A} (body : M S A) (handler : exn -> M S A) : M S A :=
  fun w =>
    match body w with
    | (Returns a, w') => (Returns a, w')
    | (Raises e, w') => handler e w'
    end.

Definition modify {S} (f : S -> S) : M S unit := fun w => (Returns tt, f w).
Definition gets {S A} (f : S -> A) : M S A := fun w => (Returns (f w), w).

(** ** Strings *)

Definition str_truthy (s : string) : bool := negb (String.eqb s "").

(** [s[n:]] *)
Fixpoint str_drop (n : nat) (s : string) : string :=
  match n, s with
  | O, _ => s
  | S n', String _ s' => str_drop n' s'
  | S _, EmptyString => EmptyString
  end.

(** [s[:n]] *)
Fixpoint str_take (n : nat) (s : string) : string :=
  match n, s with
  | S n', String c s' => String c (str_take n' s')
  | _, _ => EmptyString
  end.

(** [s.find(c)] for one character. *)
Fixpoint str_find (c : ascii) (s : string) : option nat :=
  match s with
  | EmptyString => None
  | String d s' => if Ascii.eqb c d then Some 0 else S <$> str_find c s'
  end.

(** [s.rfind(c)] for one character. *)
Fixpoint str_rfind (c : ascii) (s : string) : option nat :=
  match s with
  | EmptyString => None
  | String d s' =>
      match str_rfind c s' with
      | Some i => Some (S i)
      | None => if Ascii.eqb c d then Some 0 else None
      end
  end.

(** [s.partition(c)]: the text before the first [c], whether [c] was found,
    the text after it. *)
Definition str_partition (c : ascii) (s : string) : string * bool * string :=
  match str_find c s with
  | Some i => (str_take i s, true, str_drop (S i) s)
  | None => (s, false, "")
  end.

(** [s.rpartition(c)] *)
Definition str_rpartition (c : ascii) (s : string) : string * bool * string :=
  match str_rfind c s with
  | Some i => (str_take i s, true, str_drop (S i) s)
  | None => ("", false, s)
  end.

(** [s.split(c)] for one character: empty fields are kept. *)
Fixpoint str_split (c : ascii) (s : string) : list string :=
  match s with
  | EmptyString => [""]
  | String d s' =>
      if Ascii.eqb c d then "" :: str_split c s'
      else match str_split c s' with
           | w :: ws => String d w :: ws
           | [] => [String d ""]
           end
  end.

(** [c.join(l)] *)
Fixpoint str_join (c : string) (l : list string) : string :=
  match l with
  | [] => ""
  | [w] => w
  | w :: ws => w +:+ c +:+ str_join c ws
  end.

Definition in_range (lo hi : nat) (c : ascii) : bool :=
  (lo <=? nat_of_ascii c)%nat && (nat_of_ascii c <=? hi)%nat.

Definition is_upper : ascii -> bool := in_range 65 90.
Definition is_lower : ascii -> bool := in_range 97 122.
Definition is_digit : ascii -> bool := in_range 48 57.
Definition is_alpha (c : ascii) : bool := is_upper c || is_lower c.

(** Python's [str.isspace] on the code points below 256: space, tab,
    newline, vertical tab, form feed, carriage return, the separators 28 to
    31, the next-line control 133 and the no-break space 160. *)
Definition is_space (c : ascii) : bool :=
  let n := nat_of_ascii c in
  (n =? 32)%nat || ((9 <=? n)%nat && (n <=? 13)%nat)
  || ((28 <=? n)%nat && (n <=? 31)%nat)
  || (n =? 133)%nat || (n =? 160)%nat.

Definition lower_char (c : ascii) : ascii :=
  if is_upper c then ascii_of_nat (nat_of_ascii c + 32) else c.

Fixpoint str_map (f : ascii -> ascii) (s : string) : string :=
  match s with
  | EmptyString => EmptyString
  | String c s' => String (f c) (str_map f s')
  end.

(** [s.lower()] on ASCII. *)
Definition str_lower : string -> string := str_map lower_char.

Fixpoint str_forallb (p : ascii -> bool) (s : string) : bool :=
  match s with
  | EmptyString => true
  | String c s' => p c && str_forallb p s'
  end.

Fixpoint str_filter (p : ascii -> bool) (s : string) : string :=
  match s with
  | EmptyString => EmptyString
  | String c s' => if p c then String c (str_filter p s') else str_filter p s'
  end.

Definition str_contains (c : ascii) (s : string) : bool :=
  match str_find c s with Some _ => true | None => false end.

(** [s.lstrip()] with the characters satisfying [p]. *)
Fixpoint str_lstrip (p : ascii -> bool) (s : string) : string :=
  match s with
  | EmptyString => EmptyString
  | String c s' => if p c then str_lstrip p s' else s
  end.

(** [s.strip()]: whitespace removed at both ends. *)
Definition str_strip (s : string) : string :=
  String.rev (str_lstrip is_space (String.rev (str_lstrip is_space s))).

(** [s.split()]: the maximal runs of non-space characters. *)
Fixpoint py_words_go (cur : option string) (s : string) : list string :=
  match s with
  | EmptyString =>
      match cur with Some w => [String.rev w] | None => [] end
  | String c s' =>
      if is_space c
      then match cur with
           | Some w => String.rev w :: py_words_go None s'
           | None => py_words_go None s'
           end
      else py_words_go (Some (String c (default "" cur))) s'
  end.

Definition py_words : string -> list string := py_words_go None.

(** ** [urllib.parse]

    [urlparse] and [parse_qs] belong to the Python standard library, not to
    the notebooks.  [extract_video_id] is embedded over any implementation of
    the two ([UrlLib]); [py_urllib] follows CPython 3.11 for the parts the
    notebooks read ([hostname], [path], [query]) on ASCII URLs.  Left out:
    the validation of a bracketed host as an IP address, the NFKC check of
    the host and the replacement of invalid UTF-8 in [unquote]. *)

Record ParseResult : Type := mkParseResult {
  scheme : string;
  netloc : string;
  path : string;
  params : string;
  query : string;
  fragment : string;
  hostname : option string
}.

Record UrlLib : Type := mkUrlLib {
  urlparse : string -> result ParseResult;
  parse_qs : string -> gmap string (list string)
}.

Module Urllib.

Definition scheme_char (c : ascii) : bool :=
  is_alpha c || is_digit c
  || Ascii.eqb c "+" || Ascii.eqb c "-" || Ascii.eqb c ".".

Definition uses_params : list string :=
  [""; "ftp"; "hdl"; "prospero"; "http"; "imap"; "https"; "shttp"; "rtsp";
   "rtspu"; "sip"; "sips"; "mms"; "sftp"; "tel"].

Definition unsafe_byte (c : ascii) : bool :=
  Ascii.eqb c "009" || Ascii.eqb c "010" || Ascii.eqb c "013".

Definition c0_control_or_space (c : ascii) : bool :=
  (nat_of_ascii c <=? 32)%nat.

(** The scheme of [url] and the rest: the text before the first colon when
    it starts with a letter and holds scheme characters only. *)
Definition split_scheme (url : string) : string * string :=
  match str_find ":" url with
  | Some (S i) =>
      let s := str_take (S i) url in
      if str_forallb is_alpha (str_take 1 url) && str_forallb scheme_char s
      then (str_lower s, str_drop (S (S i)) url)
      else ("", url)
  | _ => ("", url)
  end.

(** [_splitnetloc(url, 2)]: the network location runs to the first of
    [/], [?] and [#]. *)
Fixpoint splitnetloc (s : string) : string * string :=
  match s with
  | EmptyString => ("", "")
  | String c s' =>
      if Ascii.eqb c "/" || Ascii.eqb c "?" || Ascii.eqb c "#"
      then ("", s)
      else let '(n, r) := splitnetloc s' in (String c n, r)
  end.

Definition unbalanced_brackets (n : string) : bool :=
  (str_contains "[" n && negb (str_contains "]" n))
  || (str_contains "]" n && negb (str_contains "[" n)).

(** [_splitparams] *)
Definition splitparams (url : string) : string * string :=
  let from := match str_rfind "/" url with Some i => i | None => 0%nat end in
  match str_find ";" (str_drop from url) with
  | Some j => (str_take (from + j) url, str_drop (S (from + j)) url)
  | None => (url, "")
  end.

(** The [hostname] property: the host of the network location, without
    user information and port, in lower case; [None] when it is empty. *)
Definition hostname_of (netloc : string) : option string :=
  let '(_, _, hostinfo) := str_rpartition "@" netloc in
  let '(_, have_open_br, bracketed) := str_partition "[" hostinfo in
  let host :=
    if have_open_br
    then (str_partition "]" bracketed).1.1
    else (str_partition ":" hostinfo).1.1 in
  if str_truthy host
  then let '(h, percent, zone) := str_partition "%" host in
       Some (str_lower h +:+ (if percent then "%" else "") +:+ zone)
  else None.

Definition urlparse (url0 : string) : result ParseResult :=
  let url := str_filter (fun c => negb (unsafe_byte c))
               (str_lstrip c0_control_or_space url0) in
  let '(sch, url) := split_scheme url in
  '(nl, url) ←
    (if String.eqb (str_take 2 url) "//"
     then let '(nl, rest) := splitnetloc (str_drop 2 url) in
          if unbalanced_brackets nl
          then Raises (ValueError "Invalid IPv6 URL")
          else Returns (nl, rest)
     else Returns ("", url));
  let '(url, _, frag) := str_partition "#" url in
  let '(url, _, qs) := str_partition "?" url in
  let '(url, prm) :=
    if bool_decide (sch ∈ uses_params) && str_contains ";" url
    then splitparams url else (url, "") in
  Returns (mkParseResult sch nl url prm qs frag (hostname_of nl)).

Definition hex_digit (c : ascii) : option nat :=
  if is_digit c then Some (nat_of_ascii c - 48)
  else if in_range 97 102 c then Some (nat_of_ascii c - 87)
  else if in_range 65 70 c then Some (nat_of_ascii c - 55)
  else None.

(** [unquote]: each [%XX] with two hexadecimal digits becomes the byte. *)
Fixpoint unquote (s : string) : string :=
  match s with
  | EmptyString => EmptyString
  | String c s' =>
      if Ascii.eqb c "%"
      then match s' with
           | String a (String b r) =>
               match hex_digit a, hex_digit b with
               | Some x, Some y => String (ascii_of_nat (16 * x + y)) (unquote r)
               | _, _ => String c (unquote s')
               end
           | _ => String c (unquote s')
           end
      else String c (unquote s')
  end.

Definition plus_to_space (c : ascii) : ascii :=
  if Ascii.eqb c "+" then " "%char else c.

(** [parse_qsl]: the fields between [&] that hold a non-empty value after
    their first [=], decoded; fields without a value are dropped
    ([keep_blank_values] and [strict_parsing] are false). *)
Definition parse_qsl (qs : string) : list (string * string) :=
  if str_truthy qs
  then omap (fun name_value =>
               let '(name, _, value) := str_partition "=" name_value in
               if str_truthy value
               then Some (unquote (str_map plus_to_space name),
                          unquote (str_map plus_to_space value))
               else None)
            (str_split "&" qs)
  else [].

(** [parse_qs]: the values of each name, in the order of the query. *)
Definition parse_qs (qs : string) : gmap string (list string) :=
  foldl (fun parsed_result '(name, value) =>
           match parsed_result !! name with
           | Some vs => <[name := vs ++ [value]]> parsed_result
           | None => <[name := [value]]> parsed_result
           end)
        ∅ (parse_qsl qs).

End Urllib.

Definition py_urllib : UrlLib := mkUrlLib Urllib.urlparse Urllib.parse_qs.

(** ** The transcript API

    [YouTubeTranscriptApi.get_transcript(video_id)] returns the entries of a
    transcript or raises. *)
Record TranscriptEntry : Type := mkEntry {
  text : string;
  start : Qc;
  duration : Qc
}.

(** [' '.join([t['text'] for t in transcript_list])] *)
Definition join_transcript (transcript_list : list TranscriptEntry) : string :=
  str_join " " (text <$> transcript_list).

(** Truth value of an [Optional[str]]: [None] and the empty string are false. *)
Definition opt_truthy (o : option string) : bool :=
  match o with
  | Some s => str_truthy s
  | None => false
  end.

Definition nl : string := String "010" EmptyString.

(** ** [str.format]

    [template.format(text=text)] is Python's, not the notebook's.  The chain
    is embedded over any implementation of it; [format_text] follows
    CPython 3.11 on the templates whose replacement fields are plain names:
    [{{] and [}}] stand for a brace, [{text}] for the text, any other
    field raises the [KeyError] of its name, or an [IndexError] when the
    name is empty or a number, and a brace that opens or closes nothing
    raises a [ValueError].  The first failure from the left is raised.
    Left out: a field with a conversion ([!r]) or a format specification
    ([:>10]), and an attribute or an index of the text ([{text[0]}]); such a
    field is refused here. *)
Inductive FormatState : Type :=
| InText
| AfterOpen
| AfterClose
| InField (name : string)
| InIndex (name : string).

(** The part of a field name before the first [.] or [[]. *)
Fixpoint first_component (name : string) : string :=
  match name with
  | EmptyString => EmptyString
  | String c name' =>
      if Ascii.eqb c "." || Ascii.eqb c "[" then EmptyString
      else String c (first_component name')
  end.

(** The number a field name stands for, when it is made of digits; CPython
    refuses a number above [2^63 - 1] as soon as its digits exceed it. *)
Fixpoint get_integer (acc : Z) (s : string) : result (option Z) :=
  match s with
  | EmptyString => Returns (Some acc)
  | String c s' =>
      if is_digit c
      then
        let d := (Z.of_nat (nat_of_ascii c) - 48)%Z in
        if (acc >? (9223372036854775807 - d) / 10)%Z
        then Raises (ValueError "Too many decimal digits in format string")
        else get_integer (10 * acc + d) s'
      else Returns None
  end.

(** What the field [{name}] stands for, with [text] as the only argument:
    an empty or numeric name asks for a positional argument and there is
    none. *)
Definition field_value (text name : string) : result string :=
  let first := first_component name in
  if String.eqb first "" then Raises IndexError
  else
    index ← get_integer 0 first;
    match index with
    | Some _ => Raises IndexError
    | None =>
        if String.eqb first "text"
        then if String.eqb name "text" then Returns text
             else Raises (ValueError "attribute or index of the text: left out")
        else Raises (KeyError first)
    end.

Definition snoc_char (s : string) (c : ascii) : string := s +:+ String c "".

Fixpoint format_go (text : string) (st : FormatState) (template : string)
  : result string :=
  match template with
  | EmptyString =>
      match st with
      | InText => Returns ""
      | AfterOpen =>
          Raises (ValueError "Single '{' encountered in format string")
      | AfterClose =>
          Raises (ValueError "Single '}' encountered in format string")
      | InField _ | InIndex _ =>
          Raises (ValueError "expected '}' before end of string")
      end
  | String c t =>
      let in_field (name : string) : result string :=
        if Ascii.eqb c "}"
        then value ← field_value text name;
             rest ← format_go text InText t;
             Returns (value +:+ rest)
        else if Ascii.eqb c "{"
        then Raises (ValueError "unexpected '{' in field name")
        else if Ascii.eqb c "["
        then format_go text (InIndex (snoc_char name c)) t
        else if Ascii.eqb c "!" || Ascii.eqb c ":"
        then Raises (ValueError "conversion or format specification: left out")
        else format_go text (InField (snoc_char name c)) t in
      match st with
      | InText =>
          if Ascii.eqb c "{" then format_go text AfterOpen t
          else if Ascii.eqb c "}" then format_go text AfterClose t
          else String c <$> format_go text InText t
      | AfterOpen =>
          if Ascii.eqb c "{" then String c <$> format_go text InText t
          else in_field ""
      | AfterClose =>
          if Ascii.eqb c "}" then String c <$> format_go text InText t
          else Raises (ValueError "Single '}' encountered in format string")
      | InField name => in_field name
      | InIndex name =>
          if Ascii.eqb c "]" then format_go text (InField (snoc_char name c)) t
          else format_go text (InIndex (snoc_char name c)) t
      end
  end.

Definition format_text (template text : string) : result string :=
  format_go text InText template.

(** ** The language-model client

    [client.chat.completions.create(...)].  The answer may change from one
    call to the next (a timeout now, an answer later), so the service is a
    function of the number of calls made before; the texts of
    [completion.choices] are what it returns. *)
Record ChatRequest : Type := mkChatRequest {
  model : string;
  messages : list (string * string);
  temperature : Qc;
  max_tokens : nat
}.

Definition ChatService : Type := nat -> ChatRequest -> result (list string).

(** * The summarizer proof of concept *)
Module Summarizer.

(** What the notebook changes outside itself: the lines printed and the
    number of calls made to the language model. *)
Record World : Type := mkWorld {
  stdout : list string;
  generation_calls : nat
}.

Definition print (line : string) : M World unit :=
  modify (fun w => mkWorld (stdout w ++ [line]) (generation_calls w)).

Section Notebook.
Variable lib : UrlLib.
(** [template.format(text=text)] *)
Variable str_format : string -> string -> result string.
Variable transcript_api : string -> result (list TranscriptEntry).
Variable chat_completions : ChatService.

Definition create (req : ChatRequest) : M World (list string) :=
  fun w => (chat_completions (generation_calls w) req,
            mkWorld (stdout w) (S (generation_calls w))).

Definition extract_video_id (url : string) : result (option string) :=
  parsed_url ← urlparse lib url;
  if bool_decide (hostname parsed_url = Some "youtu.be")
  then Returns (Some (str_drop 1 (path parsed_url)))
  else
    if bool_decide (hostname parsed_url
                    ∈ [Some "www.youtube.com"; Some "youtube.com"])
    then
      if bool_decide (path parsed_url = "/watch")
      then vs ← dict_getitem (parse_qs lib (query parsed_url)) "v";
           v ← list_getitem vs 0;
           Returns (Some v)
      else Returns None
    else Returns None.

Definition get_transcript (video_id : string) : M World (option string) :=
  try_except
    (transcript_list ← lift (transcript_api video_id);
     mret (Some (join_transcript transcript_list)))
    (fun e =>
       _ ← print ("Error getting transcript: " +:+ str_exn e);
       mret None).

Definition prompt_of (text : string) : string :=
  "Please provide a comprehensive summary of the following video transcript. "
  +:+ nl
  +:+ "    Focus on the main points, key insights, and important conclusions:"
  +:+ nl +:+ nl +:+ "    " +:+ text +:+ nl +:+ nl
  +:+ "    Please structure the summary with:" +:+ nl
  +:+ "    1. Main Topic/Theme" +:+ nl
  +:+ "    2. Key Points" +:+ nl
  +:+ "    3. Important Details" +:+ nl
  +:+ "    4. Conclusions".

Definition summarize_text (text : string) : M World (option string) :=
  let prompt := prompt_of text in
  try_except
    (completion ← create (mkChatRequest "mixtral-8x7b-32768"
                            [("user", prompt)] (Q2Qc (3 # 10)) 2048);
     content ← lift (list_getitem completion 0);
     mret (Some content))
    (fun e =>
       _ ← print ("Error in summarization: " +:+ str_exn e);
       mret None).

Definition summarize_youtube_video (url : string) : M World string :=
  video_id ← lift (extract_video_id url);
  if negb (opt_truthy video_id)
  then mret "Invalid YouTube URL"
  else
    transcript ← get_transcript (default "" video_id);
    if negb (opt_truthy transcript)
    then mret "Could not retrieve transcript"
    else
      summary ← summarize_text (default "" transcript);
      if negb (opt_truthy summary)
      then mret "Could not generate summary"
      else mret (default "" summary).

(** The class of the MLflow notebook: the same methods over the fields
    of the object. *)
Record YouTubeSummaryChain : Type := mkChain {
  model_name : string;
  chain_temperature : Qc;
  prompt_template : string
}.

Definition default_prompt_template : string :=
  nl
  +:+ "        Please provide a comprehensive summary of the following video transcript. "
  +:+ nl
  +:+ "        Focus on the main points, key insights, and important conclusions:"
  +:+ nl +:+ nl +:+ "        {text}" +:+ nl +:+ nl
  +:+ "        Please structure the summary with:" +:+ nl
  +:+ "        1. Main Topic/Theme" +:+ nl
  +:+ "        2. Key Points" +:+ nl
  +:+ "        3. Important Details" +:+ nl
  +:+ "        4. Conclusions" +:+ nl +:+ "        ".

(** [__init__] with its default arguments. *)
Definition init_chain : YouTubeSummaryChain :=
  mkChain "mixtral-8x7b-32768" (Q2Qc (3 # 10)) default_prompt_template.

(** The prompt is formatted before the [try]: what [format] raises leaves
    the method. *)
Definition chain_summarize_text (self : YouTubeSummaryChain) (text : string)
  : M World (option string) :=
  prompt ← lift (str_format (prompt_template self) text);
  try_except
    (completion ← create (mkChatRequest (model_name self)
                            [("user", prompt)] (chain_temperature self) 2048);
     content ← lift (list_getitem completion 0);
     mret (Some content))
    (fun e =>
       _ ← print ("Error in summarization: " +:+ str_exn e);
       mret None).

(** [__call__]; [extract_video_id] and [get_transcript] of the class are
    the functions above, word for word. *)
Definition call (self : YouTubeSummaryChain) (url : string) : M World string :=
  video_id ← lift (extract_video_id url);
  if negb (opt_truthy video_id)
  then mret "Invalid YouTube URL"
  else
    transcript ← get_transcript (default "" video_id);
    if negb (opt_truthy transcript)
    then mret "Could not retrieve transcript"
    else
      summary ← chain_summarize_text self (default "" transcript);
      if negb (opt_truthy summary)
      then mret "Could not generate summary"
      else mret (default "" summary).

End Notebook.

End Summarizer.

(** * The RAG proof of concept *)
Module Rag.

Record World : Type := mkWorld {
  stdout : list string
}.

Definition print (line : string) : M World unit :=
  modify (fun w => mkWorld (stdout w ++ [line])).

Section Notebook.
Variable lib : UrlLib.
Variable transcript_api : string -> result (list TranscriptEntry).

Definition extract_video_id (url : string) : result string :=
  parsed_url ← urlparse lib url;
  if bool_decide (hostname parsed_url = Some "youtu.be")
  then Returns (str_drop 1 (path parsed_url))
  else
    if bool_decide (hostname parsed_url
                    ∈ [Some "www.youtube.com"; Some "youtube.com"])
    then
      if bool_decide (path parsed_url = "/watch")
      then vs ← dict_getitem (parse_qs lib (query parsed_url)) "v";
           list_getitem vs 0
      else Raises (ValueError ("Invalid YouTube URL: " +:+ url))
    else Raises (ValueError ("Invalid YouTube URL: " +:+ url)).

Definition get_transcript (video_id : string) : M World string :=
  try_except
    (transcript_list ← lift (transcript_api video_id);
     mret (join_transcript transcript_list))
    (fun e =>
       _ ← print ("Error getting transcript for video " +:+ video_id
                   +:+ ": " +:+ str_exn e);
       mret "").

(** The record appended for a video: a dict with three keys. *)
Definition document (video_id url transcript : string) : gmap string string :=
  {[ "video_id" := video_id; "url" := url; "content" := transcript ]}.

(** The [for] loop of [process_videos], on the documents gathered so far. *)
Fixpoint process_videos_from (documents : list (gmap string string))
    (urls : list string) : M World (list (gmap string string)) :=
  match urls with
  | [] => mret documents
  | url :: urls' =>
      video_id ← lift (extract_video_id url);
      transcript ← get_transcript video_id;
      if str_truthy transcript
      then process_videos_from
             (documents ++ [document video_id url transcript]) urls'
      else process_videos_from documents urls'
  end.

Definition process_videos (urls : list string)
  : M World (list (gmap string string)) :=
  process_videos_from [] urls.

End Notebook.

End Rag.

(** ** Numbers, scores and MLflow *)

Definition Qc_of_nat (n : nat) : Qc := Qc_of_Z (Z.of_nat n).

Definition sum_Qc (l : list Qc) : Qc := foldr Qcplus 0%Qc l.

(** The arithmetic mean of a list of numbers, in exact arithmetic. *)
Definition mean (l : list Qc) : Qc := (sum_Qc l / Qc_of_nat (length l))%Qc.

(** *** binary64

    A Python [float] is a binary64 number and is kept as the rational it
    denotes.  An operation on floats gives the exact result rounded to the
    nearest binary64 number, ties to the even significand ([round64]):
    53 bits of precision, subnormal numbers below [2^-1022].  Left out:
    the overflow to infinity from [2^1024] on, the sign of zero and NaN. *)

(** [2^e] *)
Definition pow2 (e : Z) : Q :=
  if (0 <=? e)%Z then inject_Z (2 ^ e) else / inject_Z (2 ^ (- e)).

(** The integer nearest to [q], the even one of two that are as near. *)
Definition round_half_even (q : Q) : Z :=
  let n := Qnum q in
  let d := Zpos (Qden q) in
  let fl := (n / d)%Z in
  match (2 * (n mod d) ?= d)%Z with
  | Lt => fl
  | Gt => (fl + 1)%Z
  | Eq => if Z.even fl then fl else (fl + 1)%Z
  end.

(** The exponent [e] with [2^e <= |q| < 2^(e+1)], for [q] other than 0. *)
Definition binade (q : Q) : Z :=
  let e := (Z.log2 (Z.abs (Qnum q)) - Z.log2 (Zpos (Qden q)))%Z in
  if Qle_bool (pow2 e) (Qabs q) then e else (e - 1)%Z.

Definition round64 (x : Qc) : Qc :=
  if Qeq_bool x 0 then x
  else
    let s := Z.max (binade x - 52) (-1074) in
    Q2Qc (inject_Z (round_half_even (x / pow2 s)) * pow2 s).

(** [x + y] and [x / y] on floats; Python's [m / n] on integers is the
    quotient rounded in the same way. *)
Definition fadd (x y : Qc) : Qc := round64 (x + y).
Definition fdiv (x y : Qc) : Qc := round64 (x / y).

(** A mean in binary64 that adds the values in the order of the list and
    divides the sum by their number: an instance of the means of numpy and
    pandas for lists of fewer than eight values (numpy adds a longer array
    by blocks). *)
Definition mean64 (l : list Qc) : Qc :=
  fdiv (foldl fadd 0%Qc l) (Qc_of_nat (length l)).

(** One entry of [scorer.score(...)]. *)
Record Score : Type := mkScore {
  precision : Qc;
  recall : Qc;
  fmeasure : Qc
}.

(** [RougeScorer(['rouge1', 'rouge2', 'rougeL'], use_stemmer=True).score] *)
Record RougeScores : Type := mkRouge {
  rouge1 : Score;
  rouge2 : Score;
  rougeL : Score
}.

(** What reaches the MLflow tracking store, in order. *)
Inductive mlflow_event : Type :=
| SetExperiment (name : string)
| StartRun (run_name : string)
| EndRun
| LogParams (params : gmap string string)
| LogParam (key value : string)
| LogMetric (key : string) (value : Qc)
| LogMetrics (metrics : gmap string Qc)
| LogArtifact (local_path : string).

(** [for x in l: body x] *)
Fixpoint for_each {S A} (body : A -> M S unit) (l : list A) : M S unit :=
  match l with
  | [] => mret tt
  | x :: l' => _ ← body x; for_each body l'
  end.

(** [with ctx: body]: [leave] runs when the body returns and when it raises. *)
Definition with_block {S A} (enter leave : M S unit) (body : M S A) : M S A :=
  fun w =>
    match enter w with
    | (Returns _, w1) =>
        match body w1 with
        | (r, w2) =>
            match leave w2 with
            | (Returns _, w3) => (r, w3)
            | (Raises e, w3) => (Raises e, w3)
            end
        end
    | (Raises e, w1) => (Raises e, w1)
    end.

(** ** DataFrames

    A DataFrame built from a list of dicts is kept as that list. *)
Definition column (k : string) (rows : list (gmap string Qc)) : list Qc :=
  omap (fun row => row !! k) rows.

(** [DataFrame.mean(numeric_only=True)]: for each column, the mean of the
    values present, in the order of the rows.  The mean of the values is
    computed by pandas, in binary64: [series_mean]. *)
Definition df_mean (series_mean : list Qc -> Qc) (rows : list (gmap string Qc))
  : gmap string Qc :=
  map_imap (fun k _ => Some (series_mean (column k rows))) (⋃ rows).

(** * The monitoring notebook of the summarizer *)
Module Monitoring.

(** [PerformanceMonitor]: the scorer is the external ROUGE scorer, the
    history is the list the object appends to. *)
Record PerformanceMonitor : Type := mkMonitor {
  metrics_history : list (gmap string Qc)
}.

(** The global [monitor], the clock read by [time.time()] and the MLflow
    store. *)
Record World : Type := mkWorld {
  monitor : PerformanceMonitor;
  clock : Qc;
  mlflow : list mlflow_event
}.

Definition init_monitor : PerformanceMonitor := mkMonitor [].

Definition emit (ev : mlflow_event) : M World unit :=
  modify (fun w => mkWorld (monitor w) (clock w) (mlflow w ++ [ev])).

Definition time : M World Qc := gets clock.

Section Notebook.
Variable transcript_api : string -> result (list TranscriptEntry).
(** The summarization pipeline: the summary of a text, or an exception,
    and the seconds the call takes. *)
Variable summarizer : string -> result string.
Variable summarizer_seconds : string -> Qc.
Variable rouge_scorer : string -> string -> RougeScores.
(** [psutil]: processor load and resident memory at a given time. *)
Variable cpu_percent : Qc -> Qc.
Variable memory_rss : Qc -> Qc.

Definition run_summarizer (text : string) : M World string :=
  fun w =>
    (summarizer text,
     mkWorld (monitor w) (clock w + summarizer_seconds text)%Qc (mlflow w)).

(** [log_metrics] of the MLflow cell: one run per call. *)
Definition log_metrics (metrics_dict : gmap string Qc) : M World unit :=
  with_block (emit (StartRun "")) (emit EndRun)
    (_ ← emit (LogMetrics metrics_dict);
     emit (LogParam "model_name" "facebook/bart-large-cnn")).

Definition measure_latency {A} (func : M World A) : M World (A * Qc) :=
  start_time ← time;
  result ← func;
  end_time ← time;
  mret (result, (end_time - start_time)%Qc).

Definition measure_resource_usage : M World (gmap string Qc) :=
  now ← time;
  let cpu := cpu_percent now in
  let rss := memory_rss now in
  mret ({[ "cpu_percent" := cpu;
           "memory_mb" := (rss / Qc_of_Z 1024 / Qc_of_Z 1024)%Qc ]} : gmap string Qc).

Definition calculate_rouge_scores (prediction reference : string)
  : gmap string Qc :=
  let scores := rouge_scorer prediction reference in
  {[ "rouge1_f1" := fmeasure (rouge1 scores);
     "rouge2_f1" := fmeasure (rouge2 scores);
     "rougeL_f1" := fmeasure (rougeL scores) ]}.

(** [{'latency': latency, **rouge_scores, **resource_usage}]: a key given
    twice keeps the later value. *)
Definition merge_metrics (latency : Qc)
    (rouge_scores resource_usage : gmap string Qc) : gmap string Qc :=
  resource_usage ∪ (rouge_scores ∪ {[ "latency" := latency ]}).

Definition log_performance (latency : Qc)
    (rouge_scores resource_usage : gmap string Qc)
  : M World (gmap string Qc) :=
  let metrics := merge_metrics latency rouge_scores resource_usage in
  _ ← modify (fun w =>
        mkWorld (mkMonitor (metrics_history (monitor w) ++ [metrics]))
                (clock w) (mlflow w));
  _ ← log_metrics metrics;
  mret metrics.

Definition process_video (video_id : string) (reference_summary : option string)
  : M World (string * gmap string Qc) :=
  transcript ← lift (transcript_api video_id);
  let text := join_transcript transcript in
  '(summary, latency) ← measure_latency (run_summarizer text);
  resource_usage ← measure_resource_usage;
  let rouge_scores :=
    if opt_truthy reference_summary
    then calculate_rouge_scores summary (default "" reference_summary)
    else ∅ in
  metrics ← log_performance latency rouge_scores resource_usage;
  mret (summary, metrics).

End Notebook.

End Monitoring.

(** * The evaluation notebook of the summarizer *)
Module SummarizerEval.

Record World : Type := mkWorld {
  mlflow : list mlflow_event;
  files : list (string * string)
}.

Definition emit (ev : mlflow_event) : M World unit :=
  modify (fun w => mkWorld (mlflow w ++ [ev]) (files w)).

Definition write_file (name content : string) : M World unit :=
  modify (fun w => mkWorld (mlflow w) (files w ++ [(name, content)])).

(** The model loaded from MLflow: calling it on a URL gives a summary or
    raises; it may have a [get_config] method. *)
Record Model : Type := mkModel {
  model_call : string -> result string;
  get_config : option (gmap string string)
}.

Section Notebook.
Variable rouge_scorer : string -> string -> RougeScores.
Variable sentence_bleu : list (list string) -> list string -> Qc.
(** The notebook uses [os.makedirs] and never imports [os]: the call
    goes through only in a kernel where the name is already bound. *)
Variable os_bound : bool.
(** [run.info.run_id] *)
Variable run_id : string.
(** [np.mean] of a list of floats: numpy computes it, in binary64. *)
Variable np_mean : list Qc -> Qc.

Definition calculate_metrics (predicted_summary reference_summary : string)
  : gmap string Qc :=
  let rouge_scores := rouge_scorer reference_summary predicted_summary in
  let reference := [py_words reference_summary] in
  let candidate := py_words predicted_summary in
  let bleu := sentence_bleu reference candidate in
  let pred_length := length (py_words predicted_summary) in
  let ref_length := length (py_words reference_summary) in
  let length_ratio :=
    if (0 <? ref_length)%nat
    then fdiv (Qc_of_nat pred_length) (Qc_of_nat ref_length)
    else 0%Qc in
  {[ "rouge1_precision" := precision (rouge1 rouge_scores);
     "rouge1_recall" := recall (rouge1 rouge_scores);
     "rouge1_f1" := fmeasure (rouge1 rouge_scores);
     "rouge2_f1" := fmeasure (rouge2 rouge_scores);
     "rougeL_f1" := fmeasure (rougeL rouge_scores);
     "bleu_score" := bleu;
     "summary_length_ratio" := length_ratio;
     "predicted_length" := Qc_of_nat pred_length;
     "reference_length" := Qc_of_nat ref_length ]}.

Definition os_makedirs (path : string) : M World unit :=
  if os_bound then mret tt else raise (NameError "os").

(** The body of the loop over the test examples. *)
Definition evaluate_example (model : Model) (i : nat)
    (example : gmap string string) : M World (gmap string Qc) :=
  video_url ← lift (dict_getitem example "video_url");
  predicted_summary ← lift (model_call model video_url);
  reference_summary ← lift (dict_getitem example "reference_summary");
  let metrics := calculate_metrics predicted_summary reference_summary in
  _ ← for_each
        (fun '(metric_name, value) =>
           emit (LogMetric ("example_" +:+ pretty i +:+ "_" +:+ metric_name)
                   value))
        (map_to_list metrics);
  let example_dir := "example_" +:+ pretty i in
  _ ← os_makedirs example_dir;
  _ ← write_file (example_dir +:+ "/predicted_summary.txt") predicted_summary;
  reference_summary' ← lift (dict_getitem example "reference_summary");
  _ ← write_file (example_dir +:+ "/reference_summary.txt") reference_summary';
  _ ← emit (LogArtifact example_dir);
  mret metrics.

(** [for i, example in enumerate(test_data)], from index [i]. *)
Fixpoint evaluate_examples (model : Model) (i : nat)
    (test_data : list (gmap string string))
    (all_metrics : list (gmap string Qc)) : M World (list (gmap string Qc)) :=
  match test_data with
  | [] => mret all_metrics
  | example :: rest =>
      metrics ← evaluate_example model i example;
      evaluate_examples model (S i) rest (all_metrics ++ [metrics])
  end.

(** [for metric in all_metrics[0].keys()]: the mean of each metric over
    the examples, stored and logged under [avg_] and its name. *)
Fixpoint average_metrics (all_metrics : list (gmap string Qc))
    (keys : list string) (avg_metrics : gmap string Qc)
  : M World (gmap string Qc) :=
  match keys with
  | [] => mret avg_metrics
  | metric :: keys' =>
      values ← lift (mapM (fun m => dict_getitem m metric) all_metrics);
      let avg_value := np_mean values in
      let avg_metrics := <["avg_" +:+ metric := avg_value]> avg_metrics in
      _ ← emit (LogMetric ("avg_" +:+ metric) avg_value);
      average_metrics all_metrics keys' avg_metrics
  end.

(** The three figures are drawn by matplotlib and logged as artifacts. *)
Definition create_and_log_visualizations
    (metrics_list : list (gmap string Qc)) : M World unit :=
  _ ← emit (LogArtifact "rouge_scores.png");
  _ ← emit (LogArtifact "length_comparison.png");
  emit (LogArtifact "metrics_distribution.png").

Definition evaluate_model_with_mlflow (model : Model)
    (test_data : list (gmap string string))
  : M World (string * gmap string Qc) :=
  _ ← emit (SetExperiment "youtube-summarizer-evaluation");
  with_block (emit (StartRun "model_evaluation")) (emit EndRun)
    (let model_params := default ∅ (get_config model) in
     _ ← emit (LogParams model_params);
     all_metrics ← evaluate_examples model 0 test_data [];
     first ← lift (list_getitem all_metrics 0);
     avg_metrics ← average_metrics all_metrics (map_to_list first).*1 ∅;
     _ ← create_and_log_visualizations all_metrics;
     mret (run_id, avg_metrics)).

End Notebook.

End SummarizerEval.

(** * The evaluation notebook of the RAG system *)
Module RagEval.

Record World : Type := mkWorld {
  clock : Qc;
  mlflow : list mlflow_event;
  files : list (string * list (gmap string Qc))
}.

Definition emit (ev : mlflow_event) : M World unit :=
  modify (fun w => mkWorld (clock w) (mlflow w ++ [ev]) (files w)).

Definition time : M World Qc := gets clock.

(** [DataFrame.to_csv] *)
Definition to_csv (name : string) (rows : list (gmap string Qc)) : M World unit :=
  modify (fun w => mkWorld (clock w) (mlflow w) (files w ++ [(name, rows)])).

(** The answer of the chain: [result['result']] and the [page_content] of
    [result['source_documents']]. *)
Record QAResult : Type := mkQA {
  qa_result : string;
  source_documents : list string
}.

Section Notebook.
(** [qa_chain] and [vectorstore] come from another notebook. *)
Variable qa_chain : string -> result QAResult.
Variable qa_seconds : string -> Qc.
Variable rouge_scorer : string -> string -> RougeScores.
(** [bert_score([prediction], [reference], lang='en')] *)
Variable bert_score : string -> string -> Score.
(** The [ragas] metrics. *)
Variable context_relevancy : list string -> string -> Qc.
Variable faithfulness : string -> string -> string -> Qc.
Variable answer_relevancy : string -> string -> string -> Qc.
(** [datetime.now().strftime('%Y%m%d_%H%M%S')] *)
Variable strftime : Qc -> string.
(** The mean pandas takes of the values of a column, in binary64. *)
Variable series_mean : list Qc -> Qc.

Definition run_qa_chain (question : string) : M World QAResult :=
  fun w =>
    (qa_chain question,
     mkWorld (clock w + qa_seconds question)%Qc (mlflow w) (files w)).

Definition calculate_rouge_scores (prediction reference : string)
  : gmap string Qc :=
  let scores := rouge_scorer prediction reference in
  {[ "rouge1_f1" := fmeasure (rouge1 scores);
     "rouge2_f1" := fmeasure (rouge2 scores);
     "rougeL_f1" := fmeasure (rougeL scores) ]}.

Definition calculate_bert_scores (prediction reference : string)
  : gmap string Qc :=
  let s := bert_score prediction reference in
  {[ "bert_precision" := precision s;
     "bert_recall" := recall s;
     "bert_f1" := fmeasure s ]}.

Definition evaluate_retrieval (retrieved_contexts : list string)
    (relevant_context : string) : gmap string Qc :=
  {[ "context_relevancy" :=
       context_relevancy retrieved_contexts relevant_context ]}.

Definition evaluate_generation (prediction reference context : string)
  : gmap string Qc :=
  {[ "faithfulness" := faithfulness prediction reference context;
     "answer_relevancy" := answer_relevancy prediction reference context ]}.

(** The body of the loop over the samples. *)
Definition evaluate_sample (i : nat) (sample : gmap string string)
  : M World (gmap string Qc) :=
  start_time ← time;
  question ← lift (dict_getitem sample "question");
  result ← run_qa_chain question;
  end_time ← time;
  let response_time := (end_time - start_time)%Qc in
  let prediction := qa_result result in
  let retrieved_contexts := source_documents result in
  expected_answer ← lift (dict_getitem sample "expected_answer");
  let rouge_scores := calculate_rouge_scores prediction expected_answer in
  expected_answer ← lift (dict_getitem sample "expected_answer");
  let bert_scores := calculate_bert_scores prediction expected_answer in
  context ← lift (dict_getitem sample "context");
  let retrieval_scores := evaluate_retrieval retrieved_contexts context in
  expected_answer ← lift (dict_getitem sample "expected_answer");
  context ← lift (dict_getitem sample "context");
  let generation_scores :=
    evaluate_generation prediction expected_answer context in
  let metrics : gmap string Qc :=
    generation_scores ∪ (retrieval_scores ∪ (bert_scores ∪ (rouge_scores ∪
      {[ "sample_id" := Qc_of_nat i; "response_time" := response_time ]}))) in
  _ ← for_each
        (fun '(metric_name, value) =>
           if bool_decide (metric_name ≠ "sample_id")
           then emit (LogMetric (metric_name +:+ "_" +:+ pretty i) value)
           else mret tt)
        (map_to_list metrics);
  mret metrics.

Fixpoint evaluate_samples (i : nat) (qa_samples : list (gmap string string))
    (all_metrics : list (gmap string Qc)) : M World (list (gmap string Qc)) :=
  match qa_samples with
  | [] => mret all_metrics
  | sample :: rest =>
      metrics ← evaluate_sample i sample;
      evaluate_samples (S i) rest (all_metrics ++ [metrics])
  end.

(** The run-level averages, logged under [avg_] and the metric's name. *)
Definition log_averages (avg_metrics : gmap string Qc) : M World unit :=
  for_each
    (fun '(metric_name, value) =>
       if bool_decide (metric_name ≠ "sample_id")
       then emit (LogMetric ("avg_" +:+ metric_name) value)
       else mret tt)
    (map_to_list avg_metrics).

Definition evaluate_rag_system (qa_samples : list (gmap string string))
  : M World (list (gmap string Qc)) :=
  now ← time;
  with_block (emit (StartRun ("rag_evaluation_" +:+ strftime now)))
             (emit EndRun)
    (all_metrics ← evaluate_samples 0 qa_samples [];
     let metrics_df := all_metrics in
     let avg_metrics := df_mean series_mean metrics_df in
     _ ← log_averages avg_metrics;
     _ ← to_csv "evaluation_results.csv" metrics_df;
     _ ← emit (LogArtifact "evaluation_results.csv");
     mret metrics_df).

End Notebook.

End RagEval.

(** * The Chunker

    The notebook splits each transcript with LangChain's
    [RecursiveCharacterTextSplitter], built with [chunk_size=1000],
    [chunk_overlap=200] and [length_function=len]; the class is not part of
    the sources.  The definitions of this module are modelled from the
    specification of the Chunker. *)
Module Chunker.

Record Config : Type := mkConfig {
  max_chunk_size : nat;
  overlap : nat
}.

Record Chunk : Type := mkChunk {
  sequence_index : nat;
  chunk_text : string;
  start_offset : nat
}.

Inductive Boundary : Type := Whitespace | Sentence | Paragraph.

Global Instance Boundary_eq_dec : EqDecision Boundary.
Proof. solve_decision. Defined.

(** Modelled from the spec: the unit in which sizes are counted (the
    splitter itself is missing).  The specification counts in words; the
    notebook passes [len] as the length function, which counts in
    characters. *)
Inductive Unit : Type := Words | Characters.

(** Modelled from the spec: the words of a text (the splitter's separators
    are missing): the fields between single spaces, so that joining them
    with a space gives the text back exactly.  A tab or a line break is
    part of a field and does not separate two words. *)
Definition units (text : string) : list string := str_split " " text.

(** Modelled from the spec: the units of a text counted in characters (the
    splitter's length function is [len]; its way of cutting is missing):
    its characters, each as a text of length 1. *)
Fixpoint characters (text : string) : list string :=
  match text with
  | EmptyString => []
  | String c text' => String c "" :: characters text'
  end.

(** Modelled from the spec: the units of a text (the splitter is missing),
    in the unit that is configured. *)
Definition units_of (unit : Unit) (text : string) : list string :=
  match unit with
  | Words => units text
  | Characters => characters text
  end.

(** Modelled from the spec: what stands between two units of a text (the
    splitter's separators are missing): a space between words, nothing
    between characters. *)
Definition separator (unit : Unit) : string :=
  match unit with
  | Words => " "
  | Characters => ""
  end.

Definition last_char (s : string) : option ascii :=
  match String.rev s with
  | String c _ => Some c
  | EmptyString => None
  end.

(** Modelled from the spec: the semantic boundaries (the splitter's
    separators are missing).  The boundary that follows a word is read from
    its last character: a line break ends a paragraph; a full stop, an
    exclamation or a question mark ends a sentence; whitespace follows
    every word. *)
Definition boundary_by_last_char (word : string) : option Boundary :=
  match last_char word with
  | Some c =>
      if Ascii.eqb c "010" then Some Paragraph
      else if Ascii.eqb c "." || Ascii.eqb c "!" || Ascii.eqb c "?"
           then Some Sentence else Some Whitespace
  | None => Some Whitespace
  end.

(** Modelled from the spec: the same for a text counted in characters;
    no boundary follows a character that is not one of these. *)
Definition boundary_by_character (character : string) : option Boundary :=
  match last_char character with
  | Some c =>
      if Ascii.eqb c "010" then Some Paragraph
      else if Ascii.eqb c "." || Ascii.eqb c "!" || Ascii.eqb c "?"
           then Some Sentence
           else if is_space c then Some Whitespace else None
  | None => None
  end.

Section Chunker.
(** The kind of boundary that follows each unit, if one does. *)
Variable boundary_after : string -> option Boundary.
Variable config : Config.

(** Modelled from the spec: a boundary that fits (the splitter's search is
    missing).  The last place, more than [overlap] and at most
    [max_chunk_size] units along, where a boundary of kind [b] follows. *)
Definition last_boundary (b : Boundary) (us : list string) : option nat :=
  last (filter
          (fun c => us !! (c - 1)%nat ≫= boundary_after = Some b)
          (seq (S (overlap config)) (max_chunk_size config - overlap config))).

(** Modelled from the spec: where the chunk that starts [us] ends (the
    splitter's choice of a separator is missing): at the last paragraph
    boundary that fits, else at the last sentence boundary that fits, else
    at the last whitespace that fits, else at the size limit. *)
Definition cut (us : list string) : nat :=
  default (max_chunk_size config)
    (last_boundary Paragraph us ∪ last_boundary Sentence us
     ∪ last_boundary Whitespace us).

(** Modelled from the spec: the chunks of the units [us] (the splitter's
    merging of pieces is missing), each with the offset of its first unit;
    what is left when it fits within [max_chunk_size] is the last chunk, and
    the next chunk starts [overlap] units before the end of this one. *)
Fixpoint chunk_units (fuel : nat) (offset : nat) (us : list string)
  : list (nat * list string) :=
  match fuel with
  | O => []
  | S fuel' =>
      if bool_decide (length us ≤ max_chunk_size config)%nat
      then [(offset, us)]
      else
        let c := cut us in
        let step := (c - overlap config)%nat in
        (offset, take c us)
        :: chunk_units fuel' (offset + step) (drop step us)
  end.

(** Modelled from the spec: the text splitter.  The notebook builds a
    [RecursiveCharacterTextSplitter] and calls its [split_text]; the
    class belongs to LangChain and is not part of the sources.  This is
    the Chunker of the specification: sizes are counted in [unit], a chunk
    ends at the largest semantic boundary that fits within
    [max_chunk_size] or at the size limit, adjacent chunks share
    [overlap] units, chunks are numbered from 0, and a text that is
    empty after trimming is refused with [EmptyDocument]. *)
Definition chunker_in (unit : Unit) (text : string) : result (list Chunk) :=
  if str_truthy (str_strip text)
  then
    let us := units_of unit text in
    Returns (imap (fun i '(offset, ws) =>
                     mkChunk i (str_join (separator unit) ws) offset)
               (chunk_units (length us) 0 us))
  else Raises EmptyDocument.

(** Modelled from the spec: the Chunker with sizes in words, as in the
    scenario of the specification (the splitter is missing). *)
Definition chunker (text : string) : result (list Chunk) :=
  chunker_in Words text.

(** Modelled from the spec: the chunk texts with the overlaps removed,
    concatenated (the property of section 4.1 names the operation and the
    sources have none): the units of the first chunk, then those of each
    later chunk after its first [overlap] units. *)
Definition remove_overlaps (chunks : list (list string)) : list string :=
  match chunks with
  | [] => []
  | first :: rest => first ++ concat (drop (overlap config) <$> rest)
  end.

(** Modelled from the spec: the text the chunks give back (the sources
    have no such operation). *)
Definition reconstruct (unit : Unit) (chunks : list Chunk) : string :=
  str_join (separator unit)
    (remove_overlaps ((fun c => units_of unit (chunk_text c)) <$> chunks)).

End Chunker.

(** The configuration the notebook gives the splitter: [chunk_size=1000]
    and [chunk_overlap=200], in characters. *)
Definition notebook_config : Config := mkConfig 1000 200.

(** Modelled from the spec: [text_splitter.split_text(text)] with the
    splitter the notebook builds (the class is missing): the Chunker with
    the configuration of the notebook, sizes in characters. *)
Definition split_text (boundary_after : string -> option Boundary)
    (text : string) : result (list Chunk) :=
  chunker_in boundary_after notebook_config Characters text.

End Chunker.

(** A unit of a text counted in [unit]: a word holds no space, a character
    is one character. *)
Definition unit_ok (unit : Chunker.Unit) (w : string) : Prop :=
  match unit with
  | Chunker.Words => str_find " " w = None
  | Chunker.Characters => String.length w = 1%nat
  end.

(** * What the functions are expected to compute *)

(** The word [w] does not hold the separator [c]. *)
Definition no_sep (c : ascii) (w : string) : Prop := str_find c w = None.

(** The text [Rag.get_transcript] returns for a video: the joined
    transcript, or the empty string when the fetch fails. *)
Definition fetched_text (transcript_api : string -> result (list TranscriptEntry))
    (video_id : string) : string :=
  match transcript_api video_id with
  | Returns transcript_list => join_transcript transcript_list
  | Raises _ => ""
  end.

(** The record [process_videos] keeps for a URL, if any: one for a URL whose
    transcript was fetched and is not empty. *)
Definition kept_document (lib : UrlLib)
    (transcript_api : string -> result (list TranscriptEntry))
    (url : string) : option (gmap string string) :=
  match Rag.extract_video_id lib url with
  | Returns video_id =>
      let transcript := fetched_text transcript_api video_id in
      if str_truthy transcript
      then Some (Rag.document video_id url transcript)
      else None
  | Raises _ => None
  end.

(** A transcript service and two language-model services for examples. *)
Definition example_transcripts (video_id : string)
  : result (list TranscriptEntry) :=
  if String.eqb video_id "abc"
  then Returns [mkEntry "hello" 0%Qc 1%Qc; mkEntry "world" 1%Qc 1%Qc]
  else if String.eqb video_id "blank"
  then Returns [mkEntry " " 0%Qc 1%Qc; mkEntry " " 1%Qc 1%Qc]
  else if String.eqb video_id "silent"
  then Returns []
  else Raises (UpstreamError "TranscriptsDisabled").

Definition always_timeout : ChatService :=
  fun _ _ => Raises (UpstreamError "timeout").

(** Times out on the first two calls and answers from the third on. *)
Definition answers_third_time : ChatService :=
  fun n _ => if (n <? 2)%nat then Raises (UpstreamError "timeout")
             else Returns ["a summary"].

(** The monitor fed a stream of requests, each with its latency, its ROUGE
    scores and its resource usage: one [log_performance] call per request. *)
Fixpoint feed_monitor (requests : list (Qc * gmap string Qc * gmap string Qc))
  : M Monitoring.World (list (gmap string Qc)) :=
  match requests with
  | [] => mret []
  | (latency, rouge_scores, resource_usage) :: rest =>
      metrics ← Monitoring.log_performance latency rouge_scores resource_usage;
      others ← feed_monitor rest;
      mret (metrics :: others)
  end.

(** What [log_performance] records for a request. *)
Definition recorded_metrics (request : Qc * gmap string Qc * gmap string Qc)
  : gmap string Qc :=
  let '(latency, rouge_scores, resource_usage) := request in
  Monitoring.merge_metrics latency rouge_scores resource_usage.

(** A request of which only the latency is tracked. *)
Definition latency_only (latency : Qc) : Qc * gmap string Qc * gmap string Qc :=
  (latency, ∅, ∅).

(** Windows of latencies, in milliseconds, for examples: a baseline with mean
    100, a recent window with mean 500 and one with mean 105. *)
Definition baseline_window : list Qc :=
  [Qc_of_Z 90; Qc_of_Z 100; Qc_of_Z 110].
Definition recent_window_500 : list Qc :=
  [Qc_of_Z 450; Qc_of_Z 500; Qc_of_Z 550].
Definition recent_window_105 : list Qc :=
  [Qc_of_Z 100; Qc_of_Z 105; Qc_of_Z 110].

(** The MLflow events of one [log_performance] call. *)
Definition performance_events (metrics : gmap string Qc) : list mlflow_event :=
  [StartRun ""; LogMetrics metrics;
   LogParam "model_name" "facebook/bart-large-cnn"; EndRun].

(** The events logged for the entries of a dict of metrics, [sample_id]
    apart, each under the name [rename] makes of its key. *)
Definition metric_events (rename : string -> string) (m : gmap string Qc)
  : list mlflow_event :=
  omap (fun '(k, v) =>
          if bool_decide (k ≠ "sample_id")
          then Some (LogMetric (rename k) v) else None)
       (map_to_list m).

Section RagRows.
Variable qa_chain : string -> result RagEval.QAResult.
Variable qa_seconds : string -> Qc.
Variable rouge_scorer : string -> string -> RougeScores.
Variable bert_score : string -> string -> Score.
Variable context_relevancy : list string -> string -> Qc.
Variable faithfulness : string -> string -> string -> Qc.
Variable answer_relevancy : string -> string -> string -> Qc.

(** A sample the loop body can process: it has its three fields and the
    chain answers its question. *)
Definition complete_sample (sample : gmap string string) : Prop :=
  ∃ q ea c qa, sample !! "question" = Some q
               ∧ sample !! "expected_answer" = Some ea
               ∧ sample !! "context" = Some c
               ∧ qa_chain q = Returns qa.

Definition answer_of (sample : gmap string string) : RagEval.QAResult :=
  match qa_chain (sample !!! "question") with
  | Returns qa => qa
  | Raises _ => RagEval.mkQA "" []
  end.

(** The row of the sample at position [i]: its per-sample results. *)
Definition rag_row (i : nat) (sample : gmap string string) : gmap string Qc :=
  let prediction := RagEval.qa_result (answer_of sample) in
  let retrieved_contexts := RagEval.source_documents (answer_of sample) in
  let expected_answer := sample !!! "expected_answer" in
  let context := sample !!! "context" in
  RagEval.evaluate_generation faithfulness answer_relevancy
    prediction expected_answer context
  ∪ (RagEval.evaluate_retrieval context_relevancy retrieved_contexts context
  ∪ (RagEval.calculate_bert_scores bert_score prediction expected_answer
  ∪ (RagEval.calculate_rouge_scores rouge_scorer prediction expected_answer
  ∪ {[ "sample_id" := Qc_of_nat i;
       "response_time" := qa_seconds (sample !!! "question") ]}))).

(** The table of a run: one row per sample, numbered from [i]. *)
Fixpoint rag_rows (i : nat) (qa_samples : list (gmap string string))
  : list (gmap string Qc) :=
  match qa_samples with
  | [] => []
  | sample :: rest => rag_row i sample :: rag_rows (S i) rest
  end.

(** The events logged in the loop, sample by sample. *)
Fixpoint rag_sample_events (i : nat) (qa_samples : list (gmap string string))
  : list mlflow_event :=
  match qa_samples with
  | [] => []
  | sample :: rest =>
      metric_events (fun k => k +:+ "_" +:+ pretty i) (rag_row i sample)
      ++ rag_sample_events (S i) rest
  end.

End RagRows.

Section SummarizerRows.
Variable rouge_scorer : string -> string -> RougeScores.
Variable sentence_bleu : list (list string) -> list string -> Qc.
Variable model : SummarizerEval.Model.

(** A test example the loop body can process: it has its two fields and
    the model returns a summary for its video. *)
Definition complete_example (example : gmap string string) : Prop :=
  ∃ url ref summary, example !! "video_url" = Some url
                     ∧ example !! "reference_summary" = Some ref
                     ∧ SummarizerEval.model_call model url = Returns summary.

Definition summary_of (example : gmap string string) : string :=
  match SummarizerEval.model_call model (example !!! "video_url") with
  | Returns summary => summary
  | Raises _ => ""
  end.

(** The metrics of a test example: its per-sample results. *)
Definition example_row (example : gmap string string) : gmap string Qc :=
  SummarizerEval.calculate_metrics rouge_scorer sentence_bleu
    (summary_of example) (example !!! "reference_summary").

End SummarizerRows.

(** Scorers, a chain and a model for examples. *)
Definition example_score : Score :=
  mkScore (Q2Qc (1 # 2)) (Q2Qc (1 # 4)) (Q2Qc (1 # 3)).

Definition example_rouge (prediction reference : string) : RougeScores :=
  if String.eqb prediction reference
  then mkRouge (mkScore 1%Qc 1%Qc 1%Qc) (mkScore 1%Qc 1%Qc 1%Qc)
         (mkScore 1%Qc 1%Qc 1%Qc)
  else mkRouge example_score example_score example_score.

Definition example_qa_chain (question : string) : result RagEval.QAResult :=
  Returns (RagEval.mkQA ("answer to " +:+ question) ["a passage"]).

Definition example_seconds (question : string) : Qc :=
  Qc_of_nat (String.length question).

Definition example_bert (prediction reference : string) : Score :=
  if String.eqb prediction reference then mkScore 1%Qc 1%Qc 1%Qc
  else example_score.

Definition example_context_relevancy (retrieved : list string) (context : string) : Qc :=
  if bool_decide (context ∈ retrieved) then 1%Qc else 0%Qc.

Definition example_faithfulness (prediction reference context : string) : Qc :=
  Q2Qc (3 # 4).

Definition example_answer_relevancy (prediction reference context : string) : Qc :=
  Qc_of_nat (String.length reference).

Definition example_strftime (now : Qc) : string := "20240101_000000".

Definition sample_one : gmap string string :=
  {[ "question" := "what"; "expected_answer" := "answer to what";
     "context" := "a passage" ]}.

Definition sample_two : gmap string string :=
  {[ "question" := "why so"; "expected_answer" := "because";
     "context" := "another passage" ]}.

(** A sample with no gold context. *)
Definition sample_without_context : gmap string string :=
  {[ "question" := "what"; "expected_answer" := "answer to what" ]}.

Definition example_model : SummarizerEval.Model :=
  SummarizerEval.mkModel (fun url => Returns ("summary of " +:+ url)) None.

Definition example_bleu (reference : list (list string)) (candidate : list string) : Qc :=
  Qc_of_nat (length candidate).

Definition test_one : gmap string string :=
  {[ "video_url" := "https://youtu.be/abc";
     "reference_summary" := "a short reference" ]}.

Definition test_two : gmap string string :=
  {[ "video_url" := "https://youtu.be/xyz";
     "reference_summary" := "another reference summary here" ]}.

(** * More of the notebooks *)

(** A value of a metadata dict: a string or an integer. *)
Inductive pyval : Type :=
| PyStr (s : string)
| PyInt (n : nat).

Global Instance pyval_eq_dec : EqDecision pyval.
Proof. solve_decision. Defined.

(** ** The cell of the RAG proof of concept that splits the documents

    [text_splitter.split_text] belongs to LangChain and is a parameter. *)
Module RagIndex.

Section Notebook.
Variable split_text : string -> list string.

(** [[{'video_id': doc['video_id'], 'url': doc['url'], 'chunk': i}
      for i in range(n)]] *)
Definition doc_metadatas (doc : gmap string string) (n : nat)
  : result (list (gmap string pyval)) :=
  mapM (fun i =>
          video_id ← dict_getitem doc "video_id";
          url ← dict_getitem doc "url";
          Returns ({[ "video_id" := PyStr video_id; "url" := PyStr url;
                      "chunk" := PyInt i ]} : gmap string pyval))
       (seq 0 n).

(** The loop [for doc in documents], on the chunks and the metadata gathered
    so far. *)
Fixpoint split_documents_from (chunks : list string)
    (metadatas : list (gmap string pyval))
    (documents : list (gmap string string))
  : result (list string * list (gmap string pyval)) :=
  match documents with
  | [] => Returns (chunks, metadatas)
  | doc :: rest =>
      content ← dict_getitem doc "content";
      let doc_chunks := split_text content in
      doc_metadatas ← doc_metadatas doc (length doc_chunks);
      split_documents_from (chunks ++ doc_chunks) (metadatas ++ doc_metadatas)
        rest
  end.

(** The cell: [chunks = []], [metadatas = []] and the loop. *)
Definition split_documents (documents : list (gmap string string))
  : result (list string * list (gmap string pyval)) :=
  split_documents_from [] [] documents.

End Notebook.

End RagIndex.

(** ** The plots of the monitoring notebook

    A figure is kept as its title and its traces; [fig.show()] adds it to
    the figures shown. *)
Module MonitoringPlots.

Record Figure : Type := mkFigure {
  title : string;
  traces : list (string * list (option Qc))
}.

Record World : Type := mkWorld {
  shown : list Figure
}.

Definition show (fig : Figure) : M World unit :=
  modify (fun w => mkWorld (shown w ++ [fig])).

(** [df[k]]: the column, with a hole where a row has no value; a
    [KeyError] when no row has the key. *)
Definition df_getitem (df : list (gmap string Qc)) (k : string)
  : result (list (option Qc)) :=
  if bool_decide (column k df = [])
  then Raises (KeyError k)
  else Returns ((fun row => row !! k) <$> df).

(** [px.line(df, y=k, title=t)]: plotly refuses a name that is not a
    column. *)
Definition px_line (df : list (gmap string Qc)) (y title : string)
  : result Figure :=
  if bool_decide (column y df = [])
  then Raises (ValueError ("Value of 'y' is not the name of a column in 'data_frame': " +:+ y))
  else Returns (mkFigure title [(y, (fun row => row !! y) <$> df)]).

(** The loop [for metric in [...]: fig_rouge.add_trace(...)]. *)
Fixpoint add_traces (df : list (gmap string Qc)) (metrics : list string)
    (fig : Figure) : result Figure :=
  match metrics with
  | [] => Returns fig
  | metric :: rest =>
      y ← df_getitem df metric;
      add_traces df rest (mkFigure (title fig) (traces fig ++ [(metric, y)]))
  end.

Definition plot_metrics_over_time (metrics_history : list (gmap string Qc))
  : M World unit :=
  let df := metrics_history in
  fig_latency ← lift (px_line df "latency" "Inference Latency Over Time");
  _ ← show fig_latency;
  let fig_resources := mkFigure "" [] in
  cpu ← lift (df_getitem df "cpu_percent");
  let fig_resources :=
    mkFigure (title fig_resources) (traces fig_resources ++ [("CPU %", cpu)]) in
  memory ← lift (df_getitem df "memory_mb");
  let fig_resources :=
    mkFigure (title fig_resources)
      (traces fig_resources ++ [("Memory (MB)", memory)]) in
  let fig_resources :=
    mkFigure "Resource Usage Over Time" (traces fig_resources) in
  _ ← show fig_resources;
  let fig_rouge := mkFigure "" [] in
  fig_rouge ← lift (add_traces df ["rouge1_f1"; "rouge2_f1"; "rougeL_f1"]
                      fig_rouge);
  let fig_rouge := mkFigure "ROUGE Scores Over Time" (traces fig_rouge) in
  show fig_rouge.

End MonitoringPlots.

(** The characters of a video identifier: letters, digits, [-] and [_]. *)
Definition id_char (c : ascii) : bool :=
  is_alpha c || is_digit c || Ascii.eqb c "-" || Ascii.eqb c "_".

Definition plain_id (s : string) : Prop := str_forallb id_char s = true.

(** The two forms of a video URL, up to the identifier. *)
Definition short_prefixes : list string :=
  ["https://youtu.be/"; "http://youtu.be/"].

Definition watch_prefixes : list string :=
  ["https://www.youtube.com/watch?v="; "http://www.youtube.com/watch?v=";
   "https://youtube.com/watch?v="; "http://youtube.com/watch?v="].

(** The text the summarizer's [get_transcript] returns, if any. *)
Definition fetched_option
    (transcript_api : string -> result (list TranscriptEntry))
    (video_id : string) : option string :=
  match transcript_api video_id with
  | Returns transcript_list => Some (join_transcript transcript_list)
  | Raises _ => None
  end.

(** The request [summarize_text] sends for a transcript. *)
Definition summary_request (text : string) : ChatRequest :=
  mkChatRequest "mixtral-8x7b-32768" [("user", Summarizer.prompt_of text)]
    (Q2Qc (3 # 10)) 2048.

(** A text without braces. *)
Definition brace_free (s : string) : Prop :=
  str_find "{" s = None ∧ str_find "}" s = None.

(** A URL from which the RAG system's [extract_video_id] returns. *)
Definition well_formed_url (lib : UrlLib) (url : string) : Prop :=
  ∃ id, Rag.extract_video_id lib url = Returns id.

(** The metadata of the chunk [i] of a document, and what the cell that
    splits the documents is expected to gather. *)
Definition chunk_metadata (doc : gmap string string) (i : nat)
  : gmap string pyval :=
  {[ "video_id" := PyStr (doc !!! "video_id"); "url" := PyStr (doc !!! "url");
     "chunk" := PyInt i ]}.

Definition expected_chunks (split_text : string -> list string)
    (documents : list (gmap string string)) : list string :=
  concat ((fun doc => split_text (doc !!! "content")) <$> documents).

Definition expected_metadatas (split_text : string -> list string)
    (documents : list (gmap string string)) : list (gmap string pyval) :=
  concat ((fun doc =>
             chunk_metadata doc
             <$> seq 0 (length (split_text (doc !!! "content"))))
          <$> documents).

(** A splitter for examples: one chunk per word. *)
Definition split_words (text : string) : list string := py_words text.

(** The ROUGE entries [process_video] computes for a reference summary:
    none when the reference is [None] or empty. *)
Definition reference_scores (rouge_scorer : string -> string -> RougeScores)
    (summary : string) (reference_summary : option string) : gmap string Qc :=
  if opt_truthy reference_summary
  then Monitoring.calculate_rouge_scores rouge_scorer summary
         (default "" reference_summary)
  else ∅.

(** The columns the plots read. *)
Definition resource_columns : list string :=
  ["latency"; "cpu_percent"; "memory_mb"].

Definition rouge_columns : list string :=
  ["rouge1_f1"; "rouge2_f1"; "rougeL_f1"].

(** The events that record a result: a metric or an artifact. *)
Definition logs_result (ev : mlflow_event) : bool :=
  match ev with
  | LogMetric _ _ | LogArtifact _ => true
  | _ => false
  end.

(** The columns of the table of a RAG evaluation. *)
Definition rag_columns : list string :=
  ["sample_id"; "response_time"; "rouge1_f1"; "rouge2_f1"; "rougeL_f1";
   "bert_precision"; "bert_recall"; "bert_f1"; "context_relevancy";
   "faithfulness"; "answer_relevancy"].

(** The binary64 number nearest to [n / 10]. *)
Definition tenths (n : nat) : Qc := round64 (Q2Qc (Z.of_nat n # 10)).

(** A faithfulness scorer for examples: a tenth for each character of the
    context; and three samples it scores 0.1, 0.2 and 0.3. *)
Definition tenths_faithfulness (prediction reference context : string) : Qc :=
  tenths (String.length context).

Definition sample_a : gmap string string :=
  {[ "question" := "a"; "expected_answer" := "answer to a"; "context" := "c" ]}.

Definition sample_b : gmap string string :=
  {[ "question" := "b"; "expected_answer" := "answer to b"; "context" := "cc" ]}.

Definition sample_c : gmap string string :=
  {[ "question" := "c"; "expected_answer" := "answer to c"; "context" := "ccc" ]}.

(** The values logged for the metric [key], in the order of the log. *)
Definition logged_metric (key : string) (events : list mlflow_event) : list Qc :=
  omap (fun ev =>
          match ev with
          | LogMetric k v => if String.eqb k key then Some v else None
          | _ => None
          end) events.

(** * Properties *)

(** ** The URL library on examples *)

Example urlparse_watch :
  Urllib.urlparse "https://www.YouTube.com/watch?v=abc&t=1#x"
  = Returns (mkParseResult "https" "www.YouTube.com" "/watch" "" "v=abc&t=1" "x"
               (Some "www.youtube.com")).
Proof. reflexivity. Qed.

Example urlparse_short :
  Urllib.urlparse "https://user@youtu.be:443/abc;p?x=1"
  = Returns (mkParseResult "https" "user@youtu.be:443" "/abc" "p" "x=1" ""
               (Some "youtu.be")).
Proof. reflexivity. Qed.

Example urlparse_no_scheme :
  Urllib.urlparse "youtu.be/abc"
  = Returns (mkParseResult "" "" "youtu.be/abc" "" "" "" None).
Proof. reflexivity. Qed.

Example parse_qs_two :
  Urllib.parse_qs "v=a%20b&t=1&v=c+d&blank=&novalue"
  = {[ "v" := ["a b"; "c d"]; "t" := ["1"] ]}.
Proof. vm_compute. reflexivity. Qed.

Example format_text_ex :
  format_text "a {text} b{text}" "XY" = Returns "a XY bXY"
  ∧ format_text "{{text}} is {text}" "XY" = Returns "{text} is XY"
  ∧ format_text "Summarize {title}: {text}" "XY" = Raises (KeyError "title")
  ∧ format_text "{} {text}" "XY" = Raises IndexError
  ∧ format_text "{text} }" "XY"
    = Raises (ValueError "Single '}' encountered in format string").
Proof. repeat split. Qed.

(** ** Video identifiers *)

Section VideoId.
Variable lib : UrlLib.

(** On a URL of the watch page, both functions return what the lookup
    [parse_qs(query)['v'][0]] gives, also when it raises. *)
Lemma summarizer_watch (url : string) (p : ParseResult) :
  urlparse lib url = Returns p ->
  hostname p ∈ [Some "www.youtube.com"; Some "youtube.com"] ->
  path p = "/watch" ->
  Summarizer.extract_video_id lib url
  = (vs ← dict_getitem (parse_qs lib (query p)) "v";
     v ← list_getitem vs 0; Returns (Some v)).
Proof.
  intros Hp Hh Hpath. unfold Summarizer.extract_video_id. rewrite Hp. simpl.
  rewrite bool_decide_eq_false_2.
  - rewrite (bool_decide_eq_true_2 _ Hh), (bool_decide_eq_true_2 _ Hpath).
    reflexivity.
  - intros E. rewrite E in Hh.
    repeat (apply elem_of_cons in Hh as [Hh|Hh]; [discriminate|]).
    by apply elem_of_nil in Hh.
Qed.

Lemma rag_watch (url : string) (p : ParseResult) :
  urlparse lib url = Returns p ->
  hostname p ∈ [Some "www.youtube.com"; Some "youtube.com"] ->
  path p = "/watch" ->
  Rag.extract_video_id lib url
  = (vs ← dict_getitem (parse_qs lib (query p)) "v"; list_getitem vs 0).
Proof.
  intros Hp Hh Hpath. unfold Rag.extract_video_id. rewrite Hp. simpl.
  rewrite bool_decide_eq_false_2.
  - rewrite (bool_decide_eq_true_2 _ Hh), (bool_decide_eq_true_2 _ Hpath).
    reflexivity.
  - intros E. rewrite E in Hh.
    repeat (apply elem_of_cons in Hh as [Hh|Hh]; [discriminate|]).
    by apply elem_of_nil in Hh.
Qed.

(** Whatever the library answers, the two functions take the same branch. *)
Lemma extract_video_id_cases (url : string) :
  match Summarizer.extract_video_id lib url with
  | Returns (Some id) => Rag.extract_video_id lib url = Returns id
  | Returns None =>
      Rag.extract_video_id lib url
      = Raises (ValueError ("Invalid YouTube URL: " +:+ url))
  | Raises e => Rag.extract_video_id lib url = Raises e
  end.
Proof.
  unfold Summarizer.extract_video_id, Rag.extract_video_id.
  destruct (urlparse lib url) as [p|e]; simpl; [|reflexivity].
  destruct (bool_decide (hostname p = Some "youtu.be")); [reflexivity|].
  destruct (bool_decide (hostname p ∈ _)); [|reflexivity].
  destruct (bool_decide (path p = "/watch")); [|reflexivity].
  destruct (dict_getitem _ "v") as [vs|e]; simpl; [|reflexivity].
  destruct (list_getitem vs 0) as [v|e]; reflexivity.
Qed.

End VideoId.

(** C8.  On ["https://www.youtube.com/watch"] the host is a YouTube host and
    the path is [/watch], the query is empty and holds no [v]: the lookup
    [parse_qs(parsed_url.query)['v']] has no value, and [extract_video_id]
    raises [KeyError('v')] in both notebooks; it neither returns [None] nor
    raises the [ValueError] of the function. *)
Theorem extract_video_id_watch_without_v :
  let url := "https://www.youtube.com/watch" in
  (hostname <$> urlparse py_urllib url) = Returns (Some "www.youtube.com")
  ∧ (path <$> urlparse py_urllib url) = Returns "/watch"
  ∧ (query <$> urlparse py_urllib url) = Returns ""
  ∧ parse_qs py_urllib "" !! "v" = None
  ∧ Rag.extract_video_id py_urllib url = Raises (KeyError "v")
  ∧ Summarizer.extract_video_id py_urllib url = Raises (KeyError "v").
Proof. repeat split; vm_compute; reflexivity. Qed.

(** C10.  On every URL on which the summarizer's [extract_video_id] returns
    an identifier, the RAG system's returns the same one; where the
    summarizer's returns [None] the RAG system's raises its [ValueError];
    where the summarizer's raises, the RAG system's raises the same
    exception.  This holds for any behaviour of [urlparse] and [parse_qs]. *)
Theorem extract_video_id_agree (lib : UrlLib) (url : string) :
  (∀ id, Summarizer.extract_video_id lib url = Returns (Some id) ->
         Rag.extract_video_id lib url = Returns id)
  ∧ (Summarizer.extract_video_id lib url = Returns None ->
     Rag.extract_video_id lib url
     = Raises (ValueError ("Invalid YouTube URL: " +:+ url)))
  ∧ (∀ e, Summarizer.extract_video_id lib url = Raises e ->
          Rag.extract_video_id lib url = Raises e)
  ∧ (∀ id, Rag.extract_video_id lib url = Returns id ->
           Summarizer.extract_video_id lib url = Returns (Some id)).
Proof.
  pose proof (extract_video_id_cases lib url) as H.
  destruct (Summarizer.extract_video_id lib url) as [[id|]|e];
    rewrite H; repeat split; intros; congruence.
Qed.

Lemma extract_video_id_agree_witness :
  Summarizer.extract_video_id py_urllib "https://www.youtube.com/watch?v=abc"
  = Returns (Some "abc")
  ∧ Rag.extract_video_id py_urllib "https://www.youtube.com/watch?v=abc"
    = Returns "abc".
Proof.
  split.
  - vm_compute. reflexivity.
  - apply (proj1 (extract_video_id_agree py_urllib
                    "https://www.youtube.com/watch?v=abc") "abc").
    vm_compute. reflexivity.
Defined.

(** ** Processing the videos of the RAG system *)

Lemma omap_length_le {A B} (f : A -> option B) (l : list A) :
  (length (omap f l) ≤ length l)%nat.
Proof.
  induction l as [|x l IH]; csimpl; [lia|].
  destruct (f x); csimpl; lia.
Qed.

Section ProcessVideos.
Variable lib : UrlLib.
Variable transcript_api : string -> result (list TranscriptEntry).

(** [get_transcript] never raises: it returns the fetched text, and the
    empty string when the fetch fails. *)
Lemma rag_get_transcript_returns (video_id : string) (w : Rag.World) :
  ∃ w', Rag.get_transcript transcript_api video_id w
        = (Returns (fetched_text transcript_api video_id), w').
Proof.
  unfold Rag.get_transcript, try_except, fetched_text, lift, mbind, M_bind.
  destruct (transcript_api video_id) as [l|e]; simpl; eauto.
Qed.

Lemma process_videos_from_spec (urls : list string) :
  Forall (fun url => ∃ id, Rag.extract_video_id lib url = Returns id) urls ->
  ∀ documents w,
  ∃ w', Rag.process_videos_from lib transcript_api documents urls w
        = (Returns (documents ++ omap (kept_document lib transcript_api) urls), w').
Proof.
  induction 1 as [|url urls [id Hid] _ IH]; intros documents w; simpl.
  - rewrite app_nil_r. eauto.
  - unfold mbind at 1, M_bind, lift. rewrite Hid.
    unfold mbind at 1, M_bind.
    destruct (rag_get_transcript_returns id w) as [w1 ->].
    unfold kept_document. rewrite Hid. simpl.
    destruct (str_truthy (fetched_text transcript_api id)).
    + destruct (IH (documents ++ [Rag.document id url (fetched_text transcript_api id)]) w1)
        as [w' ->].
      rewrite <- app_assoc. simpl. eauto.
    + apply IH.
Qed.

End ProcessVideos.

(** C9.  On a list of well-formed URLs, [process_videos] returns and does not
    raise, whatever the transcript service does: it returns the records of
    the URLs whose transcript was fetched and is not empty, in order, and
    leaves the others out, so that it returns at most one record per URL. *)
Theorem process_videos_omits_failed_fetches
    (lib : UrlLib) (transcript_api : string -> result (list TranscriptEntry))
    (urls : list string) (w : Rag.World) :
  Forall (fun url => ∃ id, Rag.extract_video_id lib url = Returns id) urls ->
  ∃ w', Rag.process_videos lib transcript_api urls w
        = (Returns (omap (kept_document lib transcript_api) urls), w')
        ∧ (length (omap (kept_document lib transcript_api) urls) ≤ length urls)%nat.
Proof.
  intros Hwf.
  destruct (process_videos_from_spec lib transcript_api urls Hwf [] w) as [w' E].
  exists w'. split; [exact E|]. apply omap_length_le.
Qed.

Lemma process_videos_omits_failed_fetches_witness :
  ∃ w', Rag.process_videos py_urllib example_transcripts
          ["https://youtu.be/abc"; "https://www.youtube.com/watch?v=gone";
           "https://youtu.be/silent"] (Rag.mkWorld [])
        = (Returns (omap (kept_document py_urllib example_transcripts)
                      ["https://youtu.be/abc";
                       "https://www.youtube.com/watch?v=gone";
                       "https://youtu.be/silent"]), w')
        ∧ (length (omap (kept_document py_urllib example_transcripts)
                     ["https://youtu.be/abc";
                      "https://www.youtube.com/watch?v=gone";
                      "https://youtu.be/silent"]) ≤ 3)%nat.
Proof.
  apply (process_videos_omits_failed_fetches py_urllib example_transcripts
           ["https://youtu.be/abc"; "https://www.youtube.com/watch?v=gone";
            "https://youtu.be/silent"] (Rag.mkWorld [])).
  repeat constructor; eexists; vm_compute; reflexivity.
Defined.

Example process_videos_three :
  (Rag.process_videos py_urllib example_transcripts
     ["https://youtu.be/abc"; "https://www.youtube.com/watch?v=gone";
      "https://youtu.be/silent"] (Rag.mkWorld [])).1
  = Returns [Rag.document "abc" "https://youtu.be/abc" "hello world"].
Proof. vm_compute. reflexivity. Qed.

(** C5 (as the code has it).  [process_videos] has no [EmptyDocument]
    failure.  For a well-formed URL it returns and does not raise: when the
    text of the transcript is empty (or could not be fetched) the document is
    left out and the output is empty; otherwise the text is kept as it is,
    without trimming. *)
Theorem process_videos_leaves_out_empty_text
    (lib : UrlLib) (transcript_api : string -> result (list TranscriptEntry))
    (url id : string) (w : Rag.World) :
  Rag.extract_video_id lib url = Returns id ->
  ∃ w', Rag.process_videos lib transcript_api [url] w
        = (Returns (if str_truthy (fetched_text transcript_api id)
                    then [Rag.document id url (fetched_text transcript_api id)]
                    else []), w').
Proof.
  intros Hid.
  destruct (process_videos_from_spec lib transcript_api [url]
              ltac:(repeat constructor; eauto) [] w) as [w' E].
  exists w'. unfold Rag.process_videos. rewrite E. f_equal. f_equal.
  simpl. unfold kept_document. rewrite Hid. simpl.
  destruct (str_truthy (fetched_text transcript_api id)); reflexivity.
Qed.

Lemma process_videos_leaves_out_empty_text_witness :
  ∃ w', Rag.process_videos py_urllib example_transcripts
          ["https://youtu.be/silent"] (Rag.mkWorld [])
        = (Returns (if str_truthy (fetched_text example_transcripts "silent")
                    then [Rag.document "silent" "https://youtu.be/silent"
                            (fetched_text example_transcripts "silent")]
                    else []), w').
Proof.
  apply (process_videos_leaves_out_empty_text py_urllib example_transcripts
           "https://youtu.be/silent" "silent" (Rag.mkWorld [])).
  vm_compute. reflexivity.
Defined.

(** C5 as stated fails.  The transcript of ["silent"] has no entry and its
    text is empty; that of ["blank"] is made of spaces and is empty after
    trimming.  On the first [process_videos] succeeds with an empty output,
    on the second it succeeds with a document of spaces; on neither does it
    fail with [EmptyDocument]. *)
Lemma process_videos_empty_document_counterexample :
  let run url := (Rag.process_videos py_urllib example_transcripts [url]
                    (Rag.mkWorld [])).1 in
  str_strip (fetched_text example_transcripts "silent") = ""
  ∧ run "https://youtu.be/silent" = Returns []
  ∧ run "https://youtu.be/silent" ≠ Raises EmptyDocument
  ∧ str_strip (fetched_text example_transcripts "blank") = ""
  ∧ run "https://youtu.be/blank"
    = Returns [Rag.document "blank" "https://youtu.be/blank" "   "]
  ∧ run "https://youtu.be/blank" ≠ Raises EmptyDocument.
Proof. repeat split; try (vm_compute; reflexivity); vm_compute; discriminate. Qed.

(** ** The summarizer when generation fails *)

Section GenerationFails.
Variable lib : UrlLib.
Variable transcript_api : string -> result (list TranscriptEntry).
Variable chat_completions : ChatService.

Lemma summarizer_get_transcript_ok (id : string) (l : list TranscriptEntry)
    (w : Summarizer.World) :
  transcript_api id = Returns l ->
  Summarizer.get_transcript transcript_api id w
  = (Returns (Some (join_transcript l)), w).
Proof.
  intros E. unfold Summarizer.get_transcript, try_except, lift, mbind, M_bind.
  rewrite E. reflexivity.
Qed.

(** A failed call is caught: the error is printed, [None] is returned, and
    one call has been made. *)
Lemma summarize_text_failed (text : string) (w : Summarizer.World) (e : exn) :
  (∀ req, chat_completions (Summarizer.generation_calls w) req = Raises e) ->
  Summarizer.summarize_text chat_completions text w
  = (Returns None,
     Summarizer.mkWorld
       (Summarizer.stdout w ++ ["Error in summarization: " +:+ str_exn e])
       (S (Summarizer.generation_calls w))).
Proof.
  intros E.
  unfold Summarizer.summarize_text, try_except, Summarizer.create, mbind, M_bind.
  rewrite E. reflexivity.
Qed.

Lemma chain_summarize_text_failed
    (str_format : string -> string -> result string)
    (self : Summarizer.YouTubeSummaryChain)
    (text prompt : string) (w : Summarizer.World) (e : exn) :
  str_format (Summarizer.prompt_template self) text = Returns prompt ->
  (∀ req, chat_completions (Summarizer.generation_calls w) req = Raises e) ->
  Summarizer.chain_summarize_text str_format chat_completions self text w
  = (Returns None,
     Summarizer.mkWorld
       (Summarizer.stdout w ++ ["Error in summarization: " +:+ str_exn e])
       (S (Summarizer.generation_calls w))).
Proof.
  intros Hp E.
  unfold Summarizer.chain_summarize_text, lift. unfold mbind at 1, M_bind.
  rewrite Hp.
  unfold try_except, Summarizer.create, mbind, M_bind.
  rewrite E. reflexivity.
Qed.

End GenerationFails.

(** C1 (as the code has it).  There is no retry and no configured number of
    attempts.  For a URL with a video identifier and a transcript that is
    not empty, when the call to the language model fails, both
    [summarize_youtube_video] and the [__call__] of [YouTubeSummaryChain]
    have called the model exactly once and return the string
    ["Could not generate summary"]; no typed failure is returned or raised.
    The chain reaches the model once [format] has made the prompt from its
    template. *)
Theorem summarize_generation_failure
    (lib : UrlLib) (str_format : string -> string -> result string)
    (transcript_api : string -> result (list TranscriptEntry))
    (chat_completions : ChatService) (self : Summarizer.YouTubeSummaryChain)
    (url id prompt : string) (l : list TranscriptEntry) (e : exn)
    (w : Summarizer.World) :
  Summarizer.extract_video_id lib url = Returns (Some id) ->
  str_truthy id = true ->
  transcript_api id = Returns l ->
  str_truthy (join_transcript l) = true ->
  str_format (Summarizer.prompt_template self) (join_transcript l)
  = Returns prompt ->
  (∀ req, chat_completions (Summarizer.generation_calls w) req = Raises e) ->
  let w' := Summarizer.mkWorld
              (Summarizer.stdout w ++ ["Error in summarization: " +:+ str_exn e])
              (S (Summarizer.generation_calls w)) in
  Summarizer.summarize_youtube_video lib transcript_api chat_completions url w
  = (Returns "Could not generate summary", w')
  ∧ Summarizer.call lib str_format transcript_api chat_completions self url w
    = (Returns "Could not generate summary", w').
Proof.
  intros Hid Hidt Hl Hlt Hp Hfail w'.
  unfold Summarizer.summarize_youtube_video, Summarizer.call.
  unfold mbind at 1 4, M_bind, lift. rewrite Hid. simpl. rewrite Hidt. simpl.
  unfold mbind at 1 3, M_bind.
  rewrite (summarizer_get_transcript_ok transcript_api id l w Hl).
  simpl. rewrite Hlt. simpl.
  unfold mbind, M_bind.
  rewrite (summarize_text_failed chat_completions _ w e Hfail).
  rewrite (chain_summarize_text_failed chat_completions str_format self _
             prompt w e Hp Hfail).
  split; reflexivity.
Qed.

Lemma summarize_generation_failure_witness :
  let w := Summarizer.mkWorld [] 0 in
  let w' := Summarizer.mkWorld ["Error in summarization: timeout"] 1 in
  Summarizer.summarize_youtube_video py_urllib example_transcripts
    answers_third_time "https://youtu.be/abc" w
  = (Returns "Could not generate summary", w')
  ∧ Summarizer.call py_urllib format_text example_transcripts
      answers_third_time Summarizer.init_chain "https://youtu.be/abc" w
    = (Returns "Could not generate summary", w').
Proof.
  eapply (summarize_generation_failure py_urllib format_text
            example_transcripts answers_third_time Summarizer.init_chain
            "https://youtu.be/abc" "abc" _
            [mkEntry "hello" 0%Qc 1%Qc; mkEntry "world" 1%Qc 1%Qc]
            (UpstreamError "timeout") (Summarizer.mkWorld [] 0)).
  - vm_compute. reflexivity.
  - reflexivity.
  - reflexivity.
  - reflexivity.
  - vm_compute. reflexivity.
  - intros req. reflexivity.
Defined.

(** C1 as stated fails.  With a language model that times out on every call,
    the summarizer returns a string, not [GenerationFailed], and has called
    the model once. *)
Lemma summarize_placeholder_counterexample :
  let out := Summarizer.summarize_youtube_video py_urllib example_transcripts
               always_timeout "https://youtu.be/abc" (Summarizer.mkWorld [] 0) in
  (∀ n req, always_timeout n req = Raises (UpstreamError "timeout"))
  ∧ out.1 = Returns "Could not generate summary"
  ∧ out.1 ≠ Raises GenerationFailed
  ∧ Summarizer.generation_calls out.2 = 1%nat.
Proof. repeat split; vm_compute; discriminate. Qed.

(** ** The performance monitor *)

(** [log_performance] returns the merged metrics, appends them to the
    history and logs them in a run of their own; it reads nothing of the
    history. *)
Lemma log_performance_spec (latency : Qc)
    (rouge_scores resource_usage : gmap string Qc) (w : Monitoring.World) :
  let metrics := Monitoring.merge_metrics latency rouge_scores resource_usage in
  Monitoring.log_performance latency rouge_scores resource_usage w
  = (Returns metrics,
     Monitoring.mkWorld
       (Monitoring.mkMonitor
          (Monitoring.metrics_history (Monitoring.monitor w) ++ [metrics]))
       (Monitoring.clock w)
       (Monitoring.mlflow w ++ performance_events metrics)).
Proof.
  unfold Monitoring.log_performance, Monitoring.log_metrics, with_block,
    Monitoring.emit, modify, mbind, M_bind, mret, M_ret. simpl.
  rewrite <- !app_assoc. reflexivity.
Qed.

Lemma feed_monitor_spec (requests : list (Qc * gmap string Qc * gmap string Qc))
    (w : Monitoring.World) :
  let recorded := recorded_metrics <$> requests in
  ∃ w', feed_monitor requests w = (Returns recorded, w')
        ∧ Monitoring.metrics_history (Monitoring.monitor w')
          = Monitoring.metrics_history (Monitoring.monitor w) ++ recorded
        ∧ Monitoring.mlflow w'
          = Monitoring.mlflow w ++ concat (performance_events <$> recorded).
Proof.
  revert w. induction requests as [|[[l r] u] rest IH]; intros w; simpl.
  - exists w. rewrite !app_nil_r. repeat split.
  - unfold mbind at 1, M_bind. rewrite log_performance_spec.
    destruct (IH (Monitoring.mkWorld
                    (Monitoring.mkMonitor
                       (Monitoring.metrics_history (Monitoring.monitor w)
                        ++ [Monitoring.merge_metrics l r u]))
                    (Monitoring.clock w)
                    (Monitoring.mlflow w
                     ++ performance_events (Monitoring.merge_metrics l r u))))
      as (w' & E & Hh & Hm).
    exists w'. unfold mbind, M_bind. rewrite E. simpl in *.
    rewrite Hh, Hm, <- !app_assoc. repeat split.
Qed.

(** C4 (as the code has it).  [PerformanceMonitor] holds no window and
    computes no drift statistic.  Fed any requests, it returns the metrics
    of each one, which do not depend on the requests before, appends them
    to [metrics_history] and logs them; it never raises, so no
    [DriftDetected] flag is raised, for no window. *)
Theorem monitor_only_records
    (requests : list (Qc * gmap string Qc * gmap string Qc))
    (w : Monitoring.World) :
  let recorded := recorded_metrics <$> requests in
  ∃ w', feed_monitor requests w = (Returns recorded, w')
        ∧ Monitoring.metrics_history (Monitoring.monitor w')
          = Monitoring.metrics_history (Monitoring.monitor w) ++ recorded
        ∧ Monitoring.mlflow w'
          = Monitoring.mlflow w ++ concat (performance_events <$> recorded)
        ∧ (∀ metric_name,
             (feed_monitor requests w).1 ≠ Raises (DriftDetected metric_name)).
Proof.
  intros recorded.
  destruct (feed_monitor_spec requests w) as (w' & E & Hh & Hm).
  exists w'. repeat split; try assumption.
  intros m. rewrite E. simpl. discriminate.
Qed.

(** C4 as stated fails.  After a baseline with mean 100 and a recent window
    with mean 500 the monitor has returned the six metrics and raised no
    [DriftDetected("latency")]; what it returns for each request is its
    latency alone, as it is after a recent window with mean 105. *)
Lemma monitor_drift_counterexample :
  let w0 := Monitoring.mkWorld Monitoring.init_monitor 0%Qc [] in
  let out := feed_monitor
               (latency_only <$> (baseline_window ++ recent_window_500)) w0 in
  mean baseline_window = Qc_of_Z 100
  ∧ mean recent_window_500 = Qc_of_Z 500
  ∧ mean recent_window_105 = Qc_of_Z 105
  ∧ out.1 ≠ Raises (DriftDetected "latency")
  ∧ out.1 = Returns ((fun l => {[ "latency" := l ]})
                       <$> (baseline_window ++ recent_window_500)).
Proof.
  cbv zeta. repeat apply conj.
  - apply Qc_is_canon. vm_compute. reflexivity.
  - apply Qc_is_canon. vm_compute. reflexivity.
  - apply Qc_is_canon. vm_compute. reflexivity.
  - vm_compute. discriminate.
  - vm_compute. reflexivity.
Qed.

(** ** The evaluation of the RAG system *)

(** *** Means and columns *)

Lemma sum_Qc_perm (l1 l2 : list Qc) : l1 ≡ₚ l2 -> sum_Qc l1 = sum_Qc l2.
Proof.
  induction 1 as [|x l1 l2 _ IH|x y l|l1 l2 l3 _ IH1 _ IH2]; simpl.
  - reflexivity.
  - by rewrite IH.
  - ring.
  - congruence.
Qed.

Lemma mean_perm (l1 l2 : list Qc) : l1 ≡ₚ l2 -> mean l1 = mean l2.
Proof.
  intros H. unfold mean.
  by rewrite (sum_Qc_perm _ _ H), (Permutation_length H).
Qed.

Lemma column_cons (k : string) (row : gmap string Qc) (rows : list (gmap string Qc)) :
  column k (row :: rows)
  = match row !! k with
    | Some v => v :: column k rows
    | None => column k rows
    end.
Proof. reflexivity. Qed.

Lemma union_list_lookup_None (k : string) (rows : list (gmap string Qc)) :
  (⋃ rows : gmap string Qc) !! k = None ↔ column k rows = [].
Proof.
  induction rows as [|row rows IH].
  - simpl. by rewrite lookup_empty.
  - rewrite column_cons.
    change (⋃ (row :: rows) : gmap string Qc) with (row ∪ ⋃ rows).
    rewrite lookup_union_None, IH.
    destruct (row !! k); intuition (try discriminate; auto).
Qed.

(** The mean of a DataFrame has an entry for each column that holds a
    value, and the entry is the mean of the values of the column, in the
    order of the rows. *)
Lemma df_mean_lookup (mean_of : list Qc -> Qc) (k : string)
    (rows : list (gmap string Qc)) :
  df_mean mean_of rows !! k
  = match column k rows with
    | [] => None
    | vs => Some (mean_of vs)
    end.
Proof.
  unfold df_mean. rewrite map_lookup_imap.
  destruct ((⋃ rows : gmap string Qc) !! k) as [v|] eqn:E; simpl.
  - destruct (column k rows) eqn:Ec; [|reflexivity].
    apply union_list_lookup_None in Ec. congruence.
  - apply union_list_lookup_None in E. by rewrite E.
Qed.

Lemma rag_for_each_log (rename : string -> string) (l : list (string * Qc))
    (w : RagEval.World) :
  for_each
    (fun '(metric_name, value) =>
       if bool_decide (metric_name ≠ "sample_id")
       then RagEval.emit (LogMetric (rename metric_name) value)
       else mret tt) l w
  = (Returns tt,
     RagEval.mkWorld (RagEval.clock w)
       (RagEval.mlflow w
        ++ omap (fun '(k, v) =>
                   if bool_decide (k ≠ "sample_id")
                   then Some (LogMetric (rename k) v) else None) l)
       (RagEval.files w)).
Proof.
  revert w. induction l as [|[k v] l IH]; intros w; simpl.
  - rewrite app_nil_r. by destruct w.
  - unfold mbind, M_bind. destruct (bool_decide (k ≠ "sample_id")); simpl.
    + rewrite IH. simpl. by rewrite <- app_assoc.
    + by rewrite IH.
Qed.

Section RagEvaluation.
Variable qa_chain : string -> result RagEval.QAResult.
Variable qa_seconds : string -> Qc.
Variable rouge_scorer : string -> string -> RougeScores.
Variable bert_score : string -> string -> Score.
Variable context_relevancy : list string -> string -> Qc.
Variable faithfulness : string -> string -> string -> Qc.
Variable answer_relevancy : string -> string -> string -> Qc.
Variable strftime : Qc -> string.
Variable series_mean : list Qc -> Qc.

Local Abbreviation evaluate_sample :=
  (RagEval.evaluate_sample qa_chain qa_seconds rouge_scorer bert_score
     context_relevancy faithfulness answer_relevancy).
Local Abbreviation evaluate_samples :=
  (RagEval.evaluate_samples qa_chain qa_seconds rouge_scorer bert_score
     context_relevancy faithfulness answer_relevancy).
Local Abbreviation evaluate_rag_system :=
  (RagEval.evaluate_rag_system qa_chain qa_seconds rouge_scorer bert_score
     context_relevancy faithfulness answer_relevancy strftime series_mean).

(** A sample without [context] stops the loop body with an exception,
    whatever the chain and the scorers answer. *)
Lemma evaluate_sample_without_context (i : nat) (sample : gmap string string)
    (w : RagEval.World) :
  sample !! "context" = None ->
  ∃ e w', evaluate_sample i sample w = (Raises e, w').
Proof.
  intros Hc.
  unfold RagEval.evaluate_sample, RagEval.time, RagEval.run_qa_chain, gets,
    lift, dict_getitem, mbind, M_bind.
  destruct (sample !! "question") as [q|]; simpl; [|eauto].
  destruct (qa_chain q) as [qa|e]; simpl; [|eauto].
  destruct (sample !! "expected_answer") as [ea|]; simpl; [|eauto].
  rewrite Hc. eauto.
Qed.

(** With its other fields present and an answer from the chain, the
    exception is the [KeyError] of the lookup [sample['context']]. *)
Lemma evaluate_sample_context_key_error (i : nat) (sample : gmap string string)
    (w : RagEval.World) (q ea : string) (qa : RagEval.QAResult) :
  sample !! "question" = Some q ->
  sample !! "expected_answer" = Some ea ->
  qa_chain q = Returns qa ->
  sample !! "context" = None ->
  evaluate_sample i sample w
  = (Raises (KeyError "context"),
     RagEval.mkWorld (RagEval.clock w + qa_seconds q)%Qc
       (RagEval.mlflow w) (RagEval.files w)).
Proof.
  intros Hq Hea Hqa Hc.
  unfold RagEval.evaluate_sample, RagEval.time, RagEval.run_qa_chain, gets,
    lift, dict_getitem, mbind, M_bind.
  rewrite Hq. simpl. rewrite Hqa. simpl. rewrite Hea. simpl. rewrite Hc.
  reflexivity.
Qed.

Lemma evaluate_samples_without_context (qa_samples : list (gmap string string)) :
  (∃ sample, sample ∈ qa_samples ∧ sample !! "context" = None) ->
  ∀ i all_metrics w,
  ∃ e w', evaluate_samples i qa_samples all_metrics w = (Raises e, w').
Proof.
  induction qa_samples as [|s rest IH]; intros (sample & Hin & Hc) i all_metrics w.
  - by apply elem_of_nil in Hin.
  - simpl. unfold mbind, M_bind.
    destruct (evaluate_sample i s w) as [[row|e] w1] eqn:E; [|eauto].
    apply elem_of_cons in Hin as [->|Hin].
    + destruct (evaluate_sample_without_context i s w Hc) as (e & w' & E').
      congruence.
    + apply IH. eauto.
Qed.

Lemma evaluate_rag_system_without_context
    (qa_samples : list (gmap string string)) (w : RagEval.World) :
  (∃ sample, sample ∈ qa_samples ∧ sample !! "context" = None) ->
  ∃ e w', evaluate_rag_system qa_samples w = (Raises e, w').
Proof.
  intros H.
  unfold RagEval.evaluate_rag_system, RagEval.time, gets, with_block.
  unfold mbind at 1, M_bind. simpl.
  unfold mbind at 1, M_bind.
  match goal with
  | |- context [evaluate_samples 0 qa_samples [] ?w0] =>
      destruct (evaluate_samples_without_context qa_samples H 0%nat [] w0)
        as (e & w' & ->)
  end.
  simpl. eauto.
Qed.

Local Abbreviation complete := (complete_sample qa_chain).
Local Abbreviation row_of :=
  (rag_row qa_chain qa_seconds rouge_scorer bert_score context_relevancy
     faithfulness answer_relevancy).
Local Abbreviation rows_of :=
  (rag_rows qa_chain qa_seconds rouge_scorer bert_score context_relevancy
     faithfulness answer_relevancy).
Local Abbreviation sample_events :=
  (rag_sample_events qa_chain qa_seconds rouge_scorer bert_score
     context_relevancy faithfulness answer_relevancy).

(** On a complete sample the loop body returns the row of the sample, takes
    the time the chain takes and logs the entries of the row. *)
Lemma evaluate_sample_ok (i : nat) (sample : gmap string string)
    (w : RagEval.World) :
  complete sample ->
  evaluate_sample i sample w
  = (Returns (row_of i sample),
     RagEval.mkWorld
       (RagEval.clock w + qa_seconds (sample !!! "question"))%Qc
       (RagEval.mlflow w
        ++ metric_events (fun k => k +:+ "_" +:+ pretty i) (row_of i sample))
       (RagEval.files w)).
Proof.
  intros (q & ea & c & qa & Hq & Hea & Hc & Hqa).
  unfold rag_row, answer_of.
  rewrite (lookup_total_correct _ _ _ Hq), (lookup_total_correct _ _ _ Hea),
    (lookup_total_correct _ _ _ Hc), Hqa.
  unfold RagEval.evaluate_sample, RagEval.time, RagEval.run_qa_chain, gets,
    lift, dict_getitem.
  unfold mbind at 1 2 3 4 5 6 7 8 9, M_bind.
  rewrite Hq. simpl. rewrite Hqa. simpl. rewrite Hea. simpl. rewrite Hc. simpl.
  replace (RagEval.clock w + qa_seconds q - RagEval.clock w)%Qc
    with (qa_seconds q) by ring.
  unfold mbind, M_bind. rewrite rag_for_each_log. reflexivity.
Qed.

Lemma evaluate_samples_ok (qa_samples : list (gmap string string)) :
  Forall complete qa_samples ->
  ∀ i all_metrics w,
  ∃ w', evaluate_samples i qa_samples all_metrics w
        = (Returns (all_metrics ++ rows_of i qa_samples), w')
        ∧ RagEval.mlflow w' = RagEval.mlflow w ++ sample_events i qa_samples
        ∧ RagEval.files w' = RagEval.files w.
Proof.
  induction 1 as [|s rest Hs _ IH]; intros i all_metrics w; simpl.
  - exists w. by rewrite !app_nil_r.
  - unfold mbind, M_bind. rewrite (evaluate_sample_ok i s w Hs).
    edestruct IH as (w' & -> & Hm & Hf).
    exists w'. rewrite <- app_assoc, Hm, Hf. simpl.
    by rewrite <- app_assoc.
Qed.

(** A run on complete samples returns the table of the rows and logs, after
    the entries of the samples, the means of the columns. *)
Lemma evaluate_rag_system_ok (qa_samples : list (gmap string string))
    (w : RagEval.World) :
  Forall complete qa_samples ->
  ∃ w', evaluate_rag_system qa_samples w = (Returns (rows_of 0 qa_samples), w')
        ∧ RagEval.mlflow w'
          = RagEval.mlflow w
            ++ [StartRun ("rag_evaluation_" +:+ strftime (RagEval.clock w))]
            ++ sample_events 0 qa_samples
            ++ metric_events (fun k => "avg_" +:+ k)
                 (df_mean series_mean (rows_of 0 qa_samples))
            ++ [LogArtifact "evaluation_results.csv"; EndRun].
Proof.
  intros Hc.
  unfold RagEval.evaluate_rag_system, RagEval.time, gets, with_block.
  unfold mbind at 1, M_bind. simpl.
  unfold mbind at 1, M_bind.
  match goal with
  | |- context [evaluate_samples 0 qa_samples [] ?w0] =>
      destruct (evaluate_samples_ok qa_samples Hc 0%nat [] w0)
        as (w1 & -> & Hm & Hf)
  end.
  simpl in Hm. simpl.
  unfold RagEval.log_averages. unfold mbind at 1, M_bind.
  rewrite rag_for_each_log. simpl.
  eexists. split; [reflexivity|]. simpl. rewrite Hm.
  unfold metric_events. rewrite <- !app_assoc. reflexivity.
Qed.

(** *** The rows of a run *)

Lemma rag_row_lookup_ne (i j : nat) (sample : gmap string string) (k : string) :
  k ≠ "sample_id" -> row_of i sample !! k = row_of j sample !! k.
Proof.
  intros Hk. unfold rag_row. rewrite !lookup_union.
  do 4 f_equal. by rewrite !lookup_insert_ne.
Qed.

Lemma rag_row_sample_id (i : nat) (sample : gmap string string) :
  row_of i sample !! "sample_id" = Some (Qc_of_nat i).
Proof.
  unfold rag_row, RagEval.evaluate_generation, RagEval.evaluate_retrieval,
    RagEval.calculate_bert_scores, RagEval.calculate_rouge_scores.
  rewrite !lookup_union.
  rewrite !lookup_insert_ne by done. rewrite !lookup_singleton_ne by done.
  rewrite lookup_insert_eq. reflexivity.
Qed.

(** Every row has the same eleven keys. *)
Lemma rag_row_dom (i : nat) (sample : gmap string string) :
  dom (row_of i sample)
  = dom (row_of 0 (∅ : gmap string string)).
Proof.
  unfold rag_row, RagEval.evaluate_generation, RagEval.evaluate_retrieval,
    RagEval.calculate_bert_scores, RagEval.calculate_rouge_scores.
  rewrite !dom_union_L, !dom_insert_L, !dom_singleton_L. reflexivity.
Qed.

Lemma rows_of_length (i : nat) (qa_samples : list (gmap string string)) :
  length (rows_of i qa_samples) = length qa_samples.
Proof. revert i. induction qa_samples; intros i; simpl; auto. Qed.

Lemma column_rows_ne (k : string) (i : nat) (qa_samples : list (gmap string string)) :
  k ≠ "sample_id" ->
  column k (rows_of i qa_samples)
  = omap (fun sample => row_of 0 sample !! k) qa_samples.
Proof.
  intros Hk. revert i. induction qa_samples as [|s rest IH]; intros i.
  - reflexivity.
  - simpl rag_rows. rewrite column_cons, IH.
    rewrite (rag_row_lookup_ne i 0 s k Hk). reflexivity.
Qed.

Lemma column_rows_sample_id (i : nat) (qa_samples : list (gmap string string)) :
  column "sample_id" (rows_of i qa_samples)
  = Qc_of_nat <$> seq i (length qa_samples).
Proof.
  revert i. induction qa_samples as [|s rest IH]; intros i.
  - reflexivity.
  - simpl rag_rows. rewrite column_cons, IH, rag_row_sample_id. reflexivity.
Qed.

(** A column of the table holds a value for every sample or for none. *)
Lemma column_rows_full (k : string) (i : nat) (qa_samples : list (gmap string string)) :
  column k (rows_of i qa_samples) = []
  ∨ length (column k (rows_of i qa_samples)) = length qa_samples.
Proof.
  destruct (row_of 0 (∅ : gmap string string) !! k) as [v0|] eqn:E0.
  - right. revert i. induction qa_samples as [|s rest IH]; intros i.
    + reflexivity.
    + simpl rag_rows. rewrite column_cons.
      assert (is_Some (row_of i s !! k)) as [v ->].
      { apply elem_of_dom. rewrite rag_row_dom. apply elem_of_dom. eauto. }
      simpl. by rewrite IH.
  - left. revert i. induction qa_samples as [|s rest IH]; intros i.
    + reflexivity.
    + simpl rag_rows. rewrite column_cons.
      assert (row_of i s !! k = None) as ->; [|apply IH].
      apply not_elem_of_dom. rewrite rag_row_dom. by apply not_elem_of_dom.
Qed.

End RagEvaluation.

(** ** The evaluation of the summarizer *)

Lemma mapM_getitem (k : string) (rows : list (gmap string Qc)) :
  Forall (fun row => is_Some (row !! k)) rows ->
  mapM (fun m => dict_getitem m k) rows = Returns (column k rows).
Proof.
  induction 1 as [|row rows [v Hv] _ IH]; [reflexivity|].
  rewrite column_cons, Hv. simpl. rewrite IH. unfold dict_getitem.
  rewrite Hv. reflexivity.
Qed.

Lemma column_full (k : string) (rows : list (gmap string Qc)) :
  Forall (fun row => is_Some (row !! k)) rows ->
  length (column k rows) = length rows.
Proof.
  induction 1 as [|row rows [v Hv] _ IH]; [reflexivity|].
  rewrite column_cons, Hv. simpl. by rewrite IH.
Qed.

Lemma column_empty (k : string) (rows : list (gmap string Qc)) :
  Forall (fun row => row !! k = None) rows -> column k rows = [].
Proof.
  induction 1 as [|row rows Hv _ IH]; [reflexivity|].
  by rewrite column_cons, Hv.
Qed.

(** The dict the averaging loop builds from [acc] over [keys]. *)
Lemma foldl_insert_lookup_in {V} (f : string -> string) (g : string -> V)
    `{!Inj (=) (=) f} (keys : list string) (acc : gmap string V) (k : string) :
  k ∈ keys ->
  foldl (fun acc k => <[f k := g k]> acc) acc keys !! f k = Some (g k).
Proof.
  revert acc. induction keys as [|k0 rest IH]; intros acc Hin.
  - by apply elem_of_nil in Hin.
  - simpl. destruct (decide (k ∈ rest)) as [Hr|Hr]; [by apply IH|].
    apply elem_of_cons in Hin as [->|Hin]; [|done].
    clear IH. revert acc.
    induction rest as [|k1 rest IH]; intros acc; simpl.
    + apply lookup_insert_eq.
    + apply not_elem_of_cons in Hr as [Hne Hr].
      rewrite insert_insert_ne by (intros E; apply (inj f) in E; done).
      by apply IH.
Qed.

Lemma foldl_insert_lookup_out {V} (f : string -> string) (g : string -> V)
    (keys : list string) (acc : gmap string V) (key : string) :
  (∀ k, k ∈ keys -> f k ≠ key) ->
  foldl (fun acc k => <[f k := g k]> acc) acc keys !! key = acc !! key.
Proof.
  revert acc. induction keys as [|k0 rest IH]; intros acc Hout; [reflexivity|].
  simpl. rewrite IH.
  - apply lookup_insert_ne. apply Hout. by left.
  - intros k Hk. apply Hout. by right.
Qed.

Section SummarizerEvaluation.
Variable rouge_scorer : string -> string -> RougeScores.
Variable sentence_bleu : list (list string) -> list string -> Qc.
Variable run_id : string.
Variable np_mean : list Qc -> Qc.
Variable model : SummarizerEval.Model.

Local Abbreviation complete_ex := (complete_example model).
Local Abbreviation ex_row := (example_row rouge_scorer sentence_bleu model).
Local Abbreviation evaluate_example :=
  (SummarizerEval.evaluate_example rouge_scorer sentence_bleu).
Local Abbreviation evaluate_examples :=
  (SummarizerEval.evaluate_examples rouge_scorer sentence_bleu).
Local Abbreviation evaluate_model_with_mlflow :=
  (SummarizerEval.evaluate_model_with_mlflow rouge_scorer sentence_bleu).

Lemma summarizer_for_each_log (rename : string -> string)
    (l : list (string * Qc)) (w : SummarizerEval.World) :
  for_each
    (fun '(metric_name, value) =>
       SummarizerEval.emit (LogMetric (rename metric_name) value)) l w
  = (Returns tt,
     SummarizerEval.mkWorld
       (SummarizerEval.mlflow w
        ++ ((fun '(k, v) => LogMetric (rename k) v) <$> l))
       (SummarizerEval.files w)).
Proof.
  revert w. induction l as [|[k v] l IH]; intros w; simpl.
  - rewrite app_nil_r. by destruct w.
  - unfold mbind, M_bind. simpl. rewrite IH. simpl. by rewrite <- app_assoc.
Qed.

(** Every row of metrics has the same nine keys. *)
Lemma example_row_dom (example : gmap string string) :
  dom (ex_row example) = dom (ex_row ∅).
Proof.
  unfold example_row, SummarizerEval.calculate_metrics.
  rewrite !dom_insert_L, !dom_singleton_L. reflexivity.
Qed.

Lemma example_rows_key (k : string) (test_data : list (gmap string string)) :
  is_Some (ex_row ∅ !! k) ->
  Forall (fun row => is_Some (row !! k)) (ex_row <$> test_data).
Proof.
  intros H. apply Forall_fmap, Forall_forall. intros ex _. simpl.
  apply elem_of_dom. rewrite example_row_dom. by apply elem_of_dom.
Qed.

Lemma example_rows_no_key (k : string) (test_data : list (gmap string string)) :
  ex_row ∅ !! k = None ->
  Forall (fun row => row !! k = None) (ex_row <$> test_data).
Proof.
  intros H. apply Forall_fmap, Forall_forall. intros ex _. simpl.
  apply not_elem_of_dom. rewrite example_row_dom. by apply not_elem_of_dom.
Qed.

(** The averaging loop: each key gets the mean of its column. *)
Lemma average_metrics_ok (rows : list (gmap string Qc)) (keys : list string) :
  (∀ k, k ∈ keys -> Forall (fun row => is_Some (row !! k)) rows) ->
  ∀ avg_metrics w,
  ∃ w', SummarizerEval.average_metrics np_mean rows keys avg_metrics w
        = (Returns (foldl (fun acc k => <["avg_" +:+ k := np_mean (column k rows)]> acc)
                      avg_metrics keys), w').
Proof.
  induction keys as [|k keys IH]; intros Hk avg_metrics w; simpl.
  - eauto.
  - unfold mbind at 1, M_bind, lift.
    rewrite (mapM_getitem k rows) by (apply Hk; by left).
    unfold mbind, M_bind, SummarizerEval.emit, modify. simpl.
    apply IH. intros k' Hk'. apply Hk. by right.
Qed.

End SummarizerEvaluation.

(** ** A video processed without a reference summary *)

Section ProcessVideo.
Variable transcript_api : string -> result (list TranscriptEntry).
Variable summarizer : string -> result string.
Variable summarizer_seconds : string -> Qc.
Variable rouge_scorer : string -> string -> RougeScores.
Variable cpu_percent : Qc -> Qc.
Variable memory_rss : Qc -> Qc.

(** Without a reference summary [process_video] computes no ROUGE score; it
    measures latency and resource usage, logs them and returns. *)
Lemma process_video_without_reference (video_id summary : string)
    (transcript : list TranscriptEntry) (w : Monitoring.World) :
  transcript_api video_id = Returns transcript ->
  summarizer (join_transcript transcript) = Returns summary ->
  let text := join_transcript transcript in
  let now := (Monitoring.clock w + summarizer_seconds text)%Qc in
  let metrics : gmap string Qc :=
    {[ "cpu_percent" := cpu_percent now;
       "memory_mb" := (memory_rss now / Qc_of_Z 1024 / Qc_of_Z 1024)%Qc;
       "latency" := summarizer_seconds text ]} in
  Monitoring.process_video transcript_api summarizer summarizer_seconds
    rouge_scorer cpu_percent memory_rss video_id None w
  = (Returns (summary, metrics),
     Monitoring.mkWorld
       (Monitoring.mkMonitor
          (Monitoring.metrics_history (Monitoring.monitor w) ++ [metrics]))
       now (Monitoring.mlflow w ++ performance_events metrics)).
Proof.
  intros Ht Hs text now metrics.
  unfold Monitoring.process_video, Monitoring.measure_latency,
    Monitoring.measure_resource_usage, Monitoring.run_summarizer,
    Monitoring.time, gets, lift.
  unfold mbind at 1 2 3 4 5 6 7, M_bind. rewrite Ht. simpl.
  rewrite Hs. simpl. fold text.
  replace (Monitoring.clock w + summarizer_seconds text - Monitoring.clock w)%Qc
    with (summarizer_seconds text) by ring.
  fold now.
  assert (Monitoring.merge_metrics (summarizer_seconds text) ∅
            {[ "cpu_percent" := cpu_percent now;
               "memory_mb" := (memory_rss now / Qc_of_Z 1024 / Qc_of_Z 1024)%Qc ]}
          = metrics) as ->.
  { unfold Monitoring.merge_metrics, metrics.
    rewrite (left_id_L ∅ (∪)).
    apply map_eq. intros k. rewrite lookup_union.
    destruct (decide (k = "cpu_percent")) as [->|?];
      [by rewrite !lookup_insert_eq|].
    rewrite !(lookup_insert_ne _ "cpu_percent") by done.
    destruct (decide (k = "memory_mb")) as [->|?].
    - rewrite lookup_singleton_eq, lookup_insert_eq. reflexivity.
    - rewrite lookup_singleton_ne by done.
      rewrite !(lookup_insert_ne _ "memory_mb") by done.
      by destruct (({["latency" := summarizer_seconds text]} : gmap string Qc) !! k). }
  unfold mret, M_ret, performance_events. rewrite <- !app_assoc. reflexivity.
Qed.

End ProcessVideo.

(** C6 (as the code has it).  [evaluate_rag_system] skips nothing for a
    sample without [context]: the run fails, with the [KeyError] of
    [sample['context']] when the other fields of the sample are there and
    the chain answers; no table is returned.  Skipping for a missing
    reference exists in [process_video] of the monitoring notebook only:
    without a reference summary it computes no ROUGE score, still records
    latency and resource usage, and returns. *)
Theorem evaluation_needs_context
    (qa_chain : string -> result RagEval.QAResult) (qa_seconds : string -> Qc)
    (rouge_scorer : string -> string -> RougeScores)
    (bert_score : string -> string -> Score)
    (context_relevancy : list string -> string -> Qc)
    (faithfulness answer_relevancy : string -> string -> string -> Qc)
    (strftime : Qc -> string) (series_mean : list Qc -> Qc)
    (qa_samples : list (gmap string string)) (w : RagEval.World) :
  (∃ sample, sample ∈ qa_samples ∧ sample !! "context" = None) ->
  (∃ e w', RagEval.evaluate_rag_system qa_chain qa_seconds rouge_scorer
             bert_score context_relevancy faithfulness answer_relevancy
             strftime series_mean qa_samples w = (Raises e, w'))
  ∧ (∀ i sample q ea qa w0,
       sample !! "question" = Some q ->
       sample !! "expected_answer" = Some ea ->
       qa_chain q = Returns qa ->
       sample !! "context" = None ->
       (RagEval.evaluate_sample qa_chain qa_seconds rouge_scorer bert_score
          context_relevancy faithfulness answer_relevancy i sample w0).1
       = Raises (KeyError "context"))
  ∧ (∀ transcript_api summarizer summarizer_seconds cpu_percent memory_rss
       video_id summary transcript wm,
       transcript_api video_id = Returns transcript ->
       summarizer (join_transcript transcript) = Returns summary ->
       ∃ metrics wm',
         Monitoring.process_video transcript_api summarizer summarizer_seconds
           rouge_scorer cpu_percent memory_rss video_id None wm
         = (Returns (summary, metrics), wm')
         ∧ dom metrics = {[ "cpu_percent"; "memory_mb"; "latency" ]}).
Proof.
  intros H. split; [|split].
  - by apply evaluate_rag_system_without_context.
  - intros i sample q ea qa w0 Hq Hea Hqa Hc.
    by rewrite (evaluate_sample_context_key_error qa_chain qa_seconds
                  rouge_scorer bert_score context_relevancy faithfulness
                  answer_relevancy i sample w0 q ea qa).
  - intros transcript_api summarizer summarizer_seconds cpu_percent memory_rss
      video_id summary transcript wm Ht Hs.
    eexists _, _. split.
    + by apply process_video_without_reference.
    + rewrite !dom_insert_L, dom_singleton_L. set_solver.
Qed.

Lemma evaluation_needs_context_witness :
  ∃ e w', RagEval.evaluate_rag_system example_qa_chain example_seconds
            example_rouge example_bert example_context_relevancy
            example_faithfulness example_answer_relevancy example_strftime mean64
            [sample_one; sample_without_context; sample_two]
            (RagEval.mkWorld 0%Qc [] [])
          = (Raises e, w').
Proof.
  apply (evaluation_needs_context example_qa_chain example_seconds
           example_rouge example_bert example_context_relevancy
           example_faithfulness example_answer_relevancy example_strftime mean64
           [sample_one; sample_without_context; sample_two]
           (RagEval.mkWorld 0%Qc [] [])).
  exists sample_without_context. split.
  - apply list_elem_of_In. simpl. auto.
  - vm_compute. reflexivity.
Defined.

(** C6 as stated fails.  A run on one sample that has a question and an
    expected answer and no context does not complete: it raises
    [KeyError('context')]. *)
Lemma evaluation_without_context_counterexample :
  sample_without_context !! "context" = None
  ∧ (RagEval.evaluate_rag_system example_qa_chain example_seconds
       example_rouge example_bert example_context_relevancy
       example_faithfulness example_answer_relevancy example_strftime mean64
       [sample_without_context] (RagEval.mkWorld 0%Qc [] [])).1
    = Raises (KeyError "context").
Proof. split; vm_compute; reflexivity. Qed.

Lemma metric_events_elem (rename : string -> string) (m : gmap string Qc)
    (k : string) (v : Qc) :
  m !! k = Some v -> k ≠ "sample_id" ->
  LogMetric (rename k) v ∈ metric_events rename m.
Proof.
  intros Hk Hne. unfold metric_events. apply list_elem_of_omap.
  exists (k, v). split; [by apply elem_of_map_to_list|].
  by rewrite bool_decide_eq_true_2.
Qed.

Lemma rag_row_columns
    (qa_chain : string -> result RagEval.QAResult) (qa_seconds : string -> Qc)
    (rouge_scorer : string -> string -> RougeScores)
    (bert_score : string -> string -> Score)
    (context_relevancy : list string -> string -> Qc)
    (faithfulness answer_relevancy : string -> string -> string -> Qc)
    (i : nat) (sample : gmap string string) :
  dom (rag_row qa_chain qa_seconds rouge_scorer bert_score context_relevancy
         faithfulness answer_relevancy i sample)
  = list_to_set rag_columns.
Proof.
  unfold rag_row, RagEval.evaluate_generation, RagEval.evaluate_retrieval,
    RagEval.calculate_bert_scores, RagEval.calculate_rouge_scores.
  rewrite !dom_union_L, !dom_insert_L, !dom_singleton_L.
  unfold rag_columns. simpl. set_solver.
Qed.

Lemma rag_rows_have_columns
    (qa_chain : string -> result RagEval.QAResult) (qa_seconds : string -> Qc)
    (rouge_scorer : string -> string -> RougeScores)
    (bert_score : string -> string -> Score)
    (context_relevancy : list string -> string -> Qc)
    (faithfulness answer_relevancy : string -> string -> string -> Qc)
    (k : string) (qa_samples : list (gmap string string)) :
  k ∈ rag_columns ->
  ∀ i,
  Forall (fun row => is_Some (row !! k))
    (rag_rows qa_chain qa_seconds rouge_scorer bert_score context_relevancy
       faithfulness answer_relevancy i qa_samples).
Proof.
  intros Hk. induction qa_samples as [|s rest IH]; intros i; simpl.
  - constructor.
  - constructor; [|apply IH].
    apply elem_of_dom. rewrite rag_row_columns. by apply elem_of_list_to_set.
Qed.

(** The averaging loop of the summarizer on a table whose rows have the
    keys of the first one: every key gets, under [avg_] and its name, what
    [np.mean] returns for the column. *)
Lemma average_metrics_lookup (np_mean : list Qc -> Qc)
    (all_metrics : list (gmap string Qc)) (first : gmap string Qc)
    (ws : SummarizerEval.World) :
  Forall (fun m => dom m = dom first) all_metrics ->
  ∃ avg_metrics ws',
    SummarizerEval.average_metrics np_mean all_metrics (map_to_list first).*1
      ∅ ws = (Returns avg_metrics, ws')
    ∧ ∀ k, k ∈ dom first ->
        length (column k all_metrics) = length all_metrics
        ∧ avg_metrics !! ("avg_" +:+ k)
          = Some (np_mean (column k all_metrics)).
Proof.
  intros Hdom.
  assert (∀ k, k ∈ (map_to_list first).*1 ↔ k ∈ dom first) as Hkeys.
  { intros k. rewrite elem_of_dom, list_elem_of_fmap. split.
    - intros ([k' v] & -> & Hin). apply elem_of_map_to_list in Hin. eauto.
    - intros [v Hv]. exists (k, v). split; [done|]. by apply elem_of_map_to_list. }
  assert (∀ k, k ∈ dom first ->
               Forall (fun row => is_Some (row !! k)) all_metrics) as Hfull.
  { intros k Hk. eapply Forall_impl; [exact Hdom|]. simpl.
    intros m Hm. apply elem_of_dom. by rewrite Hm. }
  destruct (average_metrics_ok np_mean all_metrics (map_to_list first).*1
              ltac:(intros k Hk; apply Hfull, Hkeys, Hk) ∅ ws) as [ws' E].
  eexists _, ws'. split; [exact E|].
  intros k Hk. split; [by apply column_full, Hfull|].
  apply (foldl_insert_lookup_in (String.app "avg_")
           (fun k => np_mean (column k all_metrics))).
  by apply Hkeys.
Qed.

(** C7 (as the code has it).  The run-level averages are taken by the
    libraries, in binary64: [DataFrame.mean] for the RAG system, [np.mean]
    for the summarizer.  For a non-empty sequence of complete samples
    [evaluate_rag_system] returns the table of the per-sample results and
    logs, for each metric, what the mean of pandas returns for the column of
    the metric: one value per sample, in the order of the samples.  The
    averaging loop of [evaluate_model_with_mlflow] gives each metric what
    [np.mean] returns for its column, one value per example, in the order of
    the examples.  After a permutation of the samples the values of a
    column are a permutation of what they were: their arithmetic mean is
    the same in exact arithmetic, and only there. *)
Theorem averages_are_means_in_sample_order
    (qa_chain : string -> result RagEval.QAResult) (qa_seconds : string -> Qc)
    (rouge_scorer : string -> string -> RougeScores)
    (bert_score : string -> string -> Score)
    (context_relevancy : list string -> string -> Qc)
    (faithfulness answer_relevancy : string -> string -> string -> Qc)
    (strftime : Qc -> string) (series_mean np_mean : list Qc -> Qc)
    (qa_samples : list (gmap string string))
    (all_metrics : list (gmap string Qc)) (first : gmap string Qc)
    (w : RagEval.World) (ws : SummarizerEval.World) :
  qa_samples ≠ [] ->
  Forall (complete_sample qa_chain) qa_samples ->
  all_metrics !! 0%nat = Some first ->
  Forall (fun m => dom m = dom first) all_metrics ->
  let rows := rag_rows qa_chain qa_seconds rouge_scorer bert_score
                context_relevancy faithfulness answer_relevancy 0 in
  (∃ w',
     RagEval.evaluate_rag_system qa_chain qa_seconds rouge_scorer bert_score
       context_relevancy faithfulness answer_relevancy strftime series_mean
       qa_samples w = (Returns (rows qa_samples), w')
     ∧ ∀ k, k ∈ rag_columns -> k ≠ "sample_id" ->
         length (column k (rows qa_samples)) = length qa_samples
         ∧ LogMetric ("avg_" +:+ k) (series_mean (column k (rows qa_samples)))
           ∈ RagEval.mlflow w')
  ∧ (∃ avg_metrics ws',
       SummarizerEval.average_metrics np_mean all_metrics
         (map_to_list first).*1 ∅ ws = (Returns avg_metrics, ws')
       ∧ ∀ k, k ∈ dom first ->
           length (column k all_metrics) = length all_metrics
           ∧ avg_metrics !! ("avg_" +:+ k)
             = Some (np_mean (column k all_metrics)))
  ∧ (∀ qa_samples' k,
       qa_samples ≡ₚ qa_samples' -> k ≠ "sample_id" ->
       column k (rows qa_samples) ≡ₚ column k (rows qa_samples')
       ∧ mean (column k (rows qa_samples))
         = mean (column k (rows qa_samples'))).
Proof.
  intros Hne Hc Hfirst Hdom rows. split; [|split].
  - destruct (evaluate_rag_system_ok qa_chain qa_seconds rouge_scorer
                bert_score context_relevancy faithfulness answer_relevancy
                strftime series_mean qa_samples w Hc) as (w' & E & Hm).
    exists w'. split; [exact E|]. intros k Hk Hid.
    assert (length (column k (rows qa_samples)) = length qa_samples) as Hlen.
    { unfold rows. rewrite column_full by (by apply rag_rows_have_columns).
      apply rows_of_length. }
    split; [exact Hlen|]. rewrite Hm.
    apply elem_of_app. right. apply elem_of_app. right.
    apply elem_of_app. right. apply elem_of_app. left.
    apply (metric_events_elem (fun k => "avg_" +:+ k)); [|done].
    rewrite df_mean_lookup. fold (rows qa_samples).
    destruct (column k (rows qa_samples)) eqn:Ecol; [|done].
    destruct qa_samples; [done|discriminate].
  - by apply average_metrics_lookup.
  - intros qa_samples' k Hp Hid.
    assert (column k (rows qa_samples) ≡ₚ column k (rows qa_samples')) as H.
    { unfold rows. rewrite !column_rows_ne by done. by rewrite Hp. }
    split; [exact H|by apply mean_perm].
Qed.

Lemma averages_are_means_in_sample_order_witness :
  let all_metrics :=
    example_row example_rouge example_bleu example_model
    <$> [test_one; test_two] in
  (RagEval.evaluate_rag_system example_qa_chain example_seconds example_rouge
     example_bert example_context_relevancy example_faithfulness
     example_answer_relevancy example_strftime mean64 [sample_one; sample_two]
     (RagEval.mkWorld 0%Qc [] [])).1
  = Returns (rag_rows example_qa_chain example_seconds example_rouge
               example_bert example_context_relevancy example_faithfulness
               example_answer_relevancy 0 [sample_one; sample_two])
  ∧ ∃ avg_metrics,
      (SummarizerEval.average_metrics mean64 all_metrics
         (map_to_list (example_row example_rouge example_bleu example_model
                         test_one)).*1
         ∅ (SummarizerEval.mkWorld [] [])).1 = Returns avg_metrics
      ∧ avg_metrics !! "avg_reference_length"
        = Some (mean64 (column "reference_length" all_metrics)).
Proof.
  intros all_metrics.
  destruct (averages_are_means_in_sample_order
              example_qa_chain example_seconds example_rouge example_bert
              example_context_relevancy example_faithfulness
              example_answer_relevancy example_strftime mean64 mean64
              [sample_one; sample_two] all_metrics
              (example_row example_rouge example_bleu example_model test_one)
              (RagEval.mkWorld 0%Qc [] []) (SummarizerEval.mkWorld [] []))
    as ((w' & Hrag & _) & (avg_metrics & ws' & Hsum & Havg) & _).
  - discriminate.
  - repeat constructor; eexists _, _, _, _; repeat split; vm_compute; reflexivity.
  - reflexivity.
  - apply Forall_fmap, Forall_forall. intros example _. simpl.
    etransitivity; [apply example_row_dom|symmetry; apply example_row_dom].
  - split; [by rewrite Hrag|].
    exists avg_metrics. split; [by rewrite Hsum|].
    apply Havg. apply elem_of_dom. eexists. reflexivity.
Defined.

(** C7 as stated fails.  Three samples whose faithfulness is scored 0.1, 0.2
    and 0.3: the logged average is 0.20000000000000004, and
    0.19999999999999998 when the samples come in the opposite order; the
    arithmetic mean of the three scores is neither. *)
Lemma averages_order_counterexample :
  let run samples :=
    RagEval.evaluate_rag_system example_qa_chain example_seconds example_rouge
      example_bert example_context_relevancy tenths_faithfulness
      example_answer_relevancy example_strftime mean64 samples
      (RagEval.mkWorld 0%Qc [] []) in
  let logged samples :=
    this <$> logged_metric "avg_faithfulness" (RagEval.mlflow (run samples).2) in
  [sample_a; sample_b; sample_c] ≡ₚ [sample_c; sample_b; sample_a]
  ∧ this <$> [tenths 1; tenths 2; tenths 3]
    = [3602879701896397 # 36028797018963968;
       3602879701896397 # 18014398509481984;
       5404319552844595 # 18014398509481984]%Q
  ∧ logged [sample_a; sample_b; sample_c]
    = [7205759403792795 # 36028797018963968]%Q
  ∧ logged [sample_c; sample_b; sample_a]
    = [7205759403792793 # 36028797018963968]%Q
  ∧ this (mean [tenths 1; tenths 2; tenths 3])
    = (21617278211378381 # 108086391056891904)%Q.
Proof.
  cbv zeta. split; [|repeat split; vm_compute; reflexivity].
  change [sample_c; sample_b; sample_a] with (reverse [sample_a; sample_b; sample_c]).
  apply Permutation_sym, reverse_Permutation.
Qed.

(** ** Splitting and joining *)

Lemma str_split_nonempty (c : ascii) (s : string) : str_split c s ≠ [].
Proof.
  destruct s as [|d s]; simpl; [done|].
  destruct (Ascii.eqb c d); [done|]. by destruct (str_split c s).
Qed.

Lemma str_join_cons (c w : string) (ws : list string) :
  ws ≠ [] -> str_join c (w :: ws) = w +:+ c +:+ str_join c ws.
Proof. by destruct ws. Qed.

Lemma str_join_String (c : string) (d : ascii) (w : string) (ws : list string) :
  str_join c (String d w :: ws) = String d (str_join c (w :: ws)).
Proof. by destruct ws. Qed.

(** Joining the fields of a text with the separator gives the text back. *)
Lemma str_join_split (c : ascii) (s : string) :
  str_join (String c "") (str_split c s) = s.
Proof.
  induction s as [|d s IH]; [reflexivity|]. simpl.
  destruct (Ascii.eqb_spec c d) as [->|Hne].
  - rewrite str_join_cons by apply str_split_nonempty. simpl. by rewrite IH.
  - destruct (str_split c s) as [|w ws] eqn:E.
    + by apply str_split_nonempty in E.
    + by rewrite str_join_String, IH.
Qed.

Lemma str_split_no_sep (c : ascii) (s : string) :
  Forall (no_sep c) (str_split c s).
Proof.
  induction s as [|d s IH]; simpl.
  - by repeat constructor.
  - destruct (Ascii.eqb c d) eqn:Ecd.
    + by constructor.
    + destruct (str_split c s) as [|w ws] eqn:E;
        [by apply str_split_nonempty in E|].
      inversion IH as [|? ? Hw Hws]; subst. constructor; [|done].
      unfold no_sep in *. simpl. by rewrite Ecd, Hw.
Qed.

Lemma str_split_word (c : ascii) (w : string) :
  no_sep c w -> str_split c w = [w].
Proof.
  unfold no_sep. induction w as [|d w IH]; simpl; [done|].
  destruct (Ascii.eqb c d); [done|].
  destruct (str_find c w); [done|]. intros _. by rewrite IH.
Qed.

Lemma str_split_app (c : ascii) (w s : string) :
  no_sep c w -> str_split c (w +:+ String c s) = w :: str_split c s.
Proof.
  unfold no_sep. induction w as [|d w IH]; simpl.
  - intros _. by rewrite Ascii.eqb_refl.
  - destruct (Ascii.eqb c d); [done|].
    destruct (str_find c w); [done|]. intros _. by rewrite IH.
Qed.

(** Splitting the join of words that hold no separator gives the words. *)
Lemma str_split_join (c : ascii) (ws : list string) :
  ws ≠ [] -> Forall (no_sep c) ws ->
  str_split c (str_join (String c "") ws) = ws.
Proof.
  intros Hne H. induction H as [|w ws Hw Hws IH]; [done|].
  destruct ws as [|w' ws'].
  - simpl. by apply str_split_word.
  - rewrite str_join_cons by done.
    change (w +:+ String c "" +:+ str_join (String c "") (w' :: ws'))
      with (w +:+ String c (str_join (String c "") (w' :: ws'))).
    rewrite str_split_app by done. by rewrite IH.
Qed.

(** ** The Chunker *)

Lemma characters_nonempty (text : string) :
  text ≠ "" -> Chunker.characters text ≠ [].
Proof. by destruct text. Qed.

Lemma length_characters (text : string) :
  length (Chunker.characters text) = String.length text.
Proof. induction text as [|c text IH]; simpl; congruence. Qed.

(** Joining the units of a text gives the text back. *)
Lemma join_units_of (unit : Chunker.Unit) (text : string) :
  str_join (Chunker.separator unit) (Chunker.units_of unit text) = text.
Proof.
  destruct unit; simpl.
  - apply str_join_split.
  - induction text as [|c text IH]; [reflexivity|].
    change (Chunker.characters (String c text))
      with (String c "" :: Chunker.characters text).
    destruct (Chunker.characters text) as [|w ws] eqn:E.
    + destruct text; [reflexivity|discriminate].
    + rewrite str_join_cons by done.
      change (String c (str_join "" (w :: ws)) = String c text).
      by rewrite IH.
Qed.

Lemma units_of_ok (unit : Chunker.Unit) (text : string) :
  Forall (unit_ok unit) (Chunker.units_of unit text).
Proof.
  destruct unit; simpl.
  - apply str_split_no_sep.
  - induction text as [|c text IH]; simpl; by constructor.
Qed.

(** The units of a join of units are these units. *)
Lemma units_of_join (unit : Chunker.Unit) (ws : list string) :
  ws ≠ [] -> Forall (unit_ok unit) ws ->
  Chunker.units_of unit (str_join (Chunker.separator unit) ws) = ws.
Proof.
  destruct unit; simpl.
  - apply str_split_join.
  - intros _. induction 1 as [|w ws Hw _ IH]; [reflexivity|].
    destruct w as [|c [|d w]]; try discriminate.
    destruct ws as [|w' ws']; [reflexivity|].
    rewrite str_join_cons by done.
    change (String c "" :: Chunker.characters (str_join "" (w' :: ws'))
            = String c "" :: w' :: ws').
    by rewrite IH.
Qed.

Lemma units_of_nonempty (unit : Chunker.Unit) (text : string) :
  str_truthy (str_strip text) = true -> Chunker.units_of unit text ≠ [].
Proof.
  intros Ht. destruct unit; simpl.
  - apply str_split_nonempty.
  - apply characters_nonempty. intros ->. discriminate.
Qed.

Section ChunkerProperties.
Variable boundary_after : string -> option Chunker.Boundary.
Variable config : Chunker.Config.
Hypothesis overlap_lt_size :
  (Chunker.overlap config < Chunker.max_chunk_size config)%nat.

Local Abbreviation ov := (Chunker.overlap config).
Local Abbreviation size := (Chunker.max_chunk_size config).
Local Abbreviation cut := (Chunker.cut boundary_after config).
Local Abbreviation chunk_units := (Chunker.chunk_units boundary_after config).

Lemma last_boundary_bounds (b : Chunker.Boundary) (us : list string) (c : nat) :
  Chunker.last_boundary boundary_after config b us = Some c ->
  (ov < c ≤ size)%nat.
Proof.
  unfold Chunker.last_boundary. intros H.
  apply last_Some in H as [l' H].
  assert (c ∈ filter
            (fun c => us !! (c - 1)%nat ≫= boundary_after = Some b)
            (seq (S ov) (size - ov))) as Hin.
  { rewrite H. apply elem_of_app. right. by left. }
  apply list_elem_of_filter in Hin as [_ Hin].
  apply elem_of_seq in Hin. lia.
Qed.

(** A chunk takes more than [overlap] and at most [max_chunk_size] units. *)
Lemma cut_bounds (us : list string) : (ov < cut us ≤ size)%nat.
Proof.
  unfold Chunker.cut.
  destruct (Chunker.last_boundary boundary_after config Chunker.Paragraph us)
    as [c|] eqn:Ep;
    destruct (Chunker.last_boundary boundary_after config Chunker.Sentence us)
      as [c'|] eqn:Es;
    destruct (Chunker.last_boundary boundary_after config Chunker.Whitespace us)
      as [c''|] eqn:Ew; cbn;
    try apply last_boundary_bounds in Ep;
    try apply last_boundary_bounds in Es;
    try apply last_boundary_bounds in Ew; lia.
Qed.

(** With fuel for every unit, the chunks of a non-empty list of units are
    not empty and hold at most [max_chunk_size] units each; the first one,
    followed by the others without their first [overlap] units, is the
    list. *)
Lemma chunk_units_spec (P : string -> Prop) (fuel : nat) :
  ∀ (offset : nat) (us : list string),
  (length us ≤ fuel)%nat -> us ≠ [] -> Forall P us ->
  ∃ first rest,
    (chunk_units fuel offset us).*2 = first :: rest
    ∧ first ++ concat (drop ov <$> rest) = us
    ∧ (ov ≤ length us -> ov ≤ length first)%nat
    ∧ Forall (fun ws => (length ws ≤ size)%nat ∧ ws ≠ [] ∧ Forall P ws)
        (first :: rest).
Proof.
  induction fuel as [|fuel IH]; intros offset us Hfuel Hne HP.
  - destruct us; [done|simpl in Hfuel; lia].
  - simpl. case_bool_decide as Hlen.
    + exists us, []. simpl. rewrite app_nil_r. repeat split; auto.
    + pose proof (cut_bounds us) as Hcut.
      set (c := cut us) in *.
      destruct (IH (offset + (c - ov))%nat (drop (c - ov) us))
        as (r0 & rs & E & Hcat & Hfirst & Hall).
      * rewrite length_drop. lia.
      * intros E. apply (f_equal length) in E.
        rewrite length_drop in E. simpl in E. lia.
      * by apply Forall_drop.
      * exists (take c us), (r0 :: rs). rewrite fmap_cons, E. simpl.
        assert (ov ≤ length r0)%nat as Hr0
          by (apply Hfirst; rewrite length_drop; lia).
        repeat split.
        -- transitivity (take c us ++ drop c us); [|apply take_drop]. f_equal.
           replace (drop c us) with (drop ov (drop (c - ov) us))
             by (rewrite drop_drop; f_equal; lia).
           rewrite <- Hcat. by rewrite drop_app_le.
        -- intros _. rewrite length_take. lia.
        -- constructor; [|done]. repeat split.
           ++ rewrite length_take. lia.
           ++ intros Et. apply (f_equal length) in Et.
              rewrite length_take in Et. simpl in Et. lia.
           ++ by apply Forall_take.
Qed.

Lemma chunks_of_units (unit : Chunker.Unit) (cs : list (nat * list string)) :
  Forall (fun ws => ws ≠ [] ∧ Forall (unit_ok unit) ws) cs.*2 ->
  ∀ j,
  (fun c => Chunker.units_of unit (Chunker.chunk_text c))
  <$> imap (fun i '(offset, ws) =>
              Chunker.mkChunk (j + i)
                (str_join (Chunker.separator unit) ws) offset) cs
  = cs.*2.
Proof.
  induction cs as [|[offset ws] cs IH]; intros H j; [reflexivity|].
  inversion H as [|? ? [Hne Hws] Hrest]; subst. simpl.
  rewrite units_of_join by done. f_equal.
  etransitivity; [|exact (IH Hrest (S j))]. f_equal. apply imap_ext.
  intros i [o' ws'] _. simpl. f_equal. lia.
Qed.

(** The chunker on a text that is not empty after trimming: it returns
    chunks, numbered from 0, that give the text back and hold at most
    [max_chunk_size] units each. *)
Lemma chunker_spec (unit : Chunker.Unit) (text : string) :
  str_truthy (str_strip text) = true ->
  ∃ chunks,
    Chunker.chunker_in boundary_after config unit text = Returns chunks
    ∧ Chunker.reconstruct config unit chunks = text
    ∧ Forall (fun c => (length (Chunker.units_of unit (Chunker.chunk_text c))
                        ≤ size)%nat) chunks
    ∧ ∀ i c, chunks !! i = Some c -> Chunker.sequence_index c = i.
Proof.
  intros Ht. unfold Chunker.chunker_in. rewrite Ht.
  eexists. split; [reflexivity|].
  set (us := Chunker.units_of unit text).
  destruct (chunk_units_spec (unit_ok unit) (length us) 0 us)
    as (first & rest & E & Hcat & _ & Hall).
  { done. }
  { by apply units_of_nonempty. }
  { apply units_of_ok. }
  assert ((fun c => Chunker.units_of unit (Chunker.chunk_text c))
          <$> imap (fun i '(offset, ws) =>
                      Chunker.mkChunk i
                        (str_join (Chunker.separator unit) ws) offset)
                (chunk_units (length us) 0 us)
          = first :: rest) as Hunits.
  { rewrite <- E. apply (chunks_of_units unit _ ltac:(rewrite E;
      eapply Forall_impl; [exact Hall|]; simpl; intros ? (? & ? & ?); auto) 0%nat). }
  split; [|split].
  - unfold Chunker.reconstruct. rewrite Hunits. simpl. rewrite Hcat.
    apply join_units_of.
  - apply Forall_fmap
      with (f := fun c => Chunker.units_of unit (Chunker.chunk_text c))
           (P := fun ws => (length ws ≤ size)%nat).
    rewrite Hunits. eapply Forall_impl; [exact Hall|].
    simpl. intros ? (? & ? & ?). done.
  - intros i c Hi. apply list_lookup_imap_Some in Hi as ([o ws] & _ & ->).
    reflexivity.
Qed.

End ChunkerProperties.

(** C2.  The splitter as the notebook configures it, with sizes counted
    in characters: for every text that is not empty after trimming the
    Chunker returns chunks; and whenever it returns chunks, their texts,
    with the first [overlap] characters removed from each chunk after the
    first, concatenate to the text of the document exactly, no chunk is
    longer than [max_chunk_size] characters, and the chunks are numbered
    from 0.  This holds for every way of placing the semantic boundaries and
    every configuration whose overlap is smaller than the chunk size, the
    1000 and 200 of the notebook among them. *)
Theorem chunker_round_trip
    (boundary_after : string -> option Chunker.Boundary)
    (config : Chunker.Config) (text : string) :
  (Chunker.overlap config < Chunker.max_chunk_size config)%nat ->
  (str_strip text ≠ "" ->
   ∃ chunks, Chunker.chunker_in boundary_after config Chunker.Characters text
             = Returns chunks)
  ∧ ∀ chunks,
      Chunker.chunker_in boundary_after config Chunker.Characters text
      = Returns chunks ->
      Chunker.reconstruct config Chunker.Characters chunks = text
      ∧ Forall (fun c => (String.length (Chunker.chunk_text c)
                          ≤ Chunker.max_chunk_size config)%nat) chunks
      ∧ ∀ i c, chunks !! i = Some c -> Chunker.sequence_index c = i.
Proof.
  intros Hov.
  destruct (str_truthy (str_strip text)) eqn:Ht.
  - destruct (chunker_spec boundary_after config Hov Chunker.Characters text Ht)
      as (chunks & E & Hr & Hs & Hi).
    split; [eauto|]. intros chunks' E'. rewrite E in E'.
    injection E' as <-. split; [done|]. split; [|done].
    eapply Forall_impl; [exact Hs|]. simpl. intros c Hc.
    by rewrite length_characters in Hc.
  - split.
    + intros Hne. unfold str_truthy in Ht. apply negb_false_iff in Ht.
      by apply String.eqb_eq in Ht.
    + intros chunks E. unfold Chunker.chunker_in in E. rewrite Ht in E.
      discriminate.
Qed.

Lemma chunker_round_trip_witness :
  ∃ chunks,
    Chunker.chunker_in Chunker.boundary_by_character (Chunker.mkConfig 12 3)
      Chunker.Characters "One two. Three  four five! Six seven"
    = Returns chunks
    ∧ Chunker.reconstruct (Chunker.mkConfig 12 3) Chunker.Characters chunks
      = "One two. Three  four five! Six seven"
    ∧ Forall (fun c => (String.length (Chunker.chunk_text c) ≤ 12)%nat) chunks.
Proof.
  destruct (chunker_round_trip Chunker.boundary_by_character
              (Chunker.mkConfig 12 3) "One two. Three  four five! Six seven")
    as [Hreturns Hchunks].
  - simpl. lia.
  - destruct Hreturns as [chunks E]; [vm_compute; discriminate|].
    exists chunks. split; [exact E|].
    destruct (Hchunks chunks E) as (Hr & Hs & _). by split.
Defined.

Example chunker_round_trip_chunks :
  Chunker.chunk_text
  <$> match Chunker.chunker_in Chunker.boundary_by_character
              (Chunker.mkConfig 12 3) Chunker.Characters
              "One two. Three  four five! Six seven" with
      | Returns chunks => chunks
      | Raises _ => []
      end
  = ["One two."; "wo. Three  "; "e  four "; "ur five!"; "ve! Six "; "ix seven"].
Proof. vm_compute. reflexivity. Qed.

(** A text shorter than the 1000 characters of the notebook is one chunk. *)
Example split_text_short :
  Chunker.split_text Chunker.boundary_by_character "hello world"
  = Returns [Chunker.mkChunk 0 "hello world" 0].
Proof. vm_compute. reflexivity. Qed.

(** C3.  With [max_chunk_size] 3 and [overlap] 1 the document
    ["A B C D E F G H"] gives the four chunks ["A B C"], ["C D E"],
    ["E F G"], ["G H"], in this order, numbered from 0. *)
Theorem chunker_scenario :
  Chunker.chunker Chunker.boundary_by_last_char (Chunker.mkConfig 3 1)
    "A B C D E F G H"
  = Returns [Chunker.mkChunk 0 "A B C" 0; Chunker.mkChunk 1 "C D E" 2;
             Chunker.mkChunk 2 "E F G" 4; Chunker.mkChunk 3 "G H" 6].
Proof. vm_compute. reflexivity. Qed.

Example chunker_empty_document :
  Chunker.chunker Chunker.boundary_by_last_char (Chunker.mkConfig 3 1) "   "
  = Raises EmptyDocument.
Proof. reflexivity. Qed.

Example chunker_sentences :
  Chunker.chunk_text
  <$> match Chunker.chunker Chunker.boundary_by_last_char (Chunker.mkConfig 4 1)
              "A B. C D E F! G H I J K L" with
      | Returns chunks => chunks
      | Raises _ => []
      end
  = ["A B."; "B. C D E"; "E F!"; "F! G H I"; "I J K L"].
Proof. vm_compute. reflexivity. Qed.

(** * Further properties *)

(** ** Identifiers in the two forms of a video URL *)

Lemma str_find_forallb (p : ascii -> bool) (c : ascii) (s : string) :
  p c = false -> str_forallb p s = true -> str_find c s = None.
Proof.
  intros Hc. induction s as [|d s IH]; simpl; [done|].
  intros [Hd Hs]%andb_prop.
  destruct (Ascii.eqb_spec c d) as [->|_]; [congruence|].
  by rewrite IH.
Qed.

Lemma str_filter_forallb (p q : ascii -> bool) (s : string) :
  (∀ d, p d = true -> q d = true) ->
  str_forallb p s = true -> str_filter q s = s.
Proof.
  intros Hpq. induction s as [|d s IH]; simpl; [done|].
  intros [Hd Hs]%andb_prop. rewrite (Hpq d Hd). by rewrite IH.
Qed.

Lemma str_map_forallb (p : ascii -> bool) (f : ascii -> ascii) (s : string) :
  (∀ d, p d = true -> f d = d) ->
  str_forallb p s = true -> str_map f s = s.
Proof.
  intros Hpf. induction s as [|d s IH]; simpl; [done|].
  intros [Hd Hs]%andb_prop. rewrite (Hpf d Hd). by rewrite IH.
Qed.

Lemma unquote_forallb (p : ascii -> bool) (s : string) :
  p "%"%char = false -> str_forallb p s = true -> Urllib.unquote s = s.
Proof.
  intros Hp. induction s as [|d s IH]; simpl; [done|].
  intros [Hd Hs]%andb_prop.
  destruct (Ascii.eqb_spec d "%") as [->|_]; [congruence|].
  by rewrite IH.
Qed.

Lemma id_char_safe (d : ascii) :
  id_char d = true -> negb (Urllib.unsafe_byte d) = true.
Proof.
  intros H. unfold Urllib.unsafe_byte.
  destruct (Ascii.eqb_spec d "009") as [->|_]; [discriminate|].
  destruct (Ascii.eqb_spec d "010") as [->|_]; [discriminate|].
  destruct (Ascii.eqb_spec d "013") as [->|_]; [discriminate|]. done.
Qed.

Section PlainId.
Variable id : string.
Hypothesis Hid : plain_id id.

Lemma plain_find (c : ascii) : id_char c = false -> str_find c id = None.
Proof. intros Hc. by apply (str_find_forallb id_char). Qed.

Lemma plain_filter : str_filter (fun c => negb (Urllib.unsafe_byte c)) id = id.
Proof. apply (str_filter_forallb id_char); [apply id_char_safe|done]. Qed.

Ltac parse_plain :=
  unfold Urllib.urlparse; simpl;
  change ("" +:+ id) with id;
  rewrite plain_filter;
  unfold str_partition, str_contains; simpl;
  repeat first
    [ rewrite (plain_find "#") by reflexivity
    | rewrite (plain_find "?") by reflexivity
    | rewrite (plain_find ";") by reflexivity
    | progress simpl ];
  reflexivity.

(** What [urlparse] makes of a short URL: the identifier is the path after
    its slash. *)
Lemma urlparse_short_prefix (prefix : string) :
  prefix ∈ short_prefixes ->
  ∃ sch, Urllib.urlparse (prefix +:+ id)
         = Returns (mkParseResult sch "youtu.be" ("/" +:+ id) "" "" ""
                      (Some "youtu.be")).
Proof.
  unfold short_prefixes. intros H.
  repeat (apply elem_of_cons in H as [->|H]; [eexists; parse_plain|]).
  by apply elem_of_nil in H.
Qed.

(** What it makes of a watch URL: the identifier is in the query. *)
Lemma urlparse_watch_prefix (prefix : string) :
  prefix ∈ watch_prefixes ->
  ∃ sch host, Urllib.urlparse (prefix +:+ id)
              = Returns (mkParseResult sch host "/watch" "" ("v=" +:+ id) ""
                           (Some host))
              ∧ Some host ∈ [Some "www.youtube.com"; Some "youtube.com"].
Proof.
  unfold watch_prefixes. intros H.
  repeat (apply elem_of_cons in H as [->|H];
          [eexists _, _; split; [parse_plain|apply list_elem_of_In; simpl; auto]|]).
  by apply elem_of_nil in H.
Qed.

Lemma parse_qs_v :
  id ≠ "" -> Urllib.parse_qs ("v=" +:+ id) = {[ "v" := [id] ]}.
Proof.
  intros Hne. unfold Urllib.parse_qs, Urllib.parse_qsl.
  change (str_truthy ("v=" +:+ id)) with true. cbv iota.
  rewrite (str_split_word "&" ("v=" +:+ id)).
  2:{ unfold no_sep. change ("v=" +:+ id) with (String "v" (String "=" id)).
      simpl. by rewrite (plain_find "&"). }
  change ("v=" +:+ id) with (String "v" (String "=" id)).
  simpl. unfold str_partition. simpl.
  assert (str_truthy id = true) as ->.
  { unfold str_truthy. apply negb_true_iff, String.eqb_neq. done. }
  rewrite (str_map_forallb id_char Urllib.plus_to_space id).
  2:{ intros d Hd. unfold Urllib.plus_to_space.
      destruct (Ascii.eqb_spec d "+") as [->|_]; [discriminate|done]. }
  2:{ exact Hid. }
  rewrite (unquote_forallb id_char id) by done.
  simpl. reflexivity.
Qed.

End PlainId.

(** X1.  From a short URL, [http] or [https], whose identifier is made of
    letters, digits, [-] and [_], both notebooks' [extract_video_id] return
    the identifier. *)
Theorem short_url_gives_id (prefix id : string) :
  prefix ∈ short_prefixes ->
  plain_id id ->
  Summarizer.extract_video_id py_urllib (prefix +:+ id) = Returns (Some id)
  ∧ Rag.extract_video_id py_urllib (prefix +:+ id) = Returns id.
Proof.
  intros Hp Hid.
  destruct (urlparse_short_prefix id Hid prefix Hp) as [sch E].
  assert (Summarizer.extract_video_id py_urllib (prefix +:+ id)
          = Returns (Some id)) as Hs.
  { unfold Summarizer.extract_video_id. simpl urlparse. rewrite E. reflexivity. }
  split; [exact Hs|].
  pose proof (extract_video_id_cases py_urllib (prefix +:+ id)) as H.
  by rewrite Hs in H.
Qed.

Lemma short_url_gives_id_witness :
  Summarizer.extract_video_id py_urllib "https://youtu.be/dQw4w9WgXcQ"
  = Returns (Some "dQw4w9WgXcQ")
  ∧ Rag.extract_video_id py_urllib "https://youtu.be/dQw4w9WgXcQ"
    = Returns "dQw4w9WgXcQ".
Proof.
  apply (short_url_gives_id "https://youtu.be/" "dQw4w9WgXcQ").
  - apply list_elem_of_In. simpl. auto.
  - reflexivity.
Defined.

(** X2.  From a watch URL, with or without [www], whose [v] is a non-empty
    identifier made of letters, digits, [-] and [_], both notebooks'
    [extract_video_id] return the identifier. *)
Theorem watch_url_gives_id (prefix id : string) :
  prefix ∈ watch_prefixes ->
  plain_id id ->
  id ≠ "" ->
  Summarizer.extract_video_id py_urllib (prefix +:+ id) = Returns (Some id)
  ∧ Rag.extract_video_id py_urllib (prefix +:+ id) = Returns id.
Proof.
  intros Hp Hid Hne.
  destruct (urlparse_watch_prefix id Hid prefix Hp) as (sch & host & E & Hh).
  assert (Summarizer.extract_video_id py_urllib (prefix +:+ id)
          = Returns (Some id)) as Hs.
  { rewrite (summarizer_watch py_urllib _ _ E Hh eq_refl). simpl.
    rewrite (parse_qs_v id Hid Hne). unfold dict_getitem.
    rewrite lookup_singleton_eq. reflexivity. }
  split; [exact Hs|].
  pose proof (extract_video_id_cases py_urllib (prefix +:+ id)) as H.
  by rewrite Hs in H.
Qed.

Lemma watch_url_gives_id_witness :
  Summarizer.extract_video_id py_urllib
    "http://youtube.com/watch?v=dQw4w9WgXcQ" = Returns (Some "dQw4w9WgXcQ")
  ∧ Rag.extract_video_id py_urllib "http://youtube.com/watch?v=dQw4w9WgXcQ"
    = Returns "dQw4w9WgXcQ".
Proof.
  apply (watch_url_gives_id "http://youtube.com/watch?v=" "dQw4w9WgXcQ").
  - apply list_elem_of_In. simpl. auto.
  - reflexivity.
  - discriminate.
Defined.

(** ** The summarizer, outcome by outcome *)

Section SummarizerOutcomes.
Variable lib : UrlLib.
Variable transcript_api : string -> result (list TranscriptEntry).
Variable chat_completions : ChatService.

Local Abbreviation summarize :=
  (Summarizer.summarize_youtube_video lib transcript_api chat_completions).

(** [get_transcript] never raises: a failed fetch is printed and gives
    [None]. *)
Lemma summarizer_get_transcript_spec (id : string) (w : Summarizer.World) :
  ∃ w', Summarizer.get_transcript transcript_api id w
        = (Returns (fetched_option transcript_api id), w')
        ∧ Summarizer.generation_calls w' = Summarizer.generation_calls w.
Proof.
  unfold Summarizer.get_transcript, fetched_option, try_except, lift, mbind,
    M_bind.
  destruct (transcript_api id) as [l|e]; simpl; eauto.
Qed.

(** [summarize_text] never raises and calls the model once. *)
Lemma summarize_text_spec (text : string) (w : Summarizer.World) :
  ∃ o w', Summarizer.summarize_text chat_completions text w = (Returns o, w')
          ∧ Summarizer.generation_calls w' = S (Summarizer.generation_calls w).
Proof.
  unfold Summarizer.summarize_text, try_except, Summarizer.create, lift,
    list_getitem, mbind, M_bind.
  destruct (chat_completions _ _) as [[|c cs]|e]; simpl; eauto.
Qed.

(** The chain formats its prompt first; what [format] raises leaves the
    method before the model is called, and nothing else does. *)
Lemma chain_summarize_text_spec
    (str_format : string -> string -> result string)
    (self : Summarizer.YouTubeSummaryChain)
    (text : string) (w : Summarizer.World) :
  match str_format (Summarizer.prompt_template self) text with
  | Returns _ =>
      ∃ o w', Summarizer.chain_summarize_text str_format chat_completions
                self text w = (Returns o, w')
              ∧ Summarizer.generation_calls w'
                = S (Summarizer.generation_calls w)
  | Raises e =>
      Summarizer.chain_summarize_text str_format chat_completions self text w
      = (Raises e, w)
  end.
Proof.
  unfold Summarizer.chain_summarize_text, lift. unfold mbind at 1, M_bind.
  destruct (str_format _ _) as [prompt|e]; [|reflexivity].
  unfold try_except, Summarizer.create, lift, list_getitem, mbind, M_bind.
  destruct (chat_completions _ _) as [[|c cs]|e]; simpl; eauto.
Qed.

End SummarizerOutcomes.

(** X3.  The summarizer lets no failure of the transcript service or of the
    language model escape.  Whenever [extract_video_id] returns,
    [summarize_youtube_video] returns a string after at most one call to
    the model, and so does [__call__] unless [format] refuses the prompt
    template: then, with an identifier and a transcript that is not empty,
    [__call__] raises what [format] raised, before any call to the model.
    When [extract_video_id] raises, both raise the same exception and
    nothing else has happened. *)
Theorem summarizer_raises_only_before_the_model
    (lib : UrlLib) (str_format : string -> string -> result string)
    (transcript_api : string -> result (list TranscriptEntry))
    (chat_completions : ChatService) (self : Summarizer.YouTubeSummaryChain)
    (url : string) (w : Summarizer.World) :
  match Summarizer.extract_video_id lib url with
  | Returns v =>
      let transcript := fetched_option transcript_api (default "" v) in
      let formatted :=
        str_format (Summarizer.prompt_template self) (default "" transcript) in
      (∃ s w', Summarizer.summarize_youtube_video lib transcript_api
                 chat_completions url w = (Returns s, w')
               ∧ (Summarizer.generation_calls w
                  ≤ Summarizer.generation_calls w'
                  ≤ S (Summarizer.generation_calls w))%nat)
      ∧ (opt_truthy v = false ∨ opt_truthy transcript = false
         ∨ (∃ prompt, formatted = Returns prompt) ->
         ∃ s w', Summarizer.call lib str_format transcript_api
                   chat_completions self url w = (Returns s, w')
                 ∧ (Summarizer.generation_calls w
                    ≤ Summarizer.generation_calls w'
                    ≤ S (Summarizer.generation_calls w))%nat)
      ∧ (∀ e, opt_truthy v = true -> opt_truthy transcript = true ->
              formatted = Raises e ->
         ∃ w', Summarizer.call lib str_format transcript_api
                 chat_completions self url w = (Raises e, w')
               ∧ Summarizer.generation_calls w'
                 = Summarizer.generation_calls w)
  | Raises e =>
      Summarizer.summarize_youtube_video lib transcript_api chat_completions
        url w = (Raises e, w)
      ∧ Summarizer.call lib str_format transcript_api chat_completions self
          url w = (Raises e, w)
  end.
Proof.
  destruct (Summarizer.extract_video_id lib url) as [v|e] eqn:E.
  - cbv zeta.
    destruct (summarizer_get_transcript_spec transcript_api (default "" v) w)
      as (w1 & Ht & Hc1).
    split; [|split].
    + unfold Summarizer.summarize_youtube_video.
      unfold mbind at 1, M_bind, lift. rewrite E.
      destruct (opt_truthy v); simpl; [|eexists _, _; split; [reflexivity|lia]].
      unfold mbind at 1, M_bind. rewrite Ht.
      destruct (opt_truthy (fetched_option transcript_api (default "" v)));
        simpl; [|eexists _, _; split; [reflexivity|lia]].
      unfold mbind, M_bind.
      destruct (summarize_text_spec chat_completions
                  (default "" (fetched_option transcript_api (default "" v)))
                  w1) as (o & w2 & -> & Hc2).
      destruct (opt_truthy o); simpl; eexists _, _; (split; [reflexivity|lia]).
    + intros H. unfold Summarizer.call.
      unfold mbind at 1, M_bind, lift. rewrite E.
      destruct (opt_truthy v); simpl; [|eexists _, _; split; [reflexivity|lia]].
      unfold mbind at 1, M_bind. rewrite Ht.
      destruct (opt_truthy (fetched_option transcript_api (default "" v)));
        simpl; [|eexists _, _; split; [reflexivity|lia]].
      destruct H as [H|[H|[prompt H]]]; [discriminate..|].
      unfold mbind, M_bind.
      pose proof (chain_summarize_text_spec chat_completions str_format self
                    (default "" (fetched_option transcript_api (default "" v)))
                    w1) as Hs.
      rewrite H in Hs. destruct Hs as (o & w2 & -> & Hc2).
      destruct (opt_truthy o); simpl; eexists _, _; (split; [reflexivity|lia]).
    + intros e Hv Hfetched H. unfold Summarizer.call.
      unfold mbind at 1, M_bind, lift. rewrite E, Hv. simpl.
      unfold mbind at 1, M_bind. rewrite Ht, Hfetched. simpl.
      unfold mbind, M_bind.
      pose proof (chain_summarize_text_spec chat_completions str_format self
                    (default "" (fetched_option transcript_api (default "" v)))
                    w1) as Hs.
      rewrite H in Hs. rewrite Hs. eauto.
  - unfold Summarizer.summarize_youtube_video, Summarizer.call, mbind, M_bind,
      lift. rewrite E. done.
Qed.

(** A template with a field the chain does not fill: [format] raises the
    [KeyError] of the field and the model is not called. *)
Lemma summarizer_raises_only_before_the_model_witness :
  let self :=
    Summarizer.mkChain "mixtral-8x7b-32768" (Q2Qc (3 # 10))
      "Summarize {title}: {text}" in
  ∃ w', Summarizer.call py_urllib format_text example_transcripts
          answers_third_time self "https://youtu.be/abc"
          (Summarizer.mkWorld [] 0)
        = (Raises (KeyError "title"), w')
        ∧ Summarizer.generation_calls w' = 0%nat.
Proof.
  intros self.
  pose proof (summarizer_raises_only_before_the_model py_urllib format_text
                example_transcripts answers_third_time
                (Summarizer.mkChain "mixtral-8x7b-32768" (Q2Qc (3 # 10))
                   "Summarize {title}: {text}")
                "https://youtu.be/abc" (Summarizer.mkWorld [] 0)) as H.
  change (Summarizer.extract_video_id py_urllib "https://youtu.be/abc")
    with (Returns (Some "abc") : result (option string)) in H.
  destruct H as (_ & _ & H).
  exact (H (KeyError "title") eq_refl eq_refl eq_refl).
Defined.

(** X4.  Without a usable identifier, or without a transcript, the
    summarizer answers with its placeholder and never reaches the language
    model: for a missing or empty identifier nothing happens at all; for a
    transcript that is empty or could not be fetched the only effect is the
    printed error of a failed fetch. *)
Theorem summarizer_stops_before_the_model
    (lib : UrlLib) (str_format : string -> string -> result string)
    (transcript_api : string -> result (list TranscriptEntry))
    (chat_completions : ChatService) (self : Summarizer.YouTubeSummaryChain)
    (url : string) (v : option string) (w : Summarizer.World) :
  Summarizer.extract_video_id lib url = Returns v ->
  opt_truthy v = false
  ∨ opt_truthy (fetched_option transcript_api (default "" v)) = false ->
  let answer :=
    if opt_truthy v then "Could not retrieve transcript"
    else "Invalid YouTube URL" in
  let printed :=
    if opt_truthy v
    then match transcript_api (default "" v) with
         | Returns _ => []
         | Raises e => ["Error getting transcript: " +:+ str_exn e]
         end
    else [] in
  let w' := Summarizer.mkWorld (Summarizer.stdout w ++ printed)
              (Summarizer.generation_calls w) in
  Summarizer.summarize_youtube_video lib transcript_api chat_completions url w
  = (Returns answer, w')
  ∧ Summarizer.call lib str_format transcript_api chat_completions self url w
    = (Returns answer, w').
Proof.
  intros E H. cbv zeta.
  unfold Summarizer.summarize_youtube_video, Summarizer.call.
  unfold mbind at 1 4, M_bind, lift. rewrite E.
  destruct (opt_truthy v) eqn:Ev; simpl.
  - destruct H as [H|H]; [discriminate|].
    unfold mbind at 1 3, M_bind.
    unfold Summarizer.get_transcript, try_except, lift, mbind at 1 2, M_bind.
    unfold fetched_option in H.
    destruct (transcript_api (default "" v)) as [l|e]; simpl in *.
    + rewrite H. simpl. rewrite app_nil_r. by destruct w.
    + done.
  - rewrite app_nil_r. by destruct w.
Qed.

Lemma summarizer_stops_before_the_model_witness :
  let w := Summarizer.mkWorld [] 0 in
  let w' := Summarizer.mkWorld
              ["Error getting transcript: TranscriptsDisabled"] 0 in
  Summarizer.summarize_youtube_video py_urllib example_transcripts
    answers_third_time "https://youtu.be/gone" w
  = (Returns "Could not retrieve transcript", w')
  ∧ Summarizer.call py_urllib format_text example_transcripts
      answers_third_time Summarizer.init_chain "https://youtu.be/gone" w
    = (Returns "Could not retrieve transcript", w').
Proof.
  apply (summarizer_stops_before_the_model py_urllib format_text
           example_transcripts answers_third_time Summarizer.init_chain "https://youtu.be/gone"
           (Some "gone") (Summarizer.mkWorld [] 0)).
  - vm_compute. reflexivity.
  - right. reflexivity.
Defined.

(** X5.  When the transcript is fetched and is not empty, the summarizer
    sends one request to the model [mixtral-8x7b-32768], at temperature 0.3
    and with at most 2048 tokens, whose only message is the prompt around
    the transcript; it returns the text of the first choice when that text
    is not empty, and prints nothing. *)
Theorem summarize_returns_first_choice
    (lib : UrlLib) (transcript_api : string -> result (list TranscriptEntry))
    (chat_completions : ChatService)
    (url id content : string) (l : list TranscriptEntry) (others : list string)
    (w : Summarizer.World) :
  Summarizer.extract_video_id lib url = Returns (Some id) ->
  str_truthy id = true ->
  transcript_api id = Returns l ->
  str_truthy (join_transcript l) = true ->
  chat_completions (Summarizer.generation_calls w)
    (summary_request (join_transcript l)) = Returns (content :: others) ->
  str_truthy content = true ->
  Summarizer.summarize_youtube_video lib transcript_api chat_completions url w
  = (Returns content,
     Summarizer.mkWorld (Summarizer.stdout w)
       (S (Summarizer.generation_calls w))).
Proof.
  intros Hid Hidt Hl Hlt Hchat Hc.
  unfold Summarizer.summarize_youtube_video.
  unfold mbind at 1, M_bind, lift. rewrite Hid. simpl. rewrite Hidt. simpl.
  unfold mbind at 1, M_bind.
  rewrite (summarizer_get_transcript_ok transcript_api id l w Hl).
  simpl. rewrite Hlt. simpl.
  unfold mbind at 1, M_bind.
  unfold Summarizer.summarize_text, try_except, Summarizer.create, lift,
    list_getitem, mbind at 1 2, M_bind.
  unfold summary_request in Hchat. rewrite Hchat. simpl.
  rewrite Hc. reflexivity.
Qed.

Lemma summarize_returns_first_choice_witness :
  Summarizer.summarize_youtube_video py_urllib example_transcripts
    answers_third_time "https://youtu.be/abc" (Summarizer.mkWorld [] 2)
  = (Returns "a summary", Summarizer.mkWorld [] 3).
Proof.
  apply (summarize_returns_first_choice py_urllib example_transcripts
           answers_third_time "https://youtu.be/abc" "abc" "a summary"
           [mkEntry "hello" 0%Qc 1%Qc; mkEntry "world" 1%Qc 1%Qc] []
           (Summarizer.mkWorld [] 2)).
  - vm_compute. reflexivity.
  - reflexivity.
  - reflexivity.
  - reflexivity.
  - reflexivity.
  - reflexivity.
Defined.

(** X6.  An answer without a choice, or whose first choice is the empty
    text, is reported like a failed call: the summarizer returns
    ["Could not generate summary"].  For the answer without a choice the
    [IndexError] is caught and printed. *)
Theorem summarize_empty_answer_is_failure
    (lib : UrlLib) (transcript_api : string -> result (list TranscriptEntry))
    (chat_completions : ChatService)
    (url id : string) (l : list TranscriptEntry) (choices : list string)
    (w : Summarizer.World) :
  Summarizer.extract_video_id lib url = Returns (Some id) ->
  str_truthy id = true ->
  transcript_api id = Returns l ->
  str_truthy (join_transcript l) = true ->
  chat_completions (Summarizer.generation_calls w)
    (summary_request (join_transcript l)) = Returns choices ->
  head choices = None ∨ head choices = Some "" ->
  let printed :=
    match choices with
    | [] => ["Error in summarization: list index out of range"]
    | _ => []
    end in
  Summarizer.summarize_youtube_video lib transcript_api chat_completions url w
  = (Returns "Could not generate summary",
     Summarizer.mkWorld (Summarizer.stdout w ++ printed)
       (S (Summarizer.generation_calls w))).
Proof.
  intros Hid Hidt Hl Hlt Hchat Hhead.
  unfold Summarizer.summarize_youtube_video.
  unfold mbind at 1, M_bind, lift. rewrite Hid. simpl. rewrite Hidt. simpl.
  unfold mbind at 1, M_bind.
  rewrite (summarizer_get_transcript_ok transcript_api id l w Hl).
  simpl. rewrite Hlt. simpl.
  unfold mbind at 1, M_bind.
  unfold Summarizer.summarize_text, try_except, Summarizer.create, lift,
    list_getitem, mbind at 1 2, M_bind.
  unfold summary_request in Hchat. rewrite Hchat.
  destruct choices as [|c cs]; simpl.
  - reflexivity.
  - destruct Hhead as [Hh|Hh]; [discriminate|]. simpl in Hh.
    injection Hh as ->. simpl. by rewrite app_nil_r.
Qed.

Lemma summarize_empty_answer_is_failure_witness :
  Summarizer.summarize_youtube_video py_urllib example_transcripts
    (fun _ _ => Returns []) "https://youtu.be/abc" (Summarizer.mkWorld [] 0)
  = (Returns "Could not generate summary",
     Summarizer.mkWorld ["Error in summarization: list index out of range"] 1).
Proof.
  apply (summarize_empty_answer_is_failure py_urllib example_transcripts
           (fun _ _ => Returns []) "https://youtu.be/abc" "abc"
           [mkEntry "hello" 0%Qc 1%Qc; mkEntry "world" 1%Qc 1%Qc] []
           (Summarizer.mkWorld [] 0)).
  - vm_compute. reflexivity.
  - reflexivity.
  - reflexivity.
  - reflexivity.
  - reflexivity.
  - left. reflexivity.
Defined.

(** ** The prompt of the chain *)

Lemma str_find_cons (c d : ascii) (s : string) :
  str_find c (String d s)
  = if Ascii.eqb c d then Some 0%nat else S <$> str_find c s.
Proof. reflexivity. Qed.

Lemma format_go_literal (c : ascii) (template text : string) :
  Ascii.eqb "{" c = false -> Ascii.eqb "}" c = false ->
  format_go text InText (String c template)
  = String c <$> format_go text InText template.
Proof.
  intros Ho Hc. simpl. rewrite (Ascii.eqb_sym c "{"), (Ascii.eqb_sym c "}").
  by rewrite Ho, Hc.
Qed.

Lemma brace_free_cons (c : ascii) (s : string) :
  brace_free (String c s) ->
  Ascii.eqb "{" c = false ∧ Ascii.eqb "}" c = false ∧ brace_free s.
Proof.
  unfold brace_free. rewrite !str_find_cons. intros [Ho Hc].
  destruct (Ascii.eqb "{" c); [done|]. destruct (Ascii.eqb "}" c); [done|].
  destruct (str_find "{" s); [done|]. destruct (str_find "}" s); done.
Qed.

Lemma format_go_brace_free (b text : string) :
  brace_free b -> format_go text InText b = Returns b.
Proof.
  induction b as [|c b IH]; [done|].
  intros (Ho & Hc & Hb)%brace_free_cons.
  by rewrite format_go_literal, IH.
Qed.

(** Formatting a template with one field puts the text in the place of the
    field; braces in the text are left alone. *)
Lemma format_text_field (a b text : string) :
  brace_free a -> brace_free b ->
  format_text (a +:+ "{text}" +:+ b) text = Returns (a +:+ text +:+ b).
Proof.
  intros Ha Hb. unfold format_text. induction a as [|c a IH].
  - change ("" +:+ "{text}" +:+ b) with ("{text}" +:+ b).
    change (format_go text InText ("{text}" +:+ b))
      with (rest ← format_go text InText b; Returns (text +:+ rest)).
    by rewrite format_go_brace_free.
  - apply brace_free_cons in Ha as (Ho & Hc & Ha).
    change (String c a +:+ "{text}" +:+ b)
      with (String c (a +:+ "{text}" +:+ b)).
    by rewrite format_go_literal, IH.
Qed.

(** X7.  The chain sends the model named in the object, at the temperature
    of the object, the template with the transcript in the place of
    [{text}]; it returns the text of the first choice when that text is not
    empty.  The template is any text with this one field and no other
    brace. *)
Theorem chain_call_returns_first_choice
    (lib : UrlLib) (transcript_api : string -> result (list TranscriptEntry))
    (chat_completions : ChatService) (self : Summarizer.YouTubeSummaryChain)
    (before after : string)
    (url id content : string) (l : list TranscriptEntry) (others : list string)
    (w : Summarizer.World) :
  Summarizer.prompt_template self = before +:+ "{text}" +:+ after ->
  brace_free before -> brace_free after ->
  Summarizer.extract_video_id lib url = Returns (Some id) ->
  str_truthy id = true ->
  transcript_api id = Returns l ->
  str_truthy (join_transcript l) = true ->
  chat_completions (Summarizer.generation_calls w)
    (mkChatRequest (Summarizer.model_name self)
       [("user", before +:+ join_transcript l +:+ after)]
       (Summarizer.chain_temperature self) 2048)
  = Returns (content :: others) ->
  str_truthy content = true ->
  Summarizer.call lib format_text transcript_api chat_completions self url w
  = (Returns content,
     Summarizer.mkWorld (Summarizer.stdout w)
       (S (Summarizer.generation_calls w))).
Proof.
  intros Htpl Hb Ha Hid Hidt Hl Hlt Hchat Hc.
  unfold Summarizer.call.
  unfold mbind at 1, M_bind, lift. rewrite Hid. simpl. rewrite Hidt. simpl.
  unfold mbind at 1, M_bind.
  rewrite (summarizer_get_transcript_ok transcript_api id l w Hl).
  simpl. rewrite Hlt. simpl.
  unfold mbind at 1, M_bind.
  unfold Summarizer.chain_summarize_text, lift. unfold mbind at 1, M_bind.
  rewrite Htpl, (format_text_field before after _ Hb Ha).
  unfold try_except, Summarizer.create, lift, list_getitem, mbind at 1 2,
    M_bind.
  rewrite Hchat. simpl. rewrite Hc. reflexivity.
Qed.

Lemma chain_call_returns_first_choice_witness :
  Summarizer.call py_urllib format_text example_transcripts answers_third_time
    (Summarizer.mkChain "m" 1%Qc "Summarize: {text} Thanks.")
    "https://youtu.be/abc" (Summarizer.mkWorld [] 2)
  = (Returns "a summary", Summarizer.mkWorld [] 3).
Proof.
  apply (chain_call_returns_first_choice py_urllib example_transcripts
           answers_third_time
           (Summarizer.mkChain "m" 1%Qc "Summarize: {text} Thanks.")
           "Summarize: " " Thanks." "https://youtu.be/abc" "abc" "a summary"
           [mkEntry "hello" 0%Qc 1%Qc; mkEntry "world" 1%Qc 1%Qc] []
           (Summarizer.mkWorld [] 2)).
  - reflexivity.
  - split; reflexivity.
  - split; reflexivity.
  - vm_compute. reflexivity.
  - reflexivity.
  - reflexivity.
  - reflexivity.
  - reflexivity.
  - reflexivity.
Defined.

(** The template [__init__] sets has the one field [{text}]. *)
Example default_template_has_one_field :
  ∃ before after,
    Summarizer.default_prompt_template = before +:+ "{text}" +:+ after
    ∧ brace_free before ∧ brace_free after.
Proof.
  exists (str_take 168 Summarizer.default_prompt_template),
         (str_drop 174 Summarizer.default_prompt_template).
  repeat split; vm_compute; reflexivity.
Qed.

(** X8.  A short URL with no identifier after the host: the RAG system's
    [extract_video_id] returns the empty identifier and raises nothing, and
    [process_videos] asks the transcript service for the video [""], keeping
    what it answers; the summarizer answers ["Invalid YouTube URL"] and
    touches nothing. *)
Theorem short_url_without_id
    (lib : UrlLib) (transcript_api : string -> result (list TranscriptEntry))
    (chat_completions : ChatService) (url : string) (p : ParseResult)
    (w : Summarizer.World) (wr : Rag.World) :
  urlparse lib url = Returns p ->
  hostname p = Some "youtu.be" ->
  path p = "" ∨ path p = "/" ->
  Rag.extract_video_id lib url = Returns ""
  ∧ (Rag.process_videos lib transcript_api [url] wr).1
    = Returns (if str_truthy (fetched_text transcript_api "")
               then [Rag.document "" url (fetched_text transcript_api "")]
               else [])
  ∧ Summarizer.summarize_youtube_video lib transcript_api chat_completions
      url w = (Returns "Invalid YouTube URL", w).
Proof.
  intros Hp Hh Hpath.
  assert (str_drop 1 (path p) = "") as Hdrop
    by (destruct Hpath as [-> | ->]; reflexivity).
  assert (Rag.extract_video_id lib url = Returns "") as Hr.
  { unfold Rag.extract_video_id. rewrite Hp. unfold mbind, result_bind.
    rewrite (bool_decide_eq_true_2 _ Hh). by rewrite Hdrop. }
  split; [exact Hr|]. split.
  - destruct (process_videos_from_spec lib transcript_api [url]
                ltac:(repeat constructor; eauto) [] wr) as [w' E].
    unfold Rag.process_videos. rewrite E. simpl. unfold kept_document.
    rewrite Hr. simpl.
    by destruct (str_truthy (fetched_text transcript_api "")).
  - unfold Summarizer.summarize_youtube_video, Summarizer.extract_video_id,
      mbind at 1, M_bind, lift.
    rewrite Hp. unfold mbind, result_bind.
    rewrite (bool_decide_eq_true_2 _ Hh), Hdrop. reflexivity.
Qed.

Lemma short_url_without_id_witness :
  Rag.extract_video_id py_urllib "https://youtu.be/" = Returns ""
  ∧ (Rag.process_videos py_urllib example_transcripts ["https://youtu.be/"]
       (Rag.mkWorld [])).1
    = Returns (if str_truthy (fetched_text example_transcripts "")
               then [Rag.document "" "https://youtu.be/"
                       (fetched_text example_transcripts "")]
               else [])
  ∧ Summarizer.summarize_youtube_video py_urllib example_transcripts
      always_timeout "https://youtu.be/" (Summarizer.mkWorld [] 0)
    = (Returns "Invalid YouTube URL", Summarizer.mkWorld [] 0).
Proof.
  apply (short_url_without_id py_urllib example_transcripts always_timeout
           "https://youtu.be/"
           (mkParseResult "https" "youtu.be" "/" "" "" "" (Some "youtu.be"))
           (Summarizer.mkWorld [] 0) (Rag.mkWorld [])).
  - vm_compute. reflexivity.
  - reflexivity.
  - right. reflexivity.
Defined.

(** ** More on [process_videos] *)

Section ProcessVideosMore.
Variable lib : UrlLib.
Variable transcript_api : string -> result (list TranscriptEntry).

Local Abbreviation process_from := (Rag.process_videos_from lib transcript_api).
Local Abbreviation process := (Rag.process_videos lib transcript_api).

(** The loop on a concatenation is the loop on the first list followed, if
    it returns, by the loop on the second. *)
Lemma process_videos_from_app (urls1 urls2 : list string) :
  ∀ documents w,
  process_from documents (urls1 ++ urls2) w
  = match process_from documents urls1 w with
    | (Returns documents1, w1) => process_from documents1 urls2 w1
    | (Raises e, w1) => (Raises e, w1)
    end.
Proof.
  induction urls1 as [|url urls1 IH]; intros documents w; [reflexivity|].
  simpl. unfold mbind at 1 3, M_bind, lift.
  destruct (Rag.extract_video_id lib url) as [id|e]; [|reflexivity].
  unfold mbind, M_bind.
  destruct (Rag.get_transcript transcript_api id w) as [[t|e] w1];
    [|reflexivity].
  destruct (str_truthy t); apply IH.
Qed.

(** The documents gathered before the loop stay in front. *)
Lemma process_videos_from_acc (urls : list string) :
  ∀ documents w,
  process_from documents urls w
  = match process_from [] urls w with
    | (Returns found, w') => (Returns (documents ++ found), w')
    | (Raises e, w') => (Raises e, w')
    end.
Proof.
  induction urls as [|url urls IH]; intros documents w; simpl.
  - by rewrite app_nil_r.
  - unfold mbind at 1 3, M_bind, lift.
    destruct (Rag.extract_video_id lib url) as [id|e]; [|reflexivity].
    unfold mbind, M_bind.
    destruct (Rag.get_transcript transcript_api id w) as [[t|e] w1];
      [|reflexivity].
    destruct (str_truthy t); [|apply IH].
    rewrite (IH (documents ++ [Rag.document id url t])),
      (IH [Rag.document id url t]).
    destruct (process_from [] urls w1) as [[found|e] w2]; [|reflexivity].
    by rewrite <- app_assoc.
Qed.

(** The loop returns only when every URL is well formed. *)
Lemma process_videos_from_returns (urls : list string) :
  ∀ documents w found w',
  process_from documents urls w = (Returns found, w') ->
  Forall (well_formed_url lib) urls.
Proof.
  induction urls as [|url urls IH]; intros documents w found w'; [by constructor|].
  simpl. unfold mbind at 1, M_bind, lift.
  destruct (Rag.extract_video_id lib url) as [id|e] eqn:E; [|discriminate].
  unfold mbind, M_bind.
  destruct (Rag.get_transcript transcript_api id w) as [[t|e] w1];
    [|discriminate].
  intros H. constructor; [by exists id|].
  destruct (str_truthy t); by eapply IH.
Qed.

End ProcessVideosMore.

(** X9.  One URL that [extract_video_id] refuses makes [process_videos]
    raise the exception of that URL and return no document at all, also when
    the URLs before it were processed and those after it are fine. *)
Theorem process_videos_stops_at_bad_url
    (lib : UrlLib) (transcript_api : string -> result (list TranscriptEntry))
    (urls1 urls2 : list string) (url : string) (e : exn) (w : Rag.World) :
  Forall (well_formed_url lib) urls1 ->
  Rag.extract_video_id lib url = Raises e ->
  ∃ w', Rag.process_videos lib transcript_api (urls1 ++ url :: urls2) w
        = (Raises e, w').
Proof.
  intros Hwf He. unfold Rag.process_videos.
  rewrite process_videos_from_app.
  destruct (process_videos_from_spec lib transcript_api urls1 Hwf [] w)
    as [w1 ->].
  simpl. unfold mbind, M_bind, lift. rewrite He. eauto.
Qed.

Lemma process_videos_stops_at_bad_url_witness :
  ∃ w', Rag.process_videos py_urllib example_transcripts
          (["https://youtu.be/abc"]
           ++ "https://vimeo.com/1" :: ["https://youtu.be/abc"])
          (Rag.mkWorld [])
        = (Raises (ValueError "Invalid YouTube URL: https://vimeo.com/1"), w').
Proof.
  apply (process_videos_stops_at_bad_url py_urllib example_transcripts
           ["https://youtu.be/abc"] ["https://youtu.be/abc"]
           "https://vimeo.com/1"
           (ValueError "Invalid YouTube URL: https://vimeo.com/1")
           (Rag.mkWorld [])).
  - repeat constructor. exists "abc". vm_compute. reflexivity.
  - vm_compute. reflexivity.
Defined.

(** X10.  Processing two lists of URLs one after the other gives the
    documents that processing their concatenation gives, and leaves the
    same lines printed. *)
Theorem process_videos_app
    (lib : UrlLib) (transcript_api : string -> result (list TranscriptEntry))
    (urls1 urls2 : list string) (docs1 docs2 : list (gmap string string))
    (w w1 w2 : Rag.World) :
  Rag.process_videos lib transcript_api urls1 w = (Returns docs1, w1) ->
  Rag.process_videos lib transcript_api urls2 w1 = (Returns docs2, w2) ->
  Rag.process_videos lib transcript_api (urls1 ++ urls2) w
  = (Returns (docs1 ++ docs2), w2).
Proof.
  unfold Rag.process_videos. intros H1 H2.
  rewrite process_videos_from_app, H1, process_videos_from_acc, H2.
  reflexivity.
Qed.

Lemma process_videos_app_witness :
  Rag.process_videos py_urllib example_transcripts
    (["https://youtu.be/abc"; "https://youtu.be/gone"]
     ++ ["https://youtu.be/abc"]) (Rag.mkWorld [])
  = (Returns ([Rag.document "abc" "https://youtu.be/abc" "hello world"]
              ++ [Rag.document "abc" "https://youtu.be/abc" "hello world"]),
     Rag.mkWorld
       ["Error getting transcript for video gone: TranscriptsDisabled"]).
Proof.
  apply (process_videos_app py_urllib example_transcripts
           ["https://youtu.be/abc"; "https://youtu.be/gone"]
           ["https://youtu.be/abc"] _ _ (Rag.mkWorld [])
           (Rag.mkWorld
              ["Error getting transcript for video gone: TranscriptsDisabled"])).
  - vm_compute. reflexivity.
  - vm_compute. reflexivity.
Defined.



(** ** Splitting the documents *)

Lemma mapM_result_length {A B} (f : A -> result B) (l : list A) (k : list B) :
  mapM f l = Returns k -> length k = length l.
Proof.
  revert k. induction l as [|x l IH]; intros k; simpl.
  - intros [= <-]. reflexivity.
  - destruct (f x) as [y|e]; simpl; [|discriminate].
    destruct (mapM f l) as [k'|e]; simpl; [|discriminate].
    intros [= <-]. simpl. f_equal. by apply IH.
Qed.

Lemma mapM_result_returns {A B} (f : A -> result B) (g : A -> B) (l : list A) :
  (∀ x, f x = Returns (g x)) -> mapM f l = Returns (g <$> l).
Proof.
  intros H. induction l as [|x l IH]; [reflexivity|].
  simpl. rewrite H. simpl. rewrite IH. reflexivity.
Qed.

Section SplitDocuments.
Variable split_text : string -> list string.

Local Abbreviation split_from := (RagIndex.split_documents_from split_text).

Lemma split_documents_from_aligned (documents : list (gmap string string)) :
  ∀ chunks metadatas chunks' metadatas',
  length chunks = length metadatas ->
  split_from chunks metadatas documents = Returns (chunks', metadatas') ->
  length chunks' = length metadatas'.
Proof.
  induction documents as [|doc rest IH];
    intros chunks metadatas chunks' metadatas' Hlen; simpl.
  - intros [= <- <-]. exact Hlen.
  - unfold dict_getitem at 1.
    destruct (doc !! "content") as [content|]; simpl; [|discriminate].
    destruct (RagIndex.doc_metadatas doc (length (split_text content)))
      as [mds|e] eqn:E; simpl; [|discriminate].
    apply IH. rewrite !length_app, Hlen. f_equal.
    apply mapM_result_length in E. rewrite E. by rewrite length_seq.
Qed.

Lemma doc_metadatas_ok (doc : gmap string string) (n : nat) :
  is_Some (doc !! "video_id") -> is_Some (doc !! "url") ->
  RagIndex.doc_metadatas doc n = Returns (chunk_metadata doc <$> seq 0 n).
Proof.
  intros [id Hid] [url Hurl]. unfold RagIndex.doc_metadatas.
  apply mapM_result_returns. intros i. unfold dict_getitem, chunk_metadata.
  rewrite Hid, Hurl, (lookup_total_correct _ _ _ Hid),
    (lookup_total_correct _ _ _ Hurl). reflexivity.
Qed.

Lemma split_documents_from_ok (documents : list (gmap string string)) :
  Forall (fun doc => is_Some (doc !! "video_id") ∧ is_Some (doc !! "url")
                     ∧ is_Some (doc !! "content")) documents ->
  ∀ chunks metadatas,
  split_from chunks metadatas documents
  = Returns (chunks ++ expected_chunks split_text documents,
             metadatas ++ expected_metadatas split_text documents).
Proof.
  induction 1 as [|doc rest (Hid & Hurl & [content Hc]) _ IH];
    intros chunks metadatas; simpl.
  - by rewrite !app_nil_r.
  - unfold dict_getitem at 1. rewrite Hc. simpl.
    rewrite (doc_metadatas_ok doc _ Hid Hurl). simpl.
    rewrite IH. unfold expected_chunks, expected_metadatas. simpl.
    rewrite (lookup_total_correct _ _ _ Hc), <- !app_assoc. reflexivity.
Qed.

End SplitDocuments.

(** X12.  Whatever the splitter and the documents, when the cell that
    splits the documents goes through it leaves as many metadata records as
    chunks, so that the vector store gets one record per text. *)
Theorem split_documents_aligned (split_text : string -> list string)
    (documents : list (gmap string string)) (chunks : list string)
    (metadatas : list (gmap string pyval)) :
  RagIndex.split_documents split_text documents = Returns (chunks, metadatas) ->
  length chunks = length metadatas.
Proof.
  unfold RagIndex.split_documents.
  by apply (split_documents_from_aligned split_text documents [] []).
Qed.

Lemma split_documents_aligned_witness :
  length ["hello"; "world"]
  = length [chunk_metadata (Rag.document "abc" "u" "hello world") 0;
            chunk_metadata (Rag.document "abc" "u" "hello world") 1].
Proof.
  apply (split_documents_aligned split_words
           [Rag.document "abc" "u" "hello world"]).
  vm_compute. reflexivity.
Defined.

(** X13.  On the documents [process_videos] returns, the cell that splits
    them raises no [KeyError]: it gathers the chunks of each transcript, in
    order, and for each chunk a record with the identifier and the URL of
    its video and the position of the chunk in its document, counted
    from 0. *)
Theorem split_after_process_videos
    (lib : UrlLib) (transcript_api : string -> result (list TranscriptEntry))
    (split_text : string -> list string)
    (urls : list string) (docs : list (gmap string string))
    (w w' : Rag.World) :
  Rag.process_videos lib transcript_api urls w = (Returns docs, w') ->
  RagIndex.split_documents split_text docs
  = Returns (expected_chunks split_text docs,
             expected_metadatas split_text docs).
Proof.
  intros H. unfold RagIndex.split_documents.
  rewrite split_documents_from_ok; [reflexivity|].
  destruct (process_videos_from_spec lib transcript_api urls
              (process_videos_from_returns lib transcript_api urls [] w docs w' H)
              [] w) as [w1 E].
  unfold Rag.process_videos in H. rewrite E in H. injection H as <- _.
  apply Forall_forall. intros doc Hdoc. simpl in Hdoc.
  apply list_elem_of_omap in Hdoc as (url & _ & Hk).
  unfold kept_document in Hk.
  destruct (Rag.extract_video_id lib url) as [id|e]; [|discriminate].
  simpl in Hk.
  destruct (str_truthy (fetched_text transcript_api id)); [|discriminate].
  injection Hk as <-. unfold Rag.document.
  repeat split; eexists.
  - apply lookup_insert_eq.
  - rewrite lookup_insert_ne by done. apply lookup_insert_eq.
  - rewrite !lookup_insert_ne by done. apply lookup_singleton_eq.
Qed.

Lemma split_after_process_videos_witness :
  RagIndex.split_documents split_words
    [Rag.document "abc" "https://youtu.be/abc" "hello world"]
  = Returns (expected_chunks split_words
               [Rag.document "abc" "https://youtu.be/abc" "hello world"],
             expected_metadatas split_words
               [Rag.document "abc" "https://youtu.be/abc" "hello world"]).
Proof.
  apply (split_after_process_videos py_urllib example_transcripts split_words
           ["https://youtu.be/abc"; "https://youtu.be/gone"] _
           (Rag.mkWorld [])
           (Rag.mkWorld
              ["Error getting transcript for video gone: TranscriptsDisabled"])).
  vm_compute. reflexivity.
Defined.

Example split_documents_example :
  RagIndex.split_documents split_words
    [Rag.document "abc" "u" "hello world"; Rag.document "xyz" "v" "bye"]
  = Returns (["hello"; "world"; "bye"],
             [{[ "video_id" := PyStr "abc"; "url" := PyStr "u";
                 "chunk" := PyInt 0 ]};
              {[ "video_id" := PyStr "abc"; "url" := PyStr "u";
                 "chunk" := PyInt 1 ]};
              {[ "video_id" := PyStr "xyz"; "url" := PyStr "v";
                 "chunk" := PyInt 0 ]}]).
Proof. vm_compute. reflexivity. Qed.

(** ** More on the monitored pipeline *)

Section ProcessVideoMore.
Variable transcript_api : string -> result (list TranscriptEntry).
Variable summarizer : string -> result string.
Variable summarizer_seconds : string -> Qc.
Variable rouge_scorer : string -> string -> RougeScores.
Variable cpu_percent : Qc -> Qc.
Variable memory_rss : Qc -> Qc.

Local Abbreviation process_video :=
  (Monitoring.process_video transcript_api summarizer summarizer_seconds
     rouge_scorer cpu_percent memory_rss).

(** What a successful call does, whatever the reference. *)
Lemma process_video_spec (video_id summary : string)
    (reference_summary : option string)
    (transcript : list TranscriptEntry) (w : Monitoring.World) :
  transcript_api video_id = Returns transcript ->
  summarizer (join_transcript transcript) = Returns summary ->
  let text := join_transcript transcript in
  let now := (Monitoring.clock w + summarizer_seconds text)%Qc in
  let metrics :=
    Monitoring.merge_metrics (summarizer_seconds text)
      (reference_scores rouge_scorer summary reference_summary)
      {[ "cpu_percent" := cpu_percent now;
         "memory_mb" := (memory_rss now / Qc_of_Z 1024 / Qc_of_Z 1024)%Qc ]} in
  process_video video_id reference_summary w
  = (Returns (summary, metrics),
     Monitoring.mkWorld
       (Monitoring.mkMonitor
          (Monitoring.metrics_history (Monitoring.monitor w) ++ [metrics]))
       now (Monitoring.mlflow w ++ performance_events metrics)).
Proof.
  intros Ht Hs text now metrics.
  unfold Monitoring.process_video, Monitoring.measure_latency,
    Monitoring.measure_resource_usage, Monitoring.run_summarizer,
    Monitoring.time, gets, lift.
  unfold mbind at 1 2 3 4 5 6 7, M_bind. rewrite Ht. simpl.
  rewrite Hs. simpl. fold text.
  replace (Monitoring.clock w + summarizer_seconds text - Monitoring.clock w)%Qc
    with (summarizer_seconds text) by ring.
  fold now. unfold mret, M_ret, performance_events.
  rewrite <- !app_assoc. reflexivity.
Qed.

End ProcessVideoMore.

(** X14.  A successful [process_video] returns the summary and the metrics
    it has appended to the history of the monitor: the latency of the
    summarization, the two resource readings and, exactly when a reference
    summary is given and is not empty, the three ROUGE F-measures of the
    summary against it.  The clock has advanced by the time the
    summarization took. *)
Theorem process_video_records
    (transcript_api : string -> result (list TranscriptEntry))
    (summarizer : string -> result string) (summarizer_seconds : string -> Qc)
    (rouge_scorer : string -> string -> RougeScores)
    (cpu_percent memory_rss : Qc -> Qc)
    (video_id summary : string) (reference_summary : option string)
    (transcript : list TranscriptEntry) (w : Monitoring.World) :
  transcript_api video_id = Returns transcript ->
  summarizer (join_transcript transcript) = Returns summary ->
  let seconds := summarizer_seconds (join_transcript transcript) in
  let scores := rouge_scorer summary (default "" reference_summary) in
  let scored (f : Qc) := if opt_truthy reference_summary then Some f else None in
  ∃ metrics w',
    Monitoring.process_video transcript_api summarizer summarizer_seconds
      rouge_scorer cpu_percent memory_rss video_id reference_summary w
    = (Returns (summary, metrics), w')
    ∧ Monitoring.metrics_history (Monitoring.monitor w')
      = Monitoring.metrics_history (Monitoring.monitor w) ++ [metrics]
    ∧ Monitoring.clock w' = (Monitoring.clock w + seconds)%Qc
    ∧ metrics !! "latency" = Some seconds
    ∧ metrics !! "cpu_percent" = Some (cpu_percent (Monitoring.clock w'))
    ∧ metrics !! "memory_mb"
      = Some (memory_rss (Monitoring.clock w') / Qc_of_Z 1024 / Qc_of_Z 1024)%Qc
    ∧ metrics !! "rouge1_f1" = scored (fmeasure (rouge1 scores))
    ∧ metrics !! "rouge2_f1" = scored (fmeasure (rouge2 scores))
    ∧ metrics !! "rougeL_f1" = scored (fmeasure (rougeL scores)).
Proof.
  intros Ht Hs seconds scores scored. eexists _, _. split.
  - by apply process_video_spec.
  - simpl. unfold Monitoring.merge_metrics, reference_scores, scored,
      Monitoring.calculate_rouge_scores.
    destruct (opt_truthy reference_summary); repeat split; reflexivity.
Qed.

Lemma process_video_records_witness :
  ∃ metrics w',
    Monitoring.process_video example_transcripts
      (fun text => Returns ("summary of " +:+ text)) example_seconds
      example_rouge (fun _ => 1%Qc) (fun _ => Qc_of_Z 2048) "abc"
      (Some "hello") (Monitoring.mkWorld Monitoring.init_monitor 0%Qc [])
    = (Returns ("summary of hello world", metrics), w')
    ∧ metrics !! "rouge1_f1" = Some (Q2Qc (1 # 3))
    ∧ metrics !! "latency" = Some (Qc_of_Z 11).
Proof.
  destruct (process_video_records example_transcripts
              (fun text => Returns ("summary of " +:+ text)) example_seconds
              example_rouge (fun _ => 1%Qc) (fun _ => Qc_of_Z 2048) "abc"
              "summary of hello world" (Some "hello")
              [mkEntry "hello" 0%Qc 1%Qc; mkEntry "world" 1%Qc 1%Qc]
              (Monitoring.mkWorld Monitoring.init_monitor 0%Qc []))
    as (metrics & w' & E & _ & _ & Hl & _ & _ & H1 & _).
  - reflexivity.
  - reflexivity.
  - exists metrics, w'. repeat split; assumption.
Defined.

(** X15.  [process_video] catches nothing.  When the transcript cannot be
    fetched it raises the exception of the transcript service and the
    monitor, the clock and MLflow are as before; when the summarization
    fails it raises its exception, the time has passed, and nothing is
    recorded or logged. *)
Theorem process_video_failures
    (transcript_api : string -> result (list TranscriptEntry))
    (summarizer : string -> result string) (summarizer_seconds : string -> Qc)
    (rouge_scorer : string -> string -> RougeScores)
    (cpu_percent memory_rss : Qc -> Qc)
    (video_id : string) (reference_summary : option string)
    (w : Monitoring.World) :
  match transcript_api video_id with
  | Raises e =>
      Monitoring.process_video transcript_api summarizer summarizer_seconds
        rouge_scorer cpu_percent memory_rss video_id reference_summary w
      = (Raises e, w)
  | Returns transcript =>
      ∀ e, summarizer (join_transcript transcript) = Raises e ->
      Monitoring.process_video transcript_api summarizer summarizer_seconds
        rouge_scorer cpu_percent memory_rss video_id reference_summary w
      = (Raises e,
         Monitoring.mkWorld (Monitoring.monitor w)
           (Monitoring.clock w
            + summarizer_seconds (join_transcript transcript))%Qc
           (Monitoring.mlflow w))
  end.
Proof.
  unfold Monitoring.process_video, Monitoring.measure_latency,
    Monitoring.run_summarizer, Monitoring.time, gets, lift.
  unfold mbind at 1, M_bind.
  destruct (transcript_api video_id) as [transcript|e]; [|reflexivity].
  intros e He. unfold mbind, M_bind. rewrite He. reflexivity.
Qed.

Lemma process_video_failures_witness :
  Monitoring.process_video example_transcripts
    (fun _ => Raises (UpstreamError "out of memory")) example_seconds
    example_rouge (fun _ => 1%Qc) (fun _ => 1%Qc) "abc" None
    (Monitoring.mkWorld Monitoring.init_monitor 0%Qc [])
  = (Raises (UpstreamError "out of memory"),
     Monitoring.mkWorld Monitoring.init_monitor
       (0 + example_seconds "hello world")%Qc []).
Proof.
  apply (process_video_failures example_transcripts
           (fun _ => Raises (UpstreamError "out of memory")) example_seconds
           example_rouge (fun _ => 1%Qc) (fun _ => 1%Qc) "abc" None
           (Monitoring.mkWorld Monitoring.init_monitor 0%Qc [])
           (UpstreamError "out of memory")).
  reflexivity.
Defined.

Lemma column_nonempty (k : string) (rows : list (gmap string Qc)) :
  rows ≠ [] -> Forall (fun row => is_Some (row !! k)) rows ->
  column k rows ≠ [].
Proof.
  intros Hne Hall E. apply column_full in Hall. rewrite E in Hall.
  destruct rows; [done|discriminate].
Qed.

Lemma column_has (k : string) (rows : list (gmap string Qc)) :
  Exists (fun row => is_Some (row !! k)) rows -> column k rows ≠ [].
Proof.
  induction 1 as [row rows [v Hv]|row rows _ IH]; rewrite column_cons.
  - by rewrite Hv.
  - by destruct (row !! k).
Qed.

(** X16.  Plotting a history in which no call had a reference summary:
    every entry has its latency and resource readings and none has a
    ROUGE score.  The latency and the resource figures are shown, and
    then the ROUGE figure fails with [KeyError 'rouge1_f1']. *)
Theorem plot_without_rouge_scores (history : list (gmap string Qc))
    (w : MonitoringPlots.World) :
  history ≠ [] ->
  Forall (fun m => is_Some (m !! "latency") ∧ is_Some (m !! "cpu_percent")
                   ∧ is_Some (m !! "memory_mb") ∧ m !! "rouge1_f1" = None)
    history ->
  MonitoringPlots.plot_metrics_over_time history w
  = (Raises (KeyError "rouge1_f1"),
     MonitoringPlots.mkWorld
       (MonitoringPlots.shown w
        ++ [MonitoringPlots.mkFigure "Inference Latency Over Time"
              [("latency", (fun m => m !! "latency") <$> history)];
            MonitoringPlots.mkFigure "Resource Usage Over Time"
              [("CPU %", (fun m => m !! "cpu_percent") <$> history);
               ("Memory (MB)", (fun m => m !! "memory_mb") <$> history)]])).
Proof.
  intros Hne Hall.
  assert (Hl : column "latency" history ≠ []).
  { apply column_nonempty; [done|]. eapply Forall_impl; [exact Hall|].
    intros m H. apply H. }
  assert (Hc : column "cpu_percent" history ≠ []).
  { apply column_nonempty; [done|]. eapply Forall_impl; [exact Hall|].
    intros m H. apply H. }
  assert (Hm : column "memory_mb" history ≠ []).
  { apply column_nonempty; [done|]. eapply Forall_impl; [exact Hall|].
    intros m H. apply H. }
  assert (Hr : column "rouge1_f1" history = []).
  { apply column_empty. eapply Forall_impl; [exact Hall|].
    intros m H. apply H. }
  unfold MonitoringPlots.plot_metrics_over_time, MonitoringPlots.px_line,
    MonitoringPlots.add_traces, MonitoringPlots.df_getitem,
    MonitoringPlots.show, modify, lift.
  rewrite (bool_decide_eq_false_2 _ Hl), (bool_decide_eq_false_2 _ Hc),
    (bool_decide_eq_false_2 _ Hm), (bool_decide_eq_true_2 _ Hr).
  unfold mbind, M_bind, result_bind. simpl. rewrite <- app_assoc. reflexivity.
Qed.

Lemma plot_without_rouge_scores_witness :
  let history : list (gmap string Qc) :=
    [ {[ "latency" := 1%Qc; "cpu_percent" := 1%Qc; "memory_mb" := 1%Qc ]} ] in
  MonitoringPlots.plot_metrics_over_time history (MonitoringPlots.mkWorld [])
  = (Raises (KeyError "rouge1_f1"),
     MonitoringPlots.mkWorld
       [MonitoringPlots.mkFigure "Inference Latency Over Time"
          [("latency", [Some 1%Qc])];
        MonitoringPlots.mkFigure "Resource Usage Over Time"
          [("CPU %", [Some 1%Qc]); ("Memory (MB)", [Some 1%Qc])]]).
Proof.
  intros history.
  apply (plot_without_rouge_scores history (MonitoringPlots.mkWorld [])).
  - discriminate.
  - repeat constructor; vm_compute; eauto.
Defined.

(** X17.  When each of the six columns holds a value in some entry of the
    history, [plot_metrics_over_time] shows three figures, in the order
    latency, resources, ROUGE; every trace has one point per entry of the
    history, a hole where the entry has no value. *)
Theorem plot_all_metrics (history : list (gmap string Qc))
    (w : MonitoringPlots.World) :
  Forall (fun k => Exists (fun m => is_Some (m !! k)) history)
    (resource_columns ++ rouge_columns) ->
  let points (k : string) := (fun m : gmap string Qc => m !! k) <$> history in
  MonitoringPlots.plot_metrics_over_time history w
  = (Returns tt,
     MonitoringPlots.mkWorld
       (MonitoringPlots.shown w
        ++ [MonitoringPlots.mkFigure "Inference Latency Over Time"
              [("latency", points "latency")];
            MonitoringPlots.mkFigure "Resource Usage Over Time"
              [("CPU %", points "cpu_percent");
               ("Memory (MB)", points "memory_mb")];
            MonitoringPlots.mkFigure "ROUGE Scores Over Time"
              [("rouge1_f1", points "rouge1_f1");
               ("rouge2_f1", points "rouge2_f1");
               ("rougeL_f1", points "rougeL_f1")]]))
  ∧ ∀ k, length (points k) = length history.
Proof.
  intros Hall points. split; [|intros k; apply length_fmap].
  unfold resource_columns, rouge_columns in Hall. simpl in Hall.
  repeat match goal with
         | H : Forall _ (_ :: _) |- _ => apply Forall_cons in H; destruct H
         | H : Exists _ history |- _ => apply column_has in H
         end.
  unfold MonitoringPlots.plot_metrics_over_time, MonitoringPlots.px_line,
    MonitoringPlots.add_traces, MonitoringPlots.df_getitem,
    MonitoringPlots.show, modify, lift.
  repeat match goal with
         | H : column _ history ≠ [] |- _ =>
             rewrite (bool_decide_eq_false_2 _ H); clear H
         end.
  unfold mbind, M_bind, result_bind. simpl. rewrite <- !app_assoc. reflexivity.
Qed.

Lemma plot_all_metrics_witness :
  let history : list (gmap string Qc) :=
    [ {[ "latency" := 1%Qc; "cpu_percent" := 1%Qc; "memory_mb" := 1%Qc ]};
      {[ "latency" := 1%Qc; "cpu_percent" := 1%Qc; "memory_mb" := 1%Qc;
         "rouge1_f1" := 1%Qc; "rouge2_f1" := 1%Qc; "rougeL_f1" := 1%Qc ]} ] in
  fst (MonitoringPlots.plot_metrics_over_time history
         (MonitoringPlots.mkWorld [])) = Returns tt.
Proof.
  intros history.
  destruct (plot_all_metrics history (MonitoringPlots.mkWorld [])) as [E _].
  - unfold resource_columns, rouge_columns. simpl.
    repeat match goal with
           | |- Forall _ (_ :: _) => apply List.Forall_cons
           | |- Forall _ [] => apply List.Forall_nil
           | |- Exists _ _ =>
               apply Exists_cons_tl, Exists_cons_hd; vm_compute; eauto
           end.
  - rewrite E. reflexivity.
Defined.

Lemma py_words_go_nil (cur : option string) (s : string) :
  py_words_go cur s = [] ↔ cur = None ∧ str_forallb is_space s = true.
Proof.
  revert cur. induction s as [|c s IH]; intros cur; simpl.
  - destruct cur; split; [discriminate|intros [? _]; discriminate|done|done].
  - destruct (is_space c); simpl.
    + destruct cur.
      * split; [discriminate|intros [? _]; discriminate].
      * rewrite IH. tauto.
    + rewrite IH. split; [intros [? _]; discriminate|intros [_ ?]; discriminate].
Qed.

Lemma py_words_nil (s : string) :
  py_words s = [] ↔ str_forallb is_space s = true.
Proof. unfold py_words. rewrite py_words_go_nil. tauto. Qed.

Lemma Qc_of_nat_nonzero (n : nat) : (0 < n)%nat -> Qc_of_nat n ≠ 0%Qc.
Proof.
  intros Hn E. apply (f_equal this) in E.
  unfold Qc_of_nat, Qc_of_Z in E. simpl in E.
  unfold inject_Z in E. injection E as E. lia.
Qed.

(** X18.  [calculate_metrics] counts the words of the two summaries as
    [str.split] does and gives as length ratio the quotient of the two
    counts, rounded to binary64: a reference without a word (empty, or
    only whitespace) gives the ratio 0 instead of a division by zero, a
    predicted summary without a word gives 0, and two summaries with as
    many words give exactly 1. *)
Theorem calculate_metrics_length_ratio
    (rouge_scorer : string -> string -> RougeScores)
    (sentence_bleu : list (list string) -> list string -> Qc)
    (predicted_summary reference_summary : string) :
  let metrics :=
    SummarizerEval.calculate_metrics rouge_scorer sentence_bleu
      predicted_summary reference_summary in
  let pred_words := length (py_words predicted_summary) in
  let ref_words := length (py_words reference_summary) in
  metrics !! "predicted_length" = Some (Qc_of_nat pred_words)
  ∧ metrics !! "reference_length" = Some (Qc_of_nat ref_words)
  ∧ (ref_words = 0%nat ↔ str_forallb is_space reference_summary = true)
  ∧ ∃ ratio, metrics !! "summary_length_ratio" = Some ratio
      ∧ (ref_words = 0%nat -> ratio = 0%Qc)
      ∧ (ref_words ≠ 0%nat ->
         ratio = round64 (Qc_of_nat pred_words / Qc_of_nat ref_words))
      ∧ (pred_words = 0%nat -> ratio = 0%Qc)
      ∧ (pred_words = ref_words -> ref_words ≠ 0%nat -> ratio = 1%Qc).
Proof.
  intros metrics pred_words ref_words.
  split; [reflexivity|]. split; [reflexivity|]. split.
  { subst ref_words. rewrite <- py_words_nil.
    destruct (py_words reference_summary); simpl; split; congruence. }
  eexists. split; [reflexivity|].
  fold pred_words ref_words.
  destruct ref_words as [|n] eqn:E; simpl.
  - repeat split; done.
  - repeat split; try done.
    + intros E0. rewrite E0. apply Qc_is_canon. reflexivity.
    + intros E1 _. rewrite E1. unfold fdiv, Qcdiv.
      rewrite Qcmult_inv_r by (apply Qc_of_nat_nonzero; lia).
      apply Qc_is_canon. vm_compute. reflexivity.
Qed.

(** ** More on the evaluation of the RAG system *)

Lemma metric_events_log (rename : string -> string) (m : gmap string Qc) :
  Forall (fun ev => logs_result ev = true) (metric_events rename m).
Proof.
  unfold metric_events. induction (map_to_list m) as [|[k v] l IH]; simpl.
  - constructor.
  - destruct (bool_decide (k ≠ "sample_id")); simpl; [constructor|]; done.
Qed.

Section RagEvaluationMore.
Variable qa_chain : string -> result RagEval.QAResult.
Variable qa_seconds : string -> Qc.
Variable rouge_scorer : string -> string -> RougeScores.
Variable bert_score : string -> string -> Score.
Variable context_relevancy : list string -> string -> Qc.
Variable faithfulness : string -> string -> string -> Qc.
Variable answer_relevancy : string -> string -> string -> Qc.
Variable strftime : Qc -> string.
Variable series_mean : list Qc -> Qc.

Local Abbreviation evaluate_sample :=
  (RagEval.evaluate_sample qa_chain qa_seconds rouge_scorer bert_score
     context_relevancy faithfulness answer_relevancy).
Local Abbreviation evaluate_samples :=
  (RagEval.evaluate_samples qa_chain qa_seconds rouge_scorer bert_score
     context_relevancy faithfulness answer_relevancy).
Local Abbreviation evaluate_rag_system :=
  (RagEval.evaluate_rag_system qa_chain qa_seconds rouge_scorer bert_score
     context_relevancy faithfulness answer_relevancy strftime series_mean).
Local Abbreviation complete := (complete_sample qa_chain).
Local Abbreviation row_of :=
  (rag_row qa_chain qa_seconds rouge_scorer bert_score context_relevancy
     faithfulness answer_relevancy).
Local Abbreviation rows_of :=
  (rag_rows qa_chain qa_seconds rouge_scorer bert_score context_relevancy
     faithfulness answer_relevancy).
Local Abbreviation sample_events :=
  (rag_sample_events qa_chain qa_seconds rouge_scorer bert_score
     context_relevancy faithfulness answer_relevancy).

(** Whatever the sample, the loop body only adds metrics to the MLflow log
    and writes no file. *)
Lemma evaluate_sample_effect (i : nat) (sample : gmap string string)
    (w w' : RagEval.World) (r : result (gmap string Qc)) :
  evaluate_sample i sample w = (r, w') ->
  ∃ evs, RagEval.mlflow w' = RagEval.mlflow w ++ evs
         ∧ Forall (fun ev => logs_result ev = true) evs
         ∧ RagEval.files w' = RagEval.files w.
Proof.
  assert (Hnil : ∀ (r0 : result (gmap string Qc)) (c : Qc),
             (r0, RagEval.mkWorld c (RagEval.mlflow w) (RagEval.files w))
             = (r, w') ->
             ∃ evs, RagEval.mlflow w' = RagEval.mlflow w ++ evs
                    ∧ Forall (fun ev => logs_result ev = true) evs
                    ∧ RagEval.files w' = RagEval.files w).
  { intros r0 c [= <- <-]. exists []. by rewrite app_nil_r. }
  destruct (sample !! "question") as [q|] eqn:Hq.
  2: { unfold RagEval.evaluate_sample, RagEval.time, gets, lift, dict_getitem,
         mbind, M_bind.
       rewrite Hq. simpl. destruct w. apply Hnil. }
  destruct (qa_chain q) as [qa|e] eqn:Hqa.
  2: { unfold RagEval.evaluate_sample, RagEval.time, RagEval.run_qa_chain,
         gets, lift, dict_getitem, mbind, M_bind.
       rewrite Hq. simpl. rewrite Hqa. simpl. apply Hnil. }
  destruct (sample !! "expected_answer") as [ea|] eqn:Hea.
  2: { unfold RagEval.evaluate_sample, RagEval.time, RagEval.run_qa_chain,
         gets, lift, dict_getitem, mbind, M_bind.
       rewrite Hq. simpl. rewrite Hqa. simpl. rewrite Hea. simpl. apply Hnil. }
  destruct (sample !! "context") as [c|] eqn:Hc.
  2: { rewrite (evaluate_sample_context_key_error _ _ _ _ _ _ _ i sample w
                  q ea qa Hq Hea Hqa Hc).
       apply Hnil. }
  rewrite evaluate_sample_ok by (exists q, ea, c, qa; done).
  intros E. apply pair_equal_spec in E as [_ <-].
  cbn [RagEval.mlflow RagEval.files].
  eexists. split; [reflexivity|]. split; [|reflexivity].
  apply (metric_events_log (fun k => k +:+ "_" +:+ pretty i)).
Qed.

Lemma evaluate_samples_effect (qa_samples : list (gmap string string)) :
  ∀ i all_metrics w r w',
  evaluate_samples i qa_samples all_metrics w = (r, w') ->
  ∃ evs, RagEval.mlflow w' = RagEval.mlflow w ++ evs
         ∧ Forall (fun ev => logs_result ev = true) evs
         ∧ RagEval.files w' = RagEval.files w.
Proof.
  induction qa_samples as [|s rest IH]; intros i all_metrics w r w'; simpl.
  - intros [= <- <-]. exists []. by rewrite app_nil_r.
  - unfold mbind, M_bind.
    destruct (evaluate_sample i s w) as [[row|e] w1] eqn:E;
      apply evaluate_sample_effect in E as (evs & Hm & Hall & Hf).
    + intros E'. apply IH in E' as (evs' & Hm' & Hall' & Hf').
      exists (evs ++ evs'). rewrite Hm', Hm, Hf', Hf, <- app_assoc.
      split; [done|]. split; [|done]. by apply Forall_app.
    + intros [= <- <-]. eauto.
Qed.

(** The samples before the first failure are processed as in a run that
    succeeds. *)
Lemma evaluate_samples_app (good : list (gmap string string)) :
  Forall complete good ->
  ∀ rest i all_metrics w,
  ∃ w1, evaluate_samples i (good ++ rest) all_metrics w
        = evaluate_samples (i + length good) rest
            (all_metrics ++ rows_of i good) w1
        ∧ RagEval.mlflow w1 = RagEval.mlflow w ++ sample_events i good
        ∧ RagEval.files w1 = RagEval.files w.
Proof.
  induction 1 as [|s good Hs _ IH]; intros rest i all_metrics w; simpl.
  - exists w. by rewrite Nat.add_0_r, !app_nil_r.
  - unfold mbind at 1, M_bind.
    rewrite (evaluate_sample_ok _ _ _ _ _ _ _ i s w Hs).
    edestruct (IH rest (S i)) as (w1 & -> & Hm & Hf).
    exists w1. rewrite Hm, Hf. simpl.
    rewrite <- !app_assoc, Nat.add_succ_r. done.
Qed.

End RagEvaluationMore.

(** X19.  A run of [evaluate_rag_system] in which the chain fails on a
    question, all samples before it being complete: the exception of the
    chain leaves the function, the metrics of the earlier samples stay in
    the MLflow log and the run is ended, while no average is logged and no
    table is written. *)
Theorem evaluate_rag_system_stops_at_failure
    (qa_chain : string -> result RagEval.QAResult) (qa_seconds : string -> Qc)
    (rouge_scorer : string -> string -> RougeScores)
    (bert_score : string -> string -> Score)
    (context_relevancy : list string -> string -> Qc)
    (faithfulness answer_relevancy : string -> string -> string -> Qc)
    (strftime : Qc -> string) (series_mean : list Qc -> Qc)
    (good rest : list (gmap string string)) (bad : gmap string string)
    (question : string) (e : exn) (w : RagEval.World) :
  Forall (complete_sample qa_chain) good ->
  bad !! "question" = Some question ->
  qa_chain question = Raises e ->
  ∃ w',
    RagEval.evaluate_rag_system qa_chain qa_seconds rouge_scorer bert_score
      context_relevancy faithfulness answer_relevancy strftime series_mean
      (good ++ bad :: rest) w
    = (Raises e, w')
    ∧ RagEval.mlflow w'
      = RagEval.mlflow w
        ++ [StartRun ("rag_evaluation_" +:+ strftime (RagEval.clock w))]
        ++ rag_sample_events qa_chain qa_seconds rouge_scorer bert_score
             context_relevancy faithfulness answer_relevancy 0 good
        ++ [EndRun]
    ∧ RagEval.files w' = RagEval.files w.
Proof.
  intros Hgood Hq He.
  unfold RagEval.evaluate_rag_system, RagEval.time, gets, with_block.
  unfold mbind at 1, M_bind. simpl.
  unfold mbind at 1, M_bind.
  match goal with
  | |- context [RagEval.evaluate_samples _ _ _ _ _ _ _ 0 _ [] ?w0] =>
      destruct (evaluate_samples_app qa_chain qa_seconds rouge_scorer
                  bert_score context_relevancy faithfulness answer_relevancy
                  good Hgood (bad :: rest) 0%nat [] w0)
        as (w1 & -> & Hm & Hf)
  end.
  simpl RagEval.evaluate_samples. unfold mbind at 1, M_bind.
  unfold RagEval.evaluate_sample at 1, RagEval.time, RagEval.run_qa_chain,
    gets, lift, dict_getitem.
  unfold mbind at 1 2 3, M_bind. rewrite Hq. simpl. rewrite He. simpl.
  eexists. split; [reflexivity|]. simpl. rewrite Hm, Hf. simpl.
  by rewrite <- !app_assoc.
Qed.

Lemma evaluate_rag_system_stops_at_failure_witness :
  ∃ w',
    RagEval.evaluate_rag_system
      (fun q => if String.eqb q "what" then example_qa_chain q
                else Raises (UpstreamError "rate limit"))
      example_seconds example_rouge example_bert example_context_relevancy
      example_faithfulness example_answer_relevancy example_strftime mean64
      ([sample_one] ++ sample_two :: [sample_one])
      (RagEval.mkWorld 0%Qc [] [])
    = (Raises (UpstreamError "rate limit"), w')
    ∧ RagEval.files w' = [].
Proof.
  destruct (evaluate_rag_system_stops_at_failure
              (fun q => if String.eqb q "what" then example_qa_chain q
                        else Raises (UpstreamError "rate limit"))
              example_seconds example_rouge example_bert
              example_context_relevancy example_faithfulness
              example_answer_relevancy example_strftime mean64
              [sample_one] [sample_one] sample_two "why so"
              (UpstreamError "rate limit") (RagEval.mkWorld 0%Qc [] []))
    as (w' & E & _ & Hf).
  - constructor; [|constructor].
    exists "what", "answer to what", "a passage",
      (RagEval.mkQA "answer to what" ["a passage"]).
    repeat split; reflexivity.
  - reflexivity.
  - reflexivity.
  - exists w'. split; assumption.
Defined.

(** X20.  Whatever the samples, the chain and the scorers do,
    [evaluate_rag_system] keeps the earlier MLflow log, starts one run,
    logs only metrics and artifacts in it and ends it, also when an
    exception leaves the function; the table is written to
    [evaluation_results.csv] exactly when the function returns it. *)
Theorem evaluate_rag_system_closes_run
    (qa_chain : string -> result RagEval.QAResult) (qa_seconds : string -> Qc)
    (rouge_scorer : string -> string -> RougeScores)
    (bert_score : string -> string -> Score)
    (context_relevancy : list string -> string -> Qc)
    (faithfulness answer_relevancy : string -> string -> string -> Qc)
    (strftime : Qc -> string) (series_mean : list Qc -> Qc)
    (qa_samples : list (gmap string string)) (w : RagEval.World) :
  let run :=
    RagEval.evaluate_rag_system qa_chain qa_seconds rouge_scorer bert_score
      context_relevancy faithfulness answer_relevancy strftime series_mean qa_samples w in
  (∃ evs,
     RagEval.mlflow run.2
     = RagEval.mlflow w
       ++ [StartRun ("rag_evaluation_" +:+ strftime (RagEval.clock w))]
       ++ evs ++ [EndRun]
     ∧ Forall (fun ev => logs_result ev = true) evs)
  ∧ RagEval.files run.2
    = RagEval.files w
      ++ match run.1 with
         | Returns rows => [("evaluation_results.csv", rows)]
         | Raises _ => []
         end.
Proof.
  cbv zeta.
  destruct (RagEval.evaluate_rag_system qa_chain qa_seconds rouge_scorer
              bert_score context_relevancy faithfulness answer_relevancy
              strftime series_mean qa_samples w) as [r w'] eqn:E.
  cbn [fst snd]. revert E.
  unfold RagEval.evaluate_rag_system, RagEval.time, gets, with_block.
  unfold mbind at 1, M_bind. simpl.
  unfold mbind at 1, M_bind.
  match goal with
  | |- context [RagEval.evaluate_samples _ _ _ _ _ _ _ 0 _ [] ?w0] =>
      destruct (RagEval.evaluate_samples qa_chain qa_seconds rouge_scorer
                  bert_score context_relevancy faithfulness answer_relevancy
                  0 qa_samples [] w0) as [[rows|e] w1] eqn:E;
      apply evaluate_samples_effect in E as (evs & Hm & Hall & Hf)
  end; simpl in Hm, Hf.
  - unfold RagEval.log_averages. unfold mbind at 1, M_bind.
    rewrite rag_for_each_log. simpl. intros [= <- <-]. simpl.
    rewrite Hm, Hf. split; [|reflexivity].
    eexists (evs ++ metric_events (fun k => "avg_" +:+ k)
                      (df_mean series_mean rows)
             ++ [LogArtifact "evaluation_results.csv"]).
    split; [unfold metric_events; by rewrite <- !app_assoc|].
    apply Forall_app. split; [done|]. apply Forall_app. split.
    + apply metric_events_log.
    + by constructor.
  - simpl. intros [= <- <-]. simpl.
    rewrite Hm, Hf, app_nil_r. split; [|reflexivity].
    exists evs. split; [by rewrite <- !app_assoc|done].
Qed.

Lemma rag_rows_lookup
    (qa_chain : string -> result RagEval.QAResult) (qa_seconds : string -> Qc)
    (rouge_scorer : string -> string -> RougeScores)
    (bert_score : string -> string -> Score)
    (context_relevancy : list string -> string -> Qc)
    (faithfulness answer_relevancy : string -> string -> string -> Qc)
    (qa_samples : list (gmap string string)) (i j : nat) :
  rag_rows qa_chain qa_seconds rouge_scorer bert_score context_relevancy
    faithfulness answer_relevancy i qa_samples !! j
  = rag_row qa_chain qa_seconds rouge_scorer bert_score context_relevancy
      faithfulness answer_relevancy (i + j) <$> qa_samples !! j.
Proof.
  revert i j. induction qa_samples as [|s rest IH]; intros i j; [done|].
  destruct j as [|j]; simpl.
  - by rewrite Nat.add_0_r.
  - rewrite IH. by rewrite Nat.add_succ_r.
Qed.

(** X21.  On samples that all have their three fields and an answer from
    the chain, [evaluate_rag_system] returns the table it has written to
    [evaluation_results.csv]: one row per sample, in the order of the
    samples; the row of the sample at position [i] has the eleven columns
    of the table, [i] as its [sample_id] and the time the chain took on
    its question as its [response_time]. *)
Theorem evaluate_rag_system_table
    (qa_chain : string -> result RagEval.QAResult) (qa_seconds : string -> Qc)
    (rouge_scorer : string -> string -> RougeScores)
    (bert_score : string -> string -> Score)
    (context_relevancy : list string -> string -> Qc)
    (faithfulness answer_relevancy : string -> string -> string -> Qc)
    (strftime : Qc -> string) (series_mean : list Qc -> Qc)
    (qa_samples : list (gmap string string)) (w : RagEval.World) :
  Forall (complete_sample qa_chain) qa_samples ->
  ∃ rows w',
    RagEval.evaluate_rag_system qa_chain qa_seconds rouge_scorer bert_score
      context_relevancy faithfulness answer_relevancy strftime series_mean qa_samples w
    = (Returns rows, w')
    ∧ RagEval.files w' = RagEval.files w ++ [("evaluation_results.csv", rows)]
    ∧ length rows = length qa_samples
    ∧ ∀ i sample question,
        qa_samples !! i = Some sample ->
        sample !! "question" = Some question ->
        ∃ row, rows !! i = Some row
               ∧ dom row = list_to_set rag_columns
               ∧ row !! "sample_id" = Some (Qc_of_nat i)
               ∧ row !! "response_time" = Some (qa_seconds question).
Proof.
  intros Hc.
  destruct (evaluate_samples_app qa_chain qa_seconds rouge_scorer bert_score
              context_relevancy faithfulness answer_relevancy
              qa_samples Hc [] 0%nat []
              (RagEval.mkWorld (RagEval.clock w)
                 (RagEval.mlflow w
                  ++ [StartRun ("rag_evaluation_"
                                +:+ strftime (RagEval.clock w))])
                 (RagEval.files w)))
    as (w1 & E & _ & Hf).
  rewrite app_nil_r in E. simpl in E, Hf.
  eexists _, _. split; [|split; [|split]].
  - unfold RagEval.evaluate_rag_system, RagEval.time, gets, with_block.
    unfold mbind at 1, M_bind. simpl.
    unfold mbind at 1, M_bind. rewrite E. simpl.
    unfold RagEval.log_averages. unfold mbind at 1, M_bind.
    rewrite rag_for_each_log. simpl. reflexivity.
  - simpl. by rewrite Hf.
  - apply rows_of_length.
  - intros i sample question Hi Hq.
    rewrite rag_rows_lookup, Hi. simpl. eexists. split; [reflexivity|].
    split; [|split].
    + rewrite rag_row_dom.
      unfold rag_row, RagEval.evaluate_generation, RagEval.evaluate_retrieval,
        RagEval.calculate_bert_scores, RagEval.calculate_rouge_scores.
      rewrite !dom_union_L, !dom_insert_L, !dom_singleton_L.
      unfold rag_columns. simpl. set_solver.
    + apply rag_row_sample_id.
    + rewrite (rag_row_lookup_ne _ _ _ _ _ _ _ i 0 sample) by done.
      unfold rag_row, RagEval.evaluate_generation, RagEval.evaluate_retrieval,
        RagEval.calculate_bert_scores, RagEval.calculate_rouge_scores.
      rewrite (lookup_total_correct _ _ _ Hq). reflexivity.
Qed.

Lemma evaluate_rag_system_table_witness :
  ∃ rows w',
    RagEval.evaluate_rag_system example_qa_chain example_seconds example_rouge
      example_bert example_context_relevancy example_faithfulness
      example_answer_relevancy example_strftime mean64 [sample_one; sample_two]
      (RagEval.mkWorld 0%Qc [] [])
    = (Returns rows, w')
    ∧ RagEval.files w' = [("evaluation_results.csv", rows)]
    ∧ length rows = 2%nat.
Proof.
  destruct (evaluate_rag_system_table example_qa_chain example_seconds
              example_rouge example_bert example_context_relevancy
              example_faithfulness example_answer_relevancy example_strftime mean64
              [sample_one; sample_two] (RagEval.mkWorld 0%Qc [] []))
    as (rows & w' & E & Hf & Hl & _).
  - repeat constructor.
    + exists "what", "answer to what", "a passage",
        (RagEval.mkQA "answer to what" ["a passage"]).
      repeat split; reflexivity.
    + exists "why so", "because", "another passage",
        (RagEval.mkQA "answer to why so" ["a passage"]).
      repeat split; reflexivity.
  - exists rows, w'. repeat split; assumption.
Defined.

(** ** More on the evaluation of the summarizer *)

(** X22.  The evaluation notebook of the summarizer as it is, where the
    name [os] is not bound: on test data whose first example has its two
    fields and a summary from the model, [evaluate_model_with_mlflow]
    logs the parameters and the nine metrics of that example, then stops
    at [os.makedirs] with a [NameError]; the run is ended, no file is
    written, no later example is looked at and no average is logged. *)
Theorem evaluate_model_unbound_os
    (rouge_scorer : string -> string -> RougeScores)
    (sentence_bleu : list (list string) -> list string -> Qc)
    (run_id : string) (np_mean : list Qc -> Qc)
    (model : SummarizerEval.Model)
    (example : gmap string string) (rest : list (gmap string string))
    (w : SummarizerEval.World) :
  complete_example model example ->
  SummarizerEval.evaluate_model_with_mlflow rouge_scorer sentence_bleu false
    run_id np_mean model (example :: rest) w
  = (Raises (NameError "os"),
     SummarizerEval.mkWorld
       (SummarizerEval.mlflow w
        ++ [SetExperiment "youtube-summarizer-evaluation";
            StartRun "model_evaluation";
            LogParams (default ∅ (SummarizerEval.get_config model))]
        ++ ((fun '(k, v) => LogMetric ("example_" +:+ pretty 0%nat +:+ "_" +:+ k) v)
              <$> map_to_list (example_row rouge_scorer sentence_bleu model
                                 example))
        ++ [EndRun])
       (SummarizerEval.files w)).
Proof.
  intros (url & ref & summary & Hu & Hr & Hm).
  unfold example_row, summary_of.
  rewrite (lookup_total_correct _ _ _ Hu), (lookup_total_correct _ _ _ Hr), Hm.
  unfold SummarizerEval.evaluate_model_with_mlflow, with_block,
    SummarizerEval.emit, modify.
  unfold mbind at 1, M_bind. simpl.
  unfold mbind at 1, M_bind. simpl.
  unfold mbind at 1, M_bind.
  unfold mbind at 1, M_bind.
  unfold SummarizerEval.evaluate_example at 1, lift, dict_getitem.
  unfold mbind at 1 2 3 4, M_bind.
  rewrite Hu. simpl. rewrite Hm. simpl. rewrite Hr. simpl.
  rewrite (summarizer_for_each_log
             (fun k => "example_" +:+ pretty 0%nat +:+ "_" +:+ k)).
  unfold SummarizerEval.os_makedirs, raise, mbind, M_bind. simpl.
  rewrite <- !app_assoc. reflexivity.
Qed.

Lemma evaluate_model_unbound_os_witness :
  (SummarizerEval.evaluate_model_with_mlflow example_rouge example_bleu false
     "run-1" mean64 example_model [test_one; test_two]
     (SummarizerEval.mkWorld [] [])).1
  = Raises (NameError "os").
Proof.
  rewrite (evaluate_model_unbound_os example_rouge example_bleu "run-1"
             mean64 example_model test_one [test_two]
             (SummarizerEval.mkWorld [] [])).
  - reflexivity.
  - exists "https://youtu.be/abc", "a short reference",
      "summary of https://youtu.be/abc".
    repeat split; reflexivity.
Defined.

(** X23.  Without a test example, [evaluate_model_with_mlflow] fails at
    [all_metrics[0]] with an [IndexError], whether or not [os] is bound
    and whatever the model: the experiment is set, the run is started, the
    parameters are logged and the run is ended. *)
Theorem evaluate_model_no_examples
    (rouge_scorer : string -> string -> RougeScores)
    (sentence_bleu : list (list string) -> list string -> Qc)
    (os_bound : bool) (run_id : string) (np_mean : list Qc -> Qc)
    (model : SummarizerEval.Model)
    (w : SummarizerEval.World) :
  SummarizerEval.evaluate_model_with_mlflow rouge_scorer sentence_bleu os_bound
    run_id np_mean model [] w
  = (Raises IndexError,
     SummarizerEval.mkWorld
       (SummarizerEval.mlflow w
        ++ [SetExperiment "youtube-summarizer-evaluation";
            StartRun "model_evaluation";
            LogParams (default ∅ (SummarizerEval.get_config model));
            EndRun])
       (SummarizerEval.files w)).
Proof.
  unfold SummarizerEval.evaluate_model_with_mlflow, with_block,
    SummarizerEval.emit, modify.
  unfold mbind, M_bind. simpl. rewrite <- !app_assoc. reflexivity.
Qed.

Section SummarizerEvaluationMore.
Variable rouge_scorer : string -> string -> RougeScores.
Variable sentence_bleu : list (list string) -> list string -> Qc.
Variable model : SummarizerEval.Model.

Local Abbreviation ex_row := (example_row rouge_scorer sentence_bleu model).
Local Abbreviation evaluate_example :=
  (SummarizerEval.evaluate_example rouge_scorer sentence_bleu).
Local Abbreviation evaluate_examples :=
  (SummarizerEval.evaluate_examples rouge_scorer sentence_bleu).

(** Where [os] is bound, the loop body writes the two summaries of a
    complete example. *)
Lemma evaluate_example_files (i : nat) (example : gmap string string)
    (w : SummarizerEval.World) :
  complete_example model example ->
  ∃ w', evaluate_example true model i example w
        = (Returns (ex_row example), w')
        ∧ length (SummarizerEval.files w')
          = (length (SummarizerEval.files w) + 2)%nat.
Proof.
  intros (url & ref & summary & Hu & Hr & Hm).
  unfold example_row, summary_of.
  rewrite (lookup_total_correct _ _ _ Hu), (lookup_total_correct _ _ _ Hr), Hm.
  unfold SummarizerEval.evaluate_example, lift, dict_getitem.
  unfold mbind at 1 2 3 4, M_bind.
  rewrite Hu. simpl. rewrite Hm. simpl. rewrite Hr. simpl.
  rewrite (summarizer_for_each_log
             (fun k => "example_" +:+ pretty i +:+ "_" +:+ k)).
  unfold SummarizerEval.os_makedirs, SummarizerEval.write_file,
    SummarizerEval.emit, modify, mbind, M_bind. simpl.
  eexists. split; [reflexivity|]. simpl. rewrite !length_app. simpl. lia.
Qed.

Lemma evaluate_examples_app (good : list (gmap string string)) :
  Forall (complete_example model) good ->
  ∀ rest i all_metrics w,
  ∃ w1, evaluate_examples true model i (good ++ rest) all_metrics w
        = evaluate_examples true model (i + length good) rest
            (all_metrics ++ (ex_row <$> good)) w1
        ∧ length (SummarizerEval.files w1)
          = (length (SummarizerEval.files w) + 2 * length good)%nat.
Proof.
  induction 1 as [|ex good Hex _ IH]; intros rest i all_metrics w; simpl.
  - exists w. rewrite Nat.add_0_r, !app_nil_r. split; [done|lia].
  - unfold mbind at 1, M_bind.
    destruct (evaluate_example_files i ex w Hex) as (w0 & -> & Hf0).
    edestruct (IH rest (S i)) as (w1 & -> & Hf).
    exists w1. rewrite <- !app_assoc, Nat.add_succ_r. split; [done|lia].
Qed.

End SummarizerEvaluationMore.

(** X24.  With [os] bound, a run of [evaluate_model_with_mlflow] in which
    the model fails on a video, all examples before it being complete:
    the exception of the model leaves the function, the two summary files
    of each earlier example have been written, and the last thing logged
    is the end of the run. *)
Theorem evaluate_model_stops_at_failure
    (rouge_scorer : string -> string -> RougeScores)
    (sentence_bleu : list (list string) -> list string -> Qc)
    (run_id : string) (np_mean : list Qc -> Qc)
    (model : SummarizerEval.Model)
    (good rest : list (gmap string string)) (bad : gmap string string)
    (video_url : string) (e : exn) (w : SummarizerEval.World) :
  Forall (complete_example model) good ->
  bad !! "video_url" = Some video_url ->
  SummarizerEval.model_call model video_url = Raises e ->
  ∃ w',
    SummarizerEval.evaluate_model_with_mlflow rouge_scorer sentence_bleu true
      run_id np_mean model (good ++ bad :: rest) w
    = (Raises e, w')
    ∧ length (SummarizerEval.files w')
      = (length (SummarizerEval.files w) + 2 * length good)%nat
    ∧ last (SummarizerEval.mlflow w') = Some EndRun.
Proof.
  intros Hgood Hu He.
  unfold SummarizerEval.evaluate_model_with_mlflow, with_block,
    SummarizerEval.emit, modify.
  unfold mbind at 1, M_bind. simpl.
  unfold mbind at 1, M_bind. simpl.
  unfold mbind at 1, M_bind.
  match goal with
  | |- context [SummarizerEval.evaluate_examples _ _ _ _ 0 _ [] ?w0] =>
      destruct (evaluate_examples_app rouge_scorer sentence_bleu model
                  good Hgood (bad :: rest) 0%nat [] w0)
        as (w1 & -> & Hf)
  end.
  simpl SummarizerEval.evaluate_examples. unfold mbind at 1, M_bind.
  unfold SummarizerEval.evaluate_example at 1, lift, dict_getitem.
  unfold mbind at 1 2, M_bind. rewrite Hu. simpl. rewrite He. simpl.
  eexists. split; [reflexivity|]. simpl. split.
  - exact Hf.
  - apply last_snoc.
Qed.

Lemma evaluate_model_stops_at_failure_witness :
  ∃ w',
    SummarizerEval.evaluate_model_with_mlflow example_rouge example_bleu true
      "run-1" mean64
      (SummarizerEval.mkModel
         (fun url => if String.eqb url "https://youtu.be/abc"
                     then Returns "a summary"
                     else Raises (UpstreamError "no transcript"))
         None)
      ([test_one] ++ test_two :: []) (SummarizerEval.mkWorld [] [])
    = (Raises (UpstreamError "no transcript"), w')
    ∧ length (SummarizerEval.files w') = 2%nat.
Proof.
  destruct (evaluate_model_stops_at_failure example_rouge example_bleu "run-1"
              mean64
              (SummarizerEval.mkModel
                 (fun url => if String.eqb url "https://youtu.be/abc"
                             then Returns "a summary"
                             else Raises (UpstreamError "no transcript"))
                 None)
              [test_one] [] test_two "https://youtu.be/xyz"
              (UpstreamError "no transcript") (SummarizerEval.mkWorld [] []))
    as (w' & E & Hf & _).
  - constructor; [|constructor].
    exists "https://youtu.be/abc", "a short reference", "a summary".
    repeat split; reflexivity.
  - reflexivity.
  - reflexivity.
  - exists w'. split; assumption.
Defined.
